(** * Qudi instrument drivers, pulse generators and consoles: a shallow embedding

    The Python sources embedded here are

    - [hardware/fastcomtec/fastcomtecp7887.py]
        (modules [FastComtec], [FastComtecMore]),
    - [hardware/national_instruments_x_series.py]
        (modules [NationalInstrumentsXSeries], [NationalInstrumentsMore]),
    - [logic/pulsed/predefined_generate_methods/pentacene_methods.py]
        (modules [PentaceneMethods], [PentaceneMore]),
    - [gui/cavity_stabilisation/cavity_stabilisation_gui.py]
        (module [CavityStabilisationGui]).

    Conventions.  A method of a driver object is a computation in the monad
    [M St A]: it receives the object's state, and either returns a value with
    the new state, raises a Python exception with the state reached so far, or
    runs out of the fuel given to its [while] loops.  Vendor libraries (the
    counting card's DLL, NI-DAQmx) are oracles carried inside the state; every
    call made to them is appended to a trace.

    Numbers.  Python integers are [Z].  In the counting-card driver Python
    floats are IEEE binary64 values ([PrimFloat.float]), because the bin count
    computed by [configure] depends on rounding.  In the DAQ driver numbers
    are kept as the rationals they denote ([Q]), which is exact for the
    comparisons the driver makes; where it computes with them (the voltages of
    the scanner, the counts per second of the counter) they enter as the
    nearest double ([PyFloat.of_Q]) and the arithmetic is that of binary64.
    The clock rate, which is only doubled and halved again, stays a rational:
    the statements about it carry the bound under which both steps are exact.
    In the pulse generators and the cavity console floats are modelled by
    exact rationals: rounding and overflow are not represented there. *)

From Stdlib Require Import ZArith QArith Qround Lia Lqa.
From Stdlib Require Import Floats.PrimFloat Floats.SpecFloat Floats.FloatOps.
From stdpp Require Import gmap strings list.

Set Warnings "-inexact-float".

(** * Python outcomes and the driver monad *)

Inductive exn : Set :=
| AttributeError
| TypeError
| ValueError
| IndexError
| KeyError
| ZeroDivisionError
| OverflowError
| DaqError.

Inductive outcome (St A : Type) : Type :=
| Ret (a : A) (s : St)
| Raise (e : exn) (s : St)
| Diverge.

Arguments Ret {St A} a s.
Arguments Raise {St A} e s.
Arguments Diverge {St A}.

Definition M (St A : Type) : Type := St -> outcome St A.

Definition ret {St A} (a : A) : M St A := fun s => Ret a s.

Definition bind {St A B} (c : M St A) (k : A -> M St B) : M St B :=
  fun s =>
    match c s with
    | Ret a s' => k a s'
    | Raise e s' => Raise e s'
    | Diverge => Diverge
    end.

Definition raise {St A} (e : exn) : M St A := fun s => Raise e s.

Definition gets {St A} (f : St -> A) : M St A := fun s => Ret (f s) s.

Definition modify {St} (f : St -> St) : M St unit := fun s => Ret tt (f s).

Notation "'let*' x ':=' c 'in' k" := (bind c (fun x => k))
  (at level 10, x name, c at level 100, k at level 200).

Notation "c1 '>>' c2" := (bind c1 (fun _ => c2))
  (at level 90, right associativity).

(** Python's bare [try: body except: handler]: every exception is caught. *)
Definition try_except {St A} (body handler : M St A) : M St A :=
  fun s =>
    match body s with
    | Raise _ s' => handler s'
    | o => o
    end.

(** [while cond: body], with the loop-carried locals in [l].  The condition
    is itself a computation (it may poll the device).  [fuel] bounds the number
    of times the condition is evaluated. *)
Fixpoint while {St L} (fuel : nat) (cond : L -> M St bool) (body : L -> M St L)
    (l : L) : M St L :=
  match fuel with
  | O => fun _ => Diverge
  | S fuel' =>
      let* c := cond l in
      if (c : bool) then (let* l' := body l in while fuel' cond body l') else ret l
  end.

(** * IEEE helpers for the Python float operations used by the drivers *)

Module PyFloat.

(** Value of a finite float as [mantissa * 2 ^ exponent]. *)
Definition signed (s : bool) (m : positive) : Z :=
  if s then Z.neg m else Z.pos m.

(** [int(f)]: truncation toward zero; [nan] and the infinities raise. *)
Definition int {St} (f : float) : M St Z :=
  match Prim2SF f with
  | S754_zero _ => ret 0%Z
  | S754_nan => raise ValueError
  | S754_infinity _ => raise OverflowError
  | S754_finite s m e =>
      ret (if (0 <=? e)%Z then (signed s m * 2 ^ e)%Z
           else Z.quot (signed s m) (2 ^ (- e)))
  end.

(** [float(z)] for a Python integer, rounded to nearest. *)
Definition of_Z (z : Z) : float :=
  SF2Prim (binary_normalize prec emax z 0 false).

(** The double nearest to a rational, ties to even: [n / d] on Python
    integers, and the double itself for a rational that is one. *)
Definition of_Q (q : Q) : float :=
  match Qnum q with
  | Z0 => 0%float
  | Zpos n =>
      SF2Prim (SFdiv prec emax (S754_finite false n 0) (S754_finite false (Qden q) 0))
  | Zneg n =>
      SF2Prim (SFdiv prec emax (S754_finite true n 0) (S754_finite false (Qden q) 0))
  end.


(** [a / b] on Python floats: a zero divisor raises. *)
Definition truediv {St} (a b : float) : M St float :=
  if PrimFloat.eqb b 0%float then raise ZeroDivisionError else ret (a / b)%float.

(** [z < f] for a Python integer and a float; Python compares the exact
    values. *)
Definition Z_lt (z : Z) (f : float) : bool :=
  match Prim2SF f with
  | S754_zero _ => (z <? 0)%Z
  | S754_nan => false
  | S754_infinity s => negb s
  | S754_finite s m e =>
      if (0 <=? e)%Z then (z <? signed s m * 2 ^ e)%Z
      else (z * 2 ^ (- e) <? signed s m)%Z
  end.

(** [int(np.log2(x))].  [np.log2] of zero is [-inf] and of a negative number
    [nan], on which [int] raises.  For a positive finite [x] the exact
    logarithm is truncated toward zero; the last-bit rounding of the library
    logarithm just below a power of two is not represented. *)
Definition int_log2 {St} (x : float) : M St Z :=
  match Prim2SF x with
  | S754_zero _ => raise OverflowError
  | S754_nan => raise ValueError
  | S754_infinity s => if s then raise ValueError else raise OverflowError
  | S754_finite true _ _ => raise ValueError
  | S754_finite false m e =>
      let l := (Z.log2 (Z.pos m) + e)%Z in
      ret (if (0 <=? l)%Z then l
           else if (Z.pos m =? 2 ^ Z.log2 (Z.pos m))%Z then l
           else (l + 1)%Z)
  end.

(** [2 ** n] as it enters a float product. *)
Definition pow2 (n : Z) : float := Z.ldexp 1%float n.

End PyFloat.

(** * The photon-counting card driver (fastcomtecp7887.py) *)

Module FastComtec.

(** ** ctypes structures shared with the vendor library *)

Inductive ctype : Set := c_int | c_long | c_ulong | c_double.

Inductive cval : Set :=
| CInt (z : Z)
| CDouble (f : float).

(** [_fields_] of [AcqStatus]. *)
Definition AcqStatus_fields : list (string * ctype) :=
  [ ("started", c_int); ("runtime", c_double); ("totalsum", c_double);
    ("roisum", c_double); ("roirate", c_double); ("ofls", c_double);
    ("sweeps", c_double); ("stevents", c_double); ("maxval", c_ulong) ].

(** [_fields_] of [AcqSettings]. *)
Definition AcqSettings_fields : list (string * ctype) :=
  [ ("range", c_ulong); ("prena", c_long); ("cftfak", c_long);
    ("roimin", c_ulong); ("roimax", c_ulong); ("eventpreset", c_double);
    ("timepreset", c_double); ("savedata", c_long); ("fmt", c_long);
    ("autoinc", c_long); ("cycles", c_long); ("sweepmode", c_long);
    ("syncout", c_long); ("bitshift", c_long); ("digval", c_long);
    ("digio", c_long); ("dac0", c_long); ("dac1", c_long);
    ("swpreset", c_double); ("nregions", c_long); ("caluse", c_long);
    ("fstchan", c_double); ("active", c_long); ("calpoints", c_long) ].

(** An instance of a [ctypes.Structure]: its declared fields, in order, with
    the values the library wrote into them. *)
Definition cstruct : Type := list (string * cval).

Definition fill (fields : list (string * ctype)) (mem : string -> ctype -> cval)
    : cstruct :=
  map (fun ft => (fst ft, mem (fst ft) (snd ft))) fields.

Fixpoint lookup_field (name : string) (o : cstruct) : option cval :=
  match o with
  | [] => None
  | (f, v) :: o' => if String.eqb f name then Some v else lookup_field name o'
  end.

(** Attribute read [o.name]: a name that is not a declared field raises. *)
Definition getattr {St} (o : cstruct) (name : string) : M St cval :=
  match lookup_field name o with
  | Some v => ret v
  | None => raise AttributeError
  end.

(** [int(v)]; the identity on the integer fields. *)
Definition pyint {St} (v : cval) : M St Z :=
  match v with
  | CInt z => ret z
  | CDouble f => PyFloat.int f
  end.

Definition getattr_int {St} (o : cstruct) (name : string) : M St Z :=
  let* v := getattr o name in pyint v.

(** ** The card behind [dp7887.dll] *)

(** Command strings sent through [RunCmd]: ['BITSHIFT=n'], ['RANGE=n'],
    ['roimax=n'], ['cycles=n'], ['sequences=n'], ['swpreset=n'],
    ['datname=s']. *)
Inductive command : Set :=
| Cmd_BITSHIFT (n : Z)
| Cmd_RANGE (n : Z)
| Cmd_roimax (n : Z)
| Cmd_cycles (n : Z)
| Cmd_sequences (n : Z)
| Cmd_swpreset (n : Z)
| Cmd_datname (s : string).

(** The card is an oracle: [regs] are its setting registers, [started_at n]
    and [sweeps_at n] are what the [n]-th status read reports, [hist] is the
    histogram memory and [dll_status] the code returned by Start, Halt and
    Continue. *)
Record device : Type := {
  regs : gmap string Z;
  started_at : nat -> Z;
  sweeps_at : nat -> float;
  polls : nat;
  hist : nat -> Z;
  dll_status : Z
}.

Definition set_regs (f : gmap string Z -> gmap string Z) (d : device) : device :=
  {| regs := f (regs d); started_at := started_at d; sweeps_at := sweeps_at d;
     polls := polls d; hist := hist d; dll_status := dll_status d |}.

Definition poll (d : device) : device :=
  {| regs := regs d; started_at := started_at d; sweeps_at := sweeps_at d;
     polls := S (polls d); hist := hist d; dll_status := dll_status d |}.

(** A command stores its operand in the register of the same name. *)
Definition dev_run (c : command) (d : device) : device :=
  match c with
  | Cmd_BITSHIFT n => set_regs (insert "bitshift" n) d
  | Cmd_RANGE n => set_regs (insert "range" n) d
  | Cmd_roimax n => set_regs (insert "roimax" n) d
  | Cmd_cycles n => set_regs (insert "cycles" n) d
  | Cmd_sequences n => set_regs (insert "sequences" n) d
  | Cmd_swpreset n => set_regs (insert "swpreset" n) d
  | Cmd_datname _ => d
  end.

Definition reg (d : device) (name : string) : Z := default 0%Z (regs d !! name).

Definition settings_struct (d : device) : cstruct :=
  fill AcqSettings_fields
    (fun f t => match t with
                | c_double => CDouble (PyFloat.of_Z (reg d f))
                | _ => CInt (reg d f)
                end).

Definition status_struct (d : device) : cstruct :=
  fill AcqStatus_fields
    (fun f t =>
       if String.eqb f "started" then CInt (started_at d (polls d))
       else if String.eqb f "sweeps" then CDouble (sweeps_at d (polls d))
       else match t with c_double => CDouble 0%float | _ => CInt 0%Z end).

(** ** numpy arrays and the driver object *)

Record ndarray : Type := { shape : list Z; items : list Z }.

Record info_dict : Type := {
  elapsed_sweeps : float;
  elapsed_time : option float
}.

(** What [self.timetrace_tmp] holds: the empty list, or whatever
    [get_data_trace] returned. *)
Inductive timetrace : Type :=
| EmptyList
| TraceInfo (t : ndarray) (i : info_dict).

Inductive level : Set := Debug | Info | Warning | Error.

Inductive event : Type :=
| Sleep (ms : Z)
| Log (l : level) (msg : string)
| RunCmdEv (c : command)
| DllCall (name : string).

(** The driver object; [trace] lists the events, most recent first. *)
Record state : Type := {
  gated : bool;
  trigger_safety : float;
  aom_delay : float;
  minimal_binwidth : float;
  stopped_or_halt : string;
  timetrace_tmp : timetrace;
  dll : device;
  trace : list event
}.

Definition set_stopped_or_halt (v : string) (s : state) : state :=
  {| gated := gated s; trigger_safety := trigger_safety s; aom_delay := aom_delay s;
     minimal_binwidth := minimal_binwidth s; stopped_or_halt := v;
     timetrace_tmp := timetrace_tmp s; dll := dll s; trace := trace s |}.

Definition set_timetrace_tmp (v : timetrace) (s : state) : state :=
  {| gated := gated s; trigger_safety := trigger_safety s; aom_delay := aom_delay s;
     minimal_binwidth := minimal_binwidth s; stopped_or_halt := stopped_or_halt s;
     timetrace_tmp := v; dll := dll s; trace := trace s |}.

Definition set_dll (f : device -> device) (s : state) : state :=
  {| gated := gated s; trigger_safety := trigger_safety s; aom_delay := aom_delay s;
     minimal_binwidth := minimal_binwidth s; stopped_or_halt := stopped_or_halt s;
     timetrace_tmp := timetrace_tmp s; dll := f (dll s); trace := trace s |}.

Definition add_event (e : event) (s : state) : state :=
  {| gated := gated s; trigger_safety := trigger_safety s; aom_delay := aom_delay s;
     minimal_binwidth := minimal_binwidth s; stopped_or_halt := stopped_or_halt s;
     timetrace_tmp := timetrace_tmp s; dll := dll s; trace := e :: trace s |}.

Definition log (l : level) (msg : string) : M state unit := modify (add_event (Log l msg)).

Definition sleep (ms : Z) : M state unit := modify (add_event (Sleep ms)).

Definition RunCmd (c : command) : M state unit :=
  modify (fun s => add_event (RunCmdEv c) (set_dll (dev_run c) s)).

Definition GetSettingData : M state cstruct := gets (fun s => settings_struct (dll s)).

Definition GetStatusData : M state cstruct :=
  fun s => Ret (status_struct (dll s)) (set_dll poll s).

(** [self.dll.Start(0)], [Halt(0)], [Continue(0)]. *)
Definition dll_call (name : string) : M state Z :=
  fun s => Ret (dll_status (dll s)) (add_event (DllCall name) s).

(** ** Methods *)

(** [get_constraints()['max_bins']]. *)
Definition max_bins : float := (6.8 / 0.25e-9)%float.

Definition get_status (fuel : nat) : M state Z :=
  let* status := GetStatusData in
  let* status :=
    while fuel
      (fun status => let* started := getattr_int status "started" in
                     ret (started =? 3)%Z)
      (fun _ => sleep 100 >> GetStatusData)
      status in
  let* started := getattr_int status "started" in
  if (started =? 1)%Z then ret 2%Z
  else if (started =? 0)%Z then
    let* soh := gets stopped_or_halt in
    if String.eqb soh "stopped" then ret 1%Z
    else if String.eqb soh "halt" then ret 3%Z
    else log Error "There is an unknown status from FastComtec." >> ret (-1)%Z
  else log Error "There is an unknown status from FastComtec." >> ret (-1)%Z.

Definition get_current_sweeps : M state float :=
  let* status := GetStatusData in
  let* v := getattr status "sweeps" in
  match v with
  | CDouble f => ret f
  | CInt z => ret (PyFloat.of_Z z)
  end.

Definition n_wait_max : Z := 20.

Definition start_measure (fuel : nat) : M state Z :=
  let* status := dll_call "Start" in
  let* i_wait :=
    while fuel
      (fun i_wait => let* st := get_status fuel in
                     ret (negb (st =? 2)%Z && (i_wait <? n_wait_max)%Z))
      (fun i_wait => sleep 50 >> ret (i_wait + 1)%Z)
      0%Z in
  (if (n_wait_max <=? i_wait)%Z then log Warning "Starting fastcomtec timed out."
   else ret tt) >>
  ret status.

Definition stop_measure (fuel : nat) : M state Z :=
  modify (set_stopped_or_halt "stopped") >>
  let* status := dll_call "Halt" in
  let* i_wait :=
    while fuel
      (fun i_wait => let* st := get_status fuel in
                     ret (negb (st =? 1)%Z && (i_wait <? n_wait_max)%Z))
      (fun i_wait => sleep 50 >> ret (i_wait + 1)%Z)
      0%Z in
  (if (n_wait_max <=? i_wait)%Z then log Warning "Stopping fastcomtec timed out."
   else ret tt) >>
  let* g := gets gated in
  (if g then modify (set_timetrace_tmp EmptyList) else ret tt) >>
  ret status.

(** [np.empty(shape, dtype=np.uint32)]: the number of items, or [ValueError]
    on a negative dimension. *)
Definition np_empty (sh : list Z) : M state nat :=
  if forallb (fun d => (0 <=? d)%Z) sh
  then ret (Z.to_nat (fold_right Z.mul 1%Z sh))
  else raise ValueError.

(** [LVGetDat] copies the histogram memory into the buffer. *)
Definition LVGetDat (n : nat) : M state (list Z) :=
  gets (fun s => map (hist (dll s)) (seq 0 n)).

(** [time_trace + self.timetrace_tmp] when the right operand is the tuple
    [(array, dict)]: numpy turns the tuple into an object array of shape (2,)
    and broadcasts it against the last axis.  A last axis other than 1 or 2
    cannot be broadcast ([ValueError]); otherwise an integer is added to the
    dictionary ([TypeError]).  (Recent numpy versions already refuse to build
    the ragged object array, with [ValueError].) *)
Definition add_tuple (a : ndarray) (t : ndarray) (i : info_dict) : M state ndarray :=
  match last (shape a) with
  | Some w => if ((w =? 1) || (w =? 2))%Z then raise TypeError else raise ValueError
  | None => raise TypeError
  end.

Definition get_data_trace : M state (ndarray * info_dict) :=
  let* setting := GetSettingData in
  let* N := getattr_int setting "range" in
  let* g := gets gated in
  let* sh :=
    (if (g : bool) then
       let* bsetting := GetSettingData in
       let* H := getattr_int bsetting "cycles" in
       let H := if (H =? 0)%Z then 1%Z else H in
       ret [H; Z.quot N H]
     else ret [N]) in
  let* n := np_empty sh in
  let* data := LVGetDat n in
  let time_trace := {| shape := sh; items := data |} in
  let* tmp := gets timetrace_tmp in
  let* time_trace :=
    match tmp with
    | TraceInfo t i => if (g : bool) then add_tuple time_trace t i else ret time_trace
    | EmptyList => ret time_trace
    end in
  let* sweeps := get_current_sweeps in
  ret (time_trace, {| elapsed_sweeps := sweeps; elapsed_time := None |}).

Definition pause_measure (fuel : nat) : M state Z :=
  modify (set_stopped_or_halt "halt") >>
  let* status := dll_call "Halt" in
  while fuel
    (fun _ => let* st := get_status fuel in ret (negb (st =? 3)%Z))
    (fun _ => sleep 50)
    tt >>
  let* g := gets gated in
  (if (g : bool) then
     let* r := get_data_trace in
     modify (set_timetrace_tmp (TraceInfo (fst r) (snd r)))
   else ret tt) >>
  ret status.

Definition continue_measure (fuel : nat) : M state Z :=
  let* g := gets gated in
  if (g : bool) then start_measure fuel
  else
    let* status := dll_call "Continue" in
    while fuel
      (fun _ => let* st := get_status fuel in ret (negb (st =? 2)%Z))
      (fun _ => sleep 50)
      tt >>
    ret status.

Definition is_gated : M state bool := gets gated.

Definition get_bitshift : M state Z :=
  let* settings := GetSettingData in
  getattr_int settings "bitshift".

(** [minimal_binwidth * (2 ** int(bitshift))]; a power of two beyond the float
    range cannot be converted for the product. *)
Definition get_binwidth : M state float :=
  let* b := get_bitshift in
  let* mb := gets minimal_binwidth in
  if (1024 <=? b)%Z then raise OverflowError
  else ret (mb * PyFloat.pow2 b)%float.

Definition set_bitshift (bitshift : Z) : M state Z :=
  RunCmd (Cmd_BITSHIFT bitshift) >> get_bitshift.

Definition set_binwidth (binwidth : float) : M state float :=
  let* mb := gets minimal_binwidth in
  let* q := PyFloat.truediv binwidth mb in
  let* bitshift := PyFloat.int_log2 q in
  set_bitshift bitshift >>
  get_binwidth.

Definition get_cycles : M state Z :=
  let* bsetting := GetSettingData in
  getattr_int bsetting "cycles".

(** [int(64 * int(length_bins / 64))]: the true division by 64 is exact for
    [|length_bins| < 2^53], and [int] truncates toward zero. *)
Definition round64 (length_bins : Z) : Z := (64 * Z.quot length_bins 64)%Z.

Definition set_length (length_bins : Z) : M state Z :=
  let* g := is_gated in
  let* cycles := (if (g : bool) then get_cycles else ret 1%Z) in
  if PyFloat.Z_lt (length_bins * cycles) max_bins then
    let length_bins := round64 length_bins in
    RunCmd (Cmd_RANGE length_bins) >>
    RunCmd (Cmd_roimax length_bins) >>
    sleep 500 >>
    ret length_bins
  else
    log Error "Dimensions are too large for fast counter!" >>
    ret (-1)%Z.

Definition get_length : M state Z :=
  let* g := is_gated in
  let* cycles :=
    (if (g : bool) then
       let* cycles := get_cycles in
       ret (if (cycles =? 0)%Z then 1%Z else cycles)
     else ret 1%Z) in
  let* setting := GetSettingData in
  let* range := getattr_int setting "range" in
  ret (Z.quot range cycles).

Definition set_cycles (cycles : Z) : M state Z :=
  let cycles := if (cycles =? 0)%Z then 1%Z else cycles in
  let* l := get_length in
  if PyFloat.Z_lt (l * cycles) max_bins then
    RunCmd (Cmd_cycles cycles) >>
    sleep 500 >>
    ret cycles
  else
    get_length >>
    log Error "Dimensions are too large for fast counter!" >>
    ret (-1)%Z.

Definition set_sequences (sequences : Z) : M state Z :=
  log Debug "Setting sequences" >>
  RunCmd (Cmd_sequences sequences) >>
  ret sequences.

Definition get_sequences : M state Z :=
  let* bsetting := GetSettingData in
  getattr_int bsetting "sequences".

Definition set_preset (preset : Z) : M state Z :=
  RunCmd (Cmd_swpreset preset) >> ret preset.

Definition _change_filename (name : string) : M state string :=
  RunCmd (Cmd_datname name) >> ret name.

(** The bin count [configure] asks [set_length] for. *)
Definition no_of_bins (record_length_s bin_width_new : float) : M state Z :=
  let* g := gets gated in
  if (g : bool) then
    let* ad := gets aom_delay in
    let* q := PyFloat.truediv (record_length_s + ad)%float bin_width_new in
    PyFloat.int q
  else
    let* ts := gets trigger_safety in
    let* q := PyFloat.truediv (record_length_s - ts)%float bin_width_new in
    PyFloat.int q.

Definition configure (bin_width_s record_length_s : float) (number_of_gates : Z)
    (filename : option string) (n_sequences n_sweeps_preset : option Z)
    : M state (float * float * Z) :=
  set_binwidth bin_width_s >>
  let* bin_width_new := get_binwidth in
  let* n := no_of_bins record_length_s bin_width_new in
  set_length n >>
  let* g := gets gated in
  (if (g : bool) then
     set_cycles number_of_gates >>
     match n_sequences with
     | Some n_seq => set_sequences n_seq
     | None => set_sequences (2 ^ 31 - 1)%Z
     end >> ret tt
   else ret tt) >>
  match n_sweeps_preset with
  | Some p => set_preset p >> ret tt
  | None => ret tt
  end >>
  let* l := get_length in
  let record_length := (PyFloat.of_Z l * bin_width_new)%float in
  match filename with
  | Some f => _change_filename f >> ret tt
  | None => ret tt
  end >>
  log Debug "Fastcomtec configuration written." >>
  let* bw := get_binwidth in
  ret (bw, record_length, number_of_gates).

(** ** Notions used in the statements below *)

(** The cycle multiplier [set_length] uses. *)
Definition cycle_multiplier (s : state) : Z :=
  if gated s then reg (dll s) "cycles" else 1%Z.

Definition after_set_length (r : Z) (s : state) : state :=
  add_event (Sleep 500)
    (add_event (RunCmdEv (Cmd_roimax r))
       (set_dll (dev_run (Cmd_roimax r))
          (add_event (RunCmdEv (Cmd_RANGE r))
             (set_dll (dev_run (Cmd_RANGE r)) s)))).

Definition after_set_bitshift (b : Z) (s : state) : state :=
  add_event (RunCmdEv (Cmd_BITSHIFT b)) (set_dll (dev_run (Cmd_BITSHIFT b)) s).

(** The documented configuration of the card. *)
Definition documented (s : state) : Prop :=
  gated s = false /\ trigger_safety s = 200e-9%float
  /\ minimal_binwidth s = 0.25e-9%float.

Definition after_configure_documented (s : state) : state :=
  add_event (Log Debug "Fastcomtec configuration written.")
    (after_set_length 768 (after_set_bitshift 2 s)).

(** A card with empty registers that never starts, and the driver in its
    documented configuration (ungated, 200 ns trigger safety, 0.25 ns minimal
    bin width). *)
Definition idle_card : device :=
  {| regs := ∅; started_at := fun _ => 0%Z; sweeps_at := fun _ => 0%float;
     polls := 0; hist := fun _ => 0%Z; dll_status := 0%Z |}.

Definition documented_driver : state :=
  {| gated := false; trigger_safety := 200e-9; aom_delay := 400e-9;
     minimal_binwidth := 0.25e-9; stopped_or_halt := "stopped";
     timetrace_tmp := EmptyList; dll := idle_card; trace := [] |}.

(** The status code [get_status] derives from the card's [started] flag and
    the driver's own stopped-or-halted note. *)
Definition status_code (started : Z) (soh : string) : Z :=
  if (started =? 1)%Z then 2%Z
  else if (started =? 0)%Z then
    if String.eqb soh "stopped" then 1%Z
    else if String.eqb soh "halt" then 3%Z else (-1)%Z
  else (-1)%Z.

Definition status_events (started : Z) (soh : string) : list event :=
  if (status_code started soh =? -1)%Z
  then [Log Error "There is an unknown status from FastComtec."] else [].

Definition prepend (evs : list event) (s : state) : state := fold_right add_event s evs.

(** Iterations of the outer polling loops: each one sleeps 50 ms. *)
Definition is_sleep50 (e : event) : bool :=
  match e with Sleep 50 => true | _ => false end.

Definition nsleeps (s : state) : nat := length (List.filter is_sleep50 (trace s)).

Definition never_stopping (s : state) : Prop :=
  forall n, started_at (dll s) n <> 3%Z.

(** The condition and the body of the capped loops of [start_measure] and
    [stop_measure]. *)
Definition capped_cond (fuel : nat) (target : Z) (i_wait : Z) : M state bool :=
  let* st := get_status fuel in
  ret (negb (st =? target)%Z && (i_wait <? n_wait_max)%Z).

Definition capped_body (i_wait : Z) : M state Z :=
  sleep 50 >> ret (i_wait + 1)%Z.

(** The uncapped loops of [pause_measure] and [continue_measure]. *)
Definition uncapped_cond (fuel : nat) (target : Z) (_ : unit) : M state bool :=
  let* st := get_status fuel in ret (negb (st =? target)%Z).

(** A card that keeps running whatever it is told, and one that never
    starts. *)
Definition running_card : device :=
  {| regs := ∅; started_at := fun _ => 1%Z; sweeps_at := fun _ => 0%float;
     polls := 0; hist := fun _ => 0%Z; dll_status := 0%Z |}.

Definition driver_on (d : device) : state :=
  {| gated := false; trigger_safety := 200e-9; aom_delay := 400e-9;
     minimal_binwidth := 0.25e-9; stopped_or_halt := "stopped";
     timetrace_tmp := EmptyList; dll := d; trace := [] |}.

(** The number of gates [get_data_trace] uses: [cycles], or 1 when the card
    reports 0. *)
Definition gate_count (s : state) : Z :=
  if (reg (dll s) "cycles" =? 0)%Z then 1%Z else reg (dll s) "cycles".

Definition trace_shape (s : state) : list Z :=
  if gated s then [gate_count s; Z.quot (reg (dll s) "range") (gate_count s)]
  else [reg (dll s) "range"].

(** The histogram as read from the card, with the shape above. *)
Definition fresh_read (s : state) : ndarray :=
  {| shape := trace_shape s;
     items := map (hist (dll s))
                (seq 0 (Z.to_nat (fold_right Z.mul 1%Z (trace_shape s)))) |}.

Definition sweep_info (s : state) : info_dict :=
  {| elapsed_sweeps := sweeps_at (dll s) (polls (dll s)); elapsed_time := None |}.

(** A gated driver on a card holding 8 bins in 2 cycles that halts at once. *)
Definition gated_driver : state :=
  {| gated := true; trigger_safety := 200e-9; aom_delay := 400e-9;
     minimal_binwidth := 0.25e-9; stopped_or_halt := "stopped";
     timetrace_tmp := EmptyList;
     dll := {| regs := <["range" := 8%Z]> (<["cycles" := 2%Z]> ∅);
               started_at := fun _ => 0%Z; sweeps_at := fun _ => 0%float;
               polls := 0; hist := fun n => Z.of_nat n; dll_status := 0%Z |};
     trace := [] |}.

End FastComtec.

(** * The pentacene pulse generators (pentacene_methods.py) *)

Module PentaceneMethods.

Local Open Scope Q_scope.

(** ** Pulse objects *)

(** Modelled from the spec: the element helpers of [PredefinedGeneratorBase]
    ([logic/pulsed/pulse_objects.py], not among the sources).  An element
    records which helper built it and with which arguments (duration,
    increment and the analogue envelope parameters of section 3, "pulse data
    model"); [digital_high] holds the channel entries the generator assigns
    afterwards. *)
Inductive element_kind : Type :=
| Idle (length increment : Q)
| Laser (length increment : Q)
| LaserGate (length increment : Q)
| DelayGate
| MW (length increment amp freq phase : Q)
| MWLaser (length increment amp freq phase : Q)
| LinearChirp (length increment amplitude start_freq stop_freq phase : Q)
| SyncTrigger.

Record PulseBlockElement : Type := {
  kind : element_kind;
  digital_high : gmap string bool
}.

Definition element_of (k : element_kind) : PulseBlockElement :=
  {| kind := k; digital_high := ∅ |}.

(** [element.digital_high[channel] = value]. *)
Definition set_digital_high (channel : string) (value : bool)
    (e : PulseBlockElement) : PulseBlockElement :=
  {| kind := kind e; digital_high := <[channel := value]> (digital_high e) |}.

Record PulseBlock : Type := {
  block_name : string;
  element_list : list PulseBlockElement
}.

(** [block.append(element)]. *)
Definition block_append (b : PulseBlock) (e : PulseBlockElement) : PulseBlock :=
  {| block_name := block_name b; element_list := element_list b ++ [e] |}.

Record measurement_information : Type := {
  alternating : bool;
  laser_ignore_list : list Z;
  controlled_variable : list Q;
  units : string * string;
  labels : string * string;
  number_of_lasers : Z;
  counting_length : option Q
}.

Record PulseBlockEnsemble : Type := {
  ensemble_name : string;
  rotating_frame : bool;
  block_list : list (string * Z);
  info : option measurement_information
}.

Definition ensemble_append (en : PulseBlockEnsemble) (b : string * Z)
    : PulseBlockEnsemble :=
  {| ensemble_name := ensemble_name en; rotating_frame := rotating_frame en;
     block_list := block_list en ++ [b]; info := info en |}.

Definition set_info (i : measurement_information) (en : PulseBlockEnsemble)
    : PulseBlockEnsemble :=
  {| ensemble_name := ensemble_name en; rotating_frame := rotating_frame en;
     block_list := block_list en; info := Some i |}.

(** What every generator returns: created blocks, ensembles and sequences. *)
Definition generated : Type :=
  list PulseBlock * list PulseBlockEnsemble * list PulseBlockEnsemble.

(** The settings a generator reads from [self]. *)
Record generator : Type := {
  wait_time : Q;
  laser_length : Q;
  rabi_period : Q;
  microwave_amplitude : Q;
  microwave_frequency : Q;
  laser_channel : string;
  sync_channel : string
}.

(** [start + np.arange(num_of_points) * step]. *)
Definition arange (n : Z) : list Z := map Z.of_nat (seq 0 (Z.to_nat n)).

Definition sweep (start step : Q) (num_of_points : Z) : list Q :=
  map (fun i => start + inject_Z i * step) (arange num_of_points).

(** [int(q)] and [a % b] on numbers. *)
Definition trunc (q : Q) : Z := if Qle_bool 0 q then Qfloor q else Qceiling q.

Definition pymod (a b : Q) : Q := a - b * inject_Z (Qfloor (a / b)).

Section Generators.

(** [_get_ensemble_count_length] of the base class, not among the sources. *)
Variable _get_ensemble_count_length : PulseBlockEnsemble -> list PulseBlock -> Q.

(** The attribute names the base class gives a generator object. *)
Variable base_attributes : list string.

Variable self : generator.

Definition _get_idle_element (length increment : Q) := element_of (Idle length increment).
Definition _get_laser_element (length increment : Q) := element_of (Laser length increment).
Definition _get_laser_gate_element (length increment : Q) :=
  element_of (LaserGate length increment).
Definition _get_delay_gate_element := element_of DelayGate.
Definition _get_mw_element (length increment amp freq phase : Q) :=
  element_of (MW length increment amp freq phase).
Definition _get_mw_laser_element (length increment amp freq phase : Q) :=
  element_of (MWLaser length increment amp freq phase).
Definition _get_mw_element_linearchirp
    (length increment amplitude start_freq stop_freq phase : Q) :=
  element_of (LinearChirp length increment amplitude start_freq stop_freq phase).

(** Modelled from the spec: [_add_trigger] of the base class (section 4.2,
    "attach a sync-trigger block if the owning context requires one"). *)
Definition _add_trigger (created_blocks : list PulseBlock)
    (block_ensemble : PulseBlockEnsemble)
    : list PulseBlock * PulseBlockEnsemble :=
  if String.eqb (sync_channel self) "" then (created_blocks, block_ensemble)
  else
    let sync_block :=
      {| block_name := "sync_trigger"; element_list := [element_of SyncTrigger] |} in
    (created_blocks ++ [sync_block],
     ensemble_append block_ensemble (block_name sync_block, 0%Z)).

(** The tail every generator repeats: wrap the block in an ensemble, add the
    trigger, fill in the measurement information ([counting_length] is computed
    last, from the ensemble that still lacks it). *)
Definition finish (name : string) (block : PulseBlock) (repetitions : Z)
    (alt : bool) (var : list Q) (u l : string * string) (lasers : Z) : generated :=
  let created_blocks := [block] in
  let block_ensemble :=
    {| ensemble_name := name; rotating_frame := false; block_list := [];
       info := None |} in
  let block_ensemble := ensemble_append block_ensemble (block_name block, repetitions) in
  let '(created_blocks, block_ensemble) := _add_trigger created_blocks block_ensemble in
  let mi count :=
    {| alternating := alt; laser_ignore_list := []; controlled_variable := var;
       units := u; labels := l; number_of_lasers := lasers;
       counting_length := count |} in
  let count :=
    _get_ensemble_count_length (set_info (mi None) block_ensemble) created_blocks in
  (created_blocks, [set_info (mi (Some count)) block_ensemble], []).

Definition generate_podmr_pentacene (name : string) (freq_start freq_step wait_2_time : Q)
    (num_of_points : Z) (alternating_no_mw : bool) : generated :=
  let freq_array := sweep freq_start freq_step num_of_points in
  let waiting_element := _get_idle_element (wait_time self) 0 in
  let laser_element := _get_laser_gate_element (laser_length self) 0 in
  let waiting_afterMW_element := _get_idle_element wait_2_time 0 in
  let delay_element := _get_delay_gate_element in
  let pulsedodmr_block :=
    fold_left
      (fun block mw_freq =>
         let block := block_append block waiting_element in
         let mw_element :=
           _get_mw_element (rabi_period self / 2) 0 (microwave_amplitude self) mw_freq 0 in
         let block := block_append block mw_element in
         let block := block_append block waiting_afterMW_element in
         let block := block_append block laser_element in
         let block := block_append block delay_element in
         if alternating_no_mw then
           let block := block_append block waiting_element in
           let no_mw_element :=
             _get_mw_element (rabi_period self / 2) 0 0 (mw_freq / 2) 0 in
           let block := block_append block no_mw_element in
           let block := block_append block waiting_afterMW_element in
           let block := block_append block laser_element in
           block_append block delay_element
         else block)
      freq_array {| block_name := name; element_list := [] |} in
  finish name pulsedodmr_block 0 alternating_no_mw freq_array
    ("Hz", "")%string ("Frequency", "Signal")%string num_of_points.

Definition generate_fakecwodmr_pentacene (name : string) (freq_start freq_step t_single : Q)
    (num_of_points : Z) (alternating_no_mw : bool) : generated :=
  let freq_array := sweep freq_start freq_step num_of_points in
  let waiting_element := _get_idle_element (wait_time self) 0 in
  let delay_element := _get_delay_gate_element in
  let pulsedodmr_block :=
    fold_left
      (fun block mw_freq =>
         let mw_element :=
           _get_mw_laser_element t_single 0 (microwave_amplitude self) mw_freq 0 in
         let block := block_append block mw_element in
         let block := block_append block delay_element in
         let block := block_append block waiting_element in
         if alternating_no_mw then
           let no_mw_element := _get_mw_laser_element t_single 0 0 (mw_freq / 2) 0 in
           let block := block_append block no_mw_element in
           let block := block_append block delay_element in
           block_append block waiting_element
         else block)
      freq_array {| block_name := name; element_list := [] |} in
  finish name pulsedodmr_block 0 alternating_no_mw freq_array
    ("Hz", "")%string ("Frequency", "Signal")%string num_of_points.

Definition generate_rabi_pentacene (name : string) (tau_start tau_step : Q)
    (num_of_points : Z) (wait_2_time : Q) (alternating_no_mw : bool) : generated :=
  let tau_array := sweep tau_start tau_step num_of_points in
  let mw_element :=
    _get_mw_element tau_start tau_step (microwave_amplitude self)
      (microwave_frequency self) 0 in
  let noMw_element :=
    _get_mw_element tau_start tau_step 0 (microwave_frequency self / 2) 0 in
  let waiting_element := _get_idle_element (wait_time self) 0 in
  let waiting_element_after_mw := _get_idle_element wait_2_time 0 in
  let laser_element := _get_laser_gate_element (laser_length self) 0 in
  let delay_element := _get_delay_gate_element in
  let rabi_block := {| block_name := name; element_list := [] |} in
  let rabi_block := block_append rabi_block waiting_element in
  let rabi_block := block_append rabi_block mw_element in
  let rabi_block := block_append rabi_block waiting_element_after_mw in
  let rabi_block := block_append rabi_block laser_element in
  let rabi_block := block_append rabi_block delay_element in
  let rabi_block :=
    if alternating_no_mw then
      let rabi_block := block_append rabi_block waiting_element in
      let rabi_block := block_append rabi_block noMw_element in
      let rabi_block := block_append rabi_block waiting_element_after_mw in
      let rabi_block := block_append rabi_block laser_element in
      block_append rabi_block delay_element
    else rabi_block in
  finish name rabi_block (num_of_points - 1)%Z alternating_no_mw tau_array
    ("s", "")%string ("Tau", "Signal")%string
    (if alternating_no_mw then 2 * num_of_points else num_of_points)%Z.

Definition generate_t1_pentacene (name : string) (tau_start tau_step : Q)
    (num_of_points : Z) (alternating : bool) (wait_2_time : Q) : generated :=
  let tau_array := sweep tau_start tau_step num_of_points in
  let waiting_element := _get_idle_element (wait_time self) 0 in
  let waiting_element_after_mw := _get_idle_element wait_2_time 0 in
  let laser_element := _get_laser_gate_element (laser_length self) 0 in
  let delay_element := _get_delay_gate_element in
  let pi_element :=
    _get_mw_element (rabi_period self / 2) 0 (microwave_amplitude self)
      (microwave_frequency self) 0 in
  let tau_element := _get_idle_element tau_start tau_step in
  let t1_block := {| block_name := name; element_list := [] |} in
  let t1_block := block_append t1_block tau_element in
  let t1_block := block_append t1_block waiting_element_after_mw in
  let t1_block := block_append t1_block laser_element in
  let t1_block := block_append t1_block delay_element in
  let t1_block := block_append t1_block waiting_element in
  let t1_block :=
    if alternating then
      let t1_block := block_append t1_block pi_element in
      let t1_block := block_append t1_block tau_element in
      let t1_block := block_append t1_block waiting_element_after_mw in
      let t1_block := block_append t1_block laser_element in
      let t1_block := block_append t1_block delay_element in
      block_append t1_block waiting_element
    else t1_block in
  let number_of_lasers := (if alternating then 2 * num_of_points else num_of_points)%Z in
  finish name t1_block (num_of_points - 1)%Z alternating tau_array
    ("s", "")%string ("Tau", "Signal")%string number_of_lasers.

(** ** The polarisation / ISE chirp generator *)

(** The names defined by the class [PentaceneMethods] itself. *)
Definition own_attributes : list string :=
  [ "generate_podmr_pentacene"; "generate_fakecwodmr_pentacene";
    "generate_rabi_pentacene"; "generate_rabi_NV_red_read";
    "generate_t1_pentacene"; "generate_laser_on_jump";
    "generate_pol_ise_pentacene"; "generate_deer_ramsey" ]%string.

(** Attribute read [self.name] on the generator object; the value read is the
    object the name is bound to, here left abstract. *)
Definition getattr_self (name : string) : M (list string) unit :=
  if existsb (String.eqb name) (own_attributes ++ base_attributes) then ret tt
  else raise AttributeError.

Definition warning (msg : string) : M (list string) unit :=
  modify (fun log => msg :: log).

Fixpoint repeat_append (n : nat) (b : PulseBlock) (e : PulseBlockElement) : PulseBlock :=
  match n with
  | O => b
  | S n' => repeat_append n' (block_append b e) e
  end.

Definition generate_pol_ise_pentacene (name : string) (t_laser t_mw_ramp f_mw_sweep : Q)
    (jump_channel : string) : M (list string) generated :=
  (if Qeq_bool t_mw_ramp 0 then raise ZeroDivisionError else ret tt) >>
  let n_mw_chirps := trunc (t_laser / t_mw_ramp) in
  (if negb (Qeq_bool (pymod t_laser t_mw_ramp) 0)
   then warning "Laser not dividable by t_mw." else ret tt) >>
  let mw_freq_center := microwave_frequency self in
  let freq_range := f_mw_sweep in
  let mw_freq_start := mw_freq_center - freq_range / 2 in
  let mw_freq_end := mw_freq_center + freq_range / 2 in
  (* self.self._get_mw_element_linearchirp(...) *)
  getattr_self "self" >>
  getattr_self "_get_mw_element_linearchirp" >>
  let mw_sweep_element :=
    _get_mw_element_linearchirp t_mw_ramp 0 (microwave_amplitude self)
      mw_freq_start mw_freq_end 0 in
  let mw_sweep_element := set_digital_high (laser_channel self) true mw_sweep_element in
  let mw_sweep_element := set_digital_high jump_channel true mw_sweep_element in
  let laser_block := {| block_name := name; element_list := [] |} in
  (* for i in range(n_mw_chirps): laser_block.append(mw_sweep_element) *)
  let laser_block := repeat_append (Z.to_nat n_mw_chirps) laser_block mw_sweep_element in
  ret (finish name laser_block 0 false [0] ("a.u.", "")%string
         ("data point", "Signal")%string 1).

End Generators.

(** Number of elements of a block built by a given helper. *)
Definition is_laser_gate (e : PulseBlockElement) : bool :=
  match kind e with LaserGate _ _ => true | _ => false end.

Definition is_mw_laser (e : PulseBlockElement) : bool :=
  match kind e with MWLaser _ _ _ _ _ => true | _ => false end.

Definition count_elements (p : PulseBlockElement -> bool) (b : PulseBlock) : nat :=
  length (filter (fun e => p e = true) (element_list b)).

(** [measurement_information['number_of_lasers']] of the generated ensemble. *)
Definition lasers_of (g : generated) : option Z :=
  match g with
  | (_, [en], _) => number_of_lasers <$> info en
  | _ => None
  end.

(** ** Notions used in the statements below *)

(** The attributes of the base class that the generators of this file read. *)
Definition used_base_attributes : list string :=
  [ "log"; "wait_time"; "laser_length"; "rabi_period"; "microwave_amplitude";
    "microwave_frequency"; "microwave_channel"; "laser_channel";
    "_get_idle_element"; "_get_laser_element"; "_get_laser_gate_element";
    "_get_delay_gate_element"; "_get_mw_element"; "_get_mw_laser_element";
    "_get_mw_element_linearchirp"; "_add_trigger";
    "_get_ensemble_count_length" ]%string.

(** The default settings of the pulsed measurement. *)
Definition default_generator : generator :=
  {| wait_time := 1 # 1000000; laser_length := 3 # 1000000;
     rabi_period := 1 # 10000000; microwave_amplitude := 1 # 4;
     microwave_frequency := 2870000000; laser_channel := "d_ch1";
     sync_channel := "" |}.

End PentaceneMethods.

(** * The data-acquisition board driver (national_instruments_x_series.py) *)

Module NationalInstrumentsXSeries.

Local Open Scope Q_scope.

Definition TaskHandle : Type := nat.

(** A Python value that may be [None]. *)
Abbreviation py A := (option A) (only parsing).

(** Calls into NI-DAQmx, with the arguments that matter here. *)
Inductive daq_call : Type :=
| DAQmxCreateTask (name : string) (task : TaskHandle)
| DAQmxCreateCOPulseChanFreq (task : TaskHandle) (channel : py string)
    (name : string) (idle : bool) (initial_delay freq duty_cycle : Q)
| DAQmxCfgImplicitTiming (task : TaskHandle) (buffer : Z)
| DAQmxStartTask (task : TaskHandle)
| DAQmxReadCounterU32 (task : TaskHandle) (n : Z)
| DAQmxReadAnalogF64 (task : py TaskHandle) (n : Z)
| DAQmxWriteAnalogF64 (task : py TaskHandle) (length : Z) (start : bool)
    (voltages : py (list float)).

(** The board: which calls fail, and what the reads deliver. *)
Record hardware : Type := {
  daq_raises : daq_call -> bool;
  counter_samples : TaskHandle -> nat -> Z;
  analog_samples : nat -> nat -> float
}.

Inductive level : Set := Info | Warn | Error | Exception.

(** A Python number: an [int], or a [float] kept as the rational it
    denotes. *)
Inductive number : Type :=
| integer (z : Z)
| floating (q : Q).

Definition value (n : number) : Q :=
  match n with
  | integer z => inject_Z z
  | floating q => q
  end.

(** Configuration options, fixed at activation.  The two default rates are
    handed on as the configuration file gives them, as an integer or as a
    float. *)
Record config : Type := {
  _default_clock_frequency : number;
  _default_scanner_clock_frequency : number;
  _dummy_frequency : Q;
  _clock_channels : list string;
  _counter_channels : list string;
  _counter_ai_channels : list string;
  _scanner_position_ranges : list (Q * Q);
  _scanner_voltage_ranges : list (Q * Q);
  _default_samples_number : Z;
  _RWTimeout : Q
}.

(** The fixed-role clock pair. *)
Record clocks : Type := {
  _clock_daq_task : py TaskHandle;
  _scanner_clock_daq_task : py TaskHandle;
  _clock_frequency : number;
  _scanner_clock_frequency : number;
  _clock_channel : py string;
  _scanner_clock_channel : py string
}.

(** The generalized clock registry, keyed by name. *)
Record registry : Type := {
  _clock_daq_task_new : gmap string TaskHandle;
  _clock_frequency_new : gmap string Q;
  _clock_channel_new : gmap string (py string)
}.

(** The driver object; [calls] and [log] list the most recent entry first. *)
Record state : Type := {
  module_state : string;
  cfg : config;
  clk : clocks;
  reg : registry;
  _counter_daq_tasks : list TaskHandle;
  _counter_analog_daq_task : py TaskHandle;
  _scanner_ao_task : py TaskHandle;
  _current_position : list Q;
  hw : hardware;
  calls : list daq_call;
  log : list (level * string)
}.

Definition set_clk (f : clocks -> clocks) (s : state) : state :=
  {| module_state := module_state s; cfg := cfg s; clk := f (clk s); reg := reg s;
     _counter_daq_tasks := _counter_daq_tasks s;
     _counter_analog_daq_task := _counter_analog_daq_task s;
     _scanner_ao_task := _scanner_ao_task s; _current_position := _current_position s;
     hw := hw s; calls := calls s; log := log s |}.

Definition set_reg (f : registry -> registry) (s : state) : state :=
  {| module_state := module_state s; cfg := cfg s; clk := clk s; reg := f (reg s);
     _counter_daq_tasks := _counter_daq_tasks s;
     _counter_analog_daq_task := _counter_analog_daq_task s;
     _scanner_ao_task := _scanner_ao_task s; _current_position := _current_position s;
     hw := hw s; calls := calls s; log := log s |}.

Definition set_current_position (p : list Q) (s : state) : state :=
  {| module_state := module_state s; cfg := cfg s; clk := clk s; reg := reg s;
     _counter_daq_tasks := _counter_daq_tasks s;
     _counter_analog_daq_task := _counter_analog_daq_task s;
     _scanner_ao_task := _scanner_ao_task s; _current_position := p;
     hw := hw s; calls := calls s; log := log s |}.

Definition add_call (c : daq_call) (s : state) : state :=
  {| module_state := module_state s; cfg := cfg s; clk := clk s; reg := reg s;
     _counter_daq_tasks := _counter_daq_tasks s;
     _counter_analog_daq_task := _counter_analog_daq_task s;
     _scanner_ao_task := _scanner_ao_task s; _current_position := _current_position s;
     hw := hw s; calls := c :: calls s; log := log s |}.

Definition add_log (l : level) (msg : string) (s : state) : state :=
  {| module_state := module_state s; cfg := cfg s; clk := clk s; reg := reg s;
     _counter_daq_tasks := _counter_daq_tasks s;
     _counter_analog_daq_task := _counter_analog_daq_task s;
     _scanner_ao_task := _scanner_ao_task s; _current_position := _current_position s;
     hw := hw s; calls := calls s; log := (l, msg) :: log s |}.

Definition set_clock_frequency (scanner : bool) (f : number) (c : clocks) : clocks :=
  if scanner then
    {| _clock_daq_task := _clock_daq_task c;
       _scanner_clock_daq_task := _scanner_clock_daq_task c;
       _clock_frequency := _clock_frequency c; _scanner_clock_frequency := f;
       _clock_channel := _clock_channel c;
       _scanner_clock_channel := _scanner_clock_channel c |}
  else
    {| _clock_daq_task := _clock_daq_task c;
       _scanner_clock_daq_task := _scanner_clock_daq_task c;
       _clock_frequency := f; _scanner_clock_frequency := _scanner_clock_frequency c;
       _clock_channel := _clock_channel c;
       _scanner_clock_channel := _scanner_clock_channel c |}.

Definition set_clock_channel (scanner : bool) (ch : py string) (c : clocks) : clocks :=
  if scanner then
    {| _clock_daq_task := _clock_daq_task c;
       _scanner_clock_daq_task := _scanner_clock_daq_task c;
       _clock_frequency := _clock_frequency c;
       _scanner_clock_frequency := _scanner_clock_frequency c;
       _clock_channel := _clock_channel c; _scanner_clock_channel := ch |}
  else
    {| _clock_daq_task := _clock_daq_task c;
       _scanner_clock_daq_task := _scanner_clock_daq_task c;
       _clock_frequency := _clock_frequency c;
       _scanner_clock_frequency := _scanner_clock_frequency c;
       _clock_channel := ch; _scanner_clock_channel := _scanner_clock_channel c |}.

Definition set_clock_task (scanner : bool) (t : py TaskHandle) (c : clocks) : clocks :=
  if scanner then
    {| _clock_daq_task := _clock_daq_task c; _scanner_clock_daq_task := t;
       _clock_frequency := _clock_frequency c;
       _scanner_clock_frequency := _scanner_clock_frequency c;
       _clock_channel := _clock_channel c;
       _scanner_clock_channel := _scanner_clock_channel c |}
  else
    {| _clock_daq_task := t; _scanner_clock_daq_task := _scanner_clock_daq_task c;
       _clock_frequency := _clock_frequency c;
       _scanner_clock_frequency := _scanner_clock_frequency c;
       _clock_channel := _clock_channel c;
       _scanner_clock_channel := _scanner_clock_channel c |}.

Definition set_task_new (name : string) (t : TaskHandle) (r : registry) : registry :=
  {| _clock_daq_task_new := <[name := t]> (_clock_daq_task_new r);
     _clock_frequency_new := _clock_frequency_new r;
     _clock_channel_new := _clock_channel_new r |}.

Definition set_frequency_new (name : string) (f : Q) (r : registry) : registry :=
  {| _clock_daq_task_new := _clock_daq_task_new r;
     _clock_frequency_new := <[name := f]> (_clock_frequency_new r);
     _clock_channel_new := _clock_channel_new r |}.

Definition set_channel_new (name : string) (ch : py string) (r : registry) : registry :=
  {| _clock_daq_task_new := _clock_daq_task_new r;
     _clock_frequency_new := _clock_frequency_new r;
     _clock_channel_new := <[name := ch]> (_clock_channel_new r) |}.

Definition logm (l : level) (msg : string) : M state unit := modify (add_log l msg).

(** A call into the library: recorded, and failing when the board says so. *)
Definition daq (c : daq_call) : M state unit :=
  fun s => if daq_raises (hw s) c then Raise DaqError (add_call c s)
           else Ret tt (add_call c s).

(** [daq.TaskHandle()]: a new handle.  Handles are numbered by the calls made
    so far, so the handle is new on every driver whose handles were all given
    out by earlier calls. *)
Definition new_task : M state TaskHandle := gets (fun s => length (calls s)).

Definition Qleb (a b : Q) : bool := Qle_bool a b.
Definition Qltb (a b : Q) : bool := negb (Qle_bool b a).

(** ** Clocks *)

Definition set_up_clock (clock_frequency : py Q) (clock_channel : py string)
    (scanner idle : bool) : M state Z :=
  let* c := gets clk in
  if negb scanner && bool_decide (_clock_daq_task c <> None) then
    logm Error "Another counter clock is already running, close this one first." >>
    ret (-1)%Z
  else if scanner && bool_decide (_scanner_clock_daq_task c <> None) then
    logm Error "Another scanner clock is already running, close this one first." >>
    ret (-1)%Z
  else
    let* my_clock_daq_task := new_task in
    (* assign the clock frequency, if given *)
    let* d := gets cfg in
    match clock_frequency with
    | Some f => modify (set_clk (set_clock_frequency scanner (floating f)))
    | None =>
        modify (set_clk (set_clock_frequency scanner
                  (if scanner then _default_scanner_clock_frequency d
                   else _default_clock_frequency d)))
    end >>
    (* use the correct clock in this method *)
    let* c := gets clk in
    let my_clock_frequency :=
      if scanner then value (_scanner_clock_frequency c) * 2
      else value (_clock_frequency c) * 2 in
    (* assign the clock channel, if given *)
    match clock_channel with
    | Some ch => modify (set_clk (set_clock_channel scanner (Some ch)))
    | None => ret tt
    end >>
    let* c := gets clk in
    let my_clock_channel :=
      if scanner then _scanner_clock_channel c else _clock_channel c in
    if bool_decide (_scanner_clock_channel c = _clock_channel c)
       && negb (bool_decide (_clock_daq_task c = None)
                && bool_decide (_scanner_clock_daq_task c = None)) then
      logm Error "Only one clock channel is available!" >>
      ret (-1)%Z
    else
      let my_idle := idle in
      try_except
        (let task_name := (if scanner then "ScannerClock" else "CounterClock")%string in
         daq (DAQmxCreateTask task_name my_clock_daq_task) >>
         daq (DAQmxCreateCOPulseChanFreq my_clock_daq_task my_clock_channel
                "Clock Producer" my_idle 0 (my_clock_frequency / 2) (1 # 2)) >>
         daq (DAQmxCfgImplicitTiming my_clock_daq_task 1000) >>
         (if scanner then
            modify (set_clk (set_clock_task true (Some my_clock_daq_task))) >>
            let* c := gets clk in
            modify (set_reg (set_channel_new "Scanner" (_scanner_clock_channel c)))
          else
            daq (DAQmxStartTask my_clock_daq_task) >>
            modify (set_clk (set_clock_task false (Some my_clock_daq_task))) >>
            let* c := gets clk in
            modify (set_reg (set_channel_new "Counter" (_clock_channel c)))) >>
         ret 0%Z)
        (logm Exception "Error while setting up clock." >> ret (-1)%Z).

(** [x in self._clock_channel_new.values()]. *)
Definition in_values (ch : py string) (m : gmap string (py string)) : bool :=
  bool_decide (ch ∈ (map_to_list m).*2).

(** [for i in self._clock_channels: if i not in values: ...; break]. *)
Definition first_free (channels : list string) (m : gmap string (py string))
    : option string :=
  List.find (fun i => negb (in_values (Some i) m)) channels.

Definition set_up_clock_new (name : string) (clock_frequency : py Q)
    (clock_channel : py string) (idle start : bool) : M state Z :=
  let* r := gets reg in
  if bool_decide (is_Some (_clock_daq_task_new r !! name)) then
    logm Error "A clock task for this axis is already running, close this one first." >>
    ret (-1)%Z
  else
    let* d := gets cfg in
    (* assign the clock frequency, if given *)
    match clock_frequency with
    | Some f =>
        if Qleb f 0 then
          modify (set_reg (set_frequency_new name (_dummy_frequency d))) >>
          logm Info "no clock frequency given, using dummy frequency instead."
        else modify (set_reg (set_frequency_new name f))
    | None =>
        modify (set_reg (set_frequency_new name (_dummy_frequency d))) >>
        logm Info "no clock frequency given, using dummy frequency instead."
    end >>
    (* use the correct clock in this method *)
    let* r := gets reg in
    match _clock_frequency_new r !! name with
    | None => raise KeyError
    | Some my_clock_frequency =>
        let chosen :=
          match clock_channel with
          | Some ch => Some ch
          | None => first_free (_clock_channels d) (_clock_channel_new r)
          end in
        match chosen with
        | None =>
            logm Error "There is no clock channel free to be used for this task." >>
            ret (-1)%Z
        | Some my_clock_channel =>
            if in_values (Some my_clock_channel) (_clock_channel_new r) then
              logm Warn "This clock channel is already being used." >>
              ret (-1)%Z
            else
              modify (set_reg (set_channel_new name (Some my_clock_channel))) >>
              let my_idle := idle in
              try_except
                (let* my_clock_daq_task := new_task in
                 let task_name := name in
                 daq (DAQmxCreateTask task_name my_clock_daq_task) >>
                 daq (DAQmxCreateCOPulseChanFreq my_clock_daq_task
                        (Some my_clock_channel)
                        ("Clock Producer " ++ task_name)%string my_idle 0
                        my_clock_frequency (1 # 2)) >>
                 daq (DAQmxCfgImplicitTiming my_clock_daq_task 1000) >>
                 modify (set_reg (set_task_new name my_clock_daq_task)) >>
                 (if start then daq (DAQmxStartTask my_clock_daq_task) else ret tt) >>
                 ret 0%Z)
                (logm Exception "Error while setting up clock." >> ret (-1)%Z)
        end
    end.

(** ** The slow counter *)

(** A two-dimensional numpy array with its shape; the entries are kept as
    doubles, also those of an integer array. *)
Record ndarray : Type := { shape : Z * Z; cells : list (list float) }.

Definition full (rows cols : Z) (v : float) : ndarray :=
  {| shape := (rows, cols);
     cells := repeat (repeat v (Z.to_nat cols)) (Z.to_nat rows) |}.

Definition get_counter_channels : M state (list string) :=
  gets (fun s => _counter_channels (cfg s) ++ _counter_ai_channels (cfg s)).

(** [np.ones((rows, samples), dtype=np.uint32) * -1].  The shape entry
    [samples] must be an integer ([None] is a [TypeError]) and not negative
    ([ValueError]); the product with the Python integer -1 is an array of
    -1. *)
Definition minus_ones (rows : nat) (samples : py Z) : M state ndarray :=
  match samples with
  | None => raise TypeError
  | Some n =>
      if (n <? 0)%Z then raise ValueError
      else ret (full (Z.of_nat rows) n (-1)%float)
  end.

(** Sum of adjacent uint32 samples, wrapping as the in-place [+=] does. *)
Fixpoint pair_sums (l : list Z) : list Z :=
  match l with
  | a :: b :: l' => ((a + b) mod 2 ^ 32)%Z :: pair_sums l'
  | _ => []
  end.

(** One [DAQmxReadCounterU32] per counter task, in order. *)
Fixpoint read_counters (tasks : list TaskHandle) (n : Z) : M state (list (list Z)) :=
  match tasks with
  | [] => ret []
  | task :: tasks' =>
      daq (DAQmxReadCounterU32 task n) >>
      let* row := gets (fun s => map (counter_samples (hw s) task) (seq 0 (Z.to_nat n))) in
      let* rows := read_counters tasks' n in
      ret (row :: rows)
  end.

(** [np.array(real_data * self._clock_frequency, np.float64)] for one entry
    [c] of the uint32 array [real_data].  With a float rate numpy converts the
    entry to float64 and multiplies there.  With an integer rate the product
    keeps an integer type, picked from the value of the rate as numpy does up
    to version 1 (the driver needs one before 1.24, for [np.float]): uint32
    when the rate fits, so that the product wraps modulo 2^32, uint64 up to
    2^64, int64 for a negative rate, Python integers beyond; it is converted
    to float64 afterwards.  (That a Python integer too large for a double
    makes this conversion raise is not represented.) *)
Definition counts_per_second (f : number) (c : Z) : float :=
  match f with
  | floating q => (PyFloat.of_Z c * PyFloat.of_Q q)%float
  | integer z =>
      PyFloat.of_Z
        (if (0 <=? z)%Z && (z <? 2 ^ 32)%Z then (c * z) mod 2 ^ 32
         else if (0 <=? z)%Z && (z <? 2 ^ 64)%Z then (c * z) mod 2 ^ 64
         else if (- 2 ^ 63 <=? z)%Z && (z <? 0)%Z
              then (c * z + 2 ^ 63) mod 2 ^ 64 - 2 ^ 63
         else c * z)%Z
  end.

(** [self._samples_number] is read for [samples=None], but no line of the
    driver assigns it (the configured default is [_default_samples_number]):
    the read is an [AttributeError], outside the [try]. *)
Definition get_counter (samples : py Z) : M state ndarray :=
  let* tasks := gets _counter_daq_tasks in
  let* channels := get_counter_channels in
  if (length tasks <? 1)%nat then
    logm Error "No counter running, call set_up_counter before reading it." >>
    minus_ones (length channels) samples
  else
    let* ai := gets (fun s => _counter_ai_channels (cfg s)) in
    let* atask := gets _counter_analog_daq_task in
    if (0 <? length ai)%nat && bool_decide (atask = None) then
      logm Error
        "No counter analog input task running, call set_up_counter before reading it." >>
      minus_ones (length channels) samples
    else
      let* samples :=
        match samples with
        | None => raise AttributeError
        | Some n => ret n
        end in
      let* r :=
        try_except
          (let* _ :=
             (if (2 * samples <? 0)%Z then raise ValueError else ret tt) in
           let* count_data := read_counters tasks (2 * samples) in
           let* analog_data :=
             (if (0 <? length ai)%nat then
                daq (DAQmxReadAnalogF64 atask samples) >>
                gets (fun s =>
                        map (fun ch => map (analog_samples (hw s) ch)
                                         (seq 0 (Z.to_nat samples)))
                          (seq 0 (length ai)))
              else ret []) in
           ret (inl (count_data, analog_data)))
          (logm Exception "Getting samples from counter failed." >>
           let* a := minus_ones (length channels) (Some samples) in
           ret (inr a)) in
      match r with
      | inr a => ret a
      | inl (count_data, analog_data) =>
          let* f := gets (fun s => _clock_frequency (clk s)) in
          let real_data := map pair_sums count_data in
          let scaled := map (map (counts_per_second f)) real_data in
          let all_data :=
            cells (full (Z.of_nat (length channels)) samples 222%float) in
          if (length all_data <? length real_data)%nat then raise ValueError
          else
            let all_data := scaled ++ drop (length real_data) all_data in
            let all_data :=
              if (0 <? length ai)%nat
              then take (length all_data - length ai) all_data ++ analog_data
              else all_data in
            ret {| shape := (Z.of_nat (length channels), samples); cells := all_data |}
      end.

(** ** The confocal scanner *)

(** [self._current_position[i] = np.float(v)]. *)
Definition store_position (i : nat) (v : Q) : M state unit :=
  let* p := gets _current_position in
  if (i <? length p)%nat then modify (set_current_position (<[i := v]> p))
  else raise IndexError.

(** One axis of [scanner_set_position]: [Some (-1)] is the early return. *)
Definition set_axis (i : nat) (axis : string) (v : py Q) : M state (option Z) :=
  match v with
  | None => ret None
  | Some x =>
      let* ranges := gets (fun s => _scanner_position_ranges (cfg s)) in
      match ranges !! i with
      | None => raise IndexError
      | Some r =>
          if negb (Qleb (fst r) x && Qleb x (snd r)) then
            logm Error ("You want to set " ++ axis ++ " out of range.")%string >>
            ret (Some (-1)%Z)
          else store_position i x >> ret None
      end
  end.

(** The loop that fills [vlist]; the arithmetic is that of doubles. *)
Fixpoint position_to_volt (i : nat) (positions : list Q) (pr vr : list (Q * Q))
    : M state (list float) :=
  match positions with
  | [] => ret []
  | position :: rest =>
      match vr !! i, pr !! i with
      | Some v, Some p =>
          let* slope :=
            PyFloat.truediv (PyFloat.of_Q (snd v) - PyFloat.of_Q (fst v))%float
              (PyFloat.of_Q (snd p) - PyFloat.of_Q (fst p))%float in
          let volt :=
            (slope * (PyFloat.of_Q position - PyFloat.of_Q (fst p))
             + PyFloat.of_Q (fst v))%float in
          let* volts := position_to_volt (S i) rest pr vr in
          ret (volt :: volts)
      | _, _ => raise IndexError
      end
  end.

(** The loop that checks [volts]; a comparison with [nan] is false. *)
Fixpoint exceeds (i : nat) (volts : list float) (vr : list (Q * Q)) : M state bool :=
  match volts with
  | [] => ret false
  | v :: rest =>
      match vr !! i with
      | Some r =>
          if PrimFloat.ltb v (PyFloat.of_Q (fst r)) || PrimFloat.ltb (PyFloat.of_Q (snd r)) v
          then ret true
          else exceeds (S i) rest vr
      | None => raise IndexError
      end
  end.

(** [None] stands for the array [[nan]] returned on a voltage out of range. *)
Definition _scanner_position_to_volt (positions : list Q)
    : M state (py (list float)) :=
  let* d := gets cfg in
  let* volts :=
    position_to_volt 0 positions (_scanner_position_ranges d) (_scanner_voltage_ranges d) in
  (if (length volts =? 0)%nat then raise ValueError else ret tt) >>
  let* bad := exceeds 0 volts (_scanner_voltage_ranges d) in
  if (bad : bool) then
    logm Error "Voltages exceed the limit." >> ret None
  else ret (Some volts).

Definition _write_scanner_ao (voltages : py (list float)) (length : Z) (start : bool)
    : M state unit :=
  let* t := gets _scanner_ao_task in
  daq (DAQmxWriteAnalogF64 t length start voltages).

Definition scanner_set_position (x y z a : py Q) : M state Z :=
  let* st := gets module_state in
  if String.eqb st "locked" then
    logm Error "Another scan_line is already running, close this one first." >>
    ret (-1)%Z
  else
    let* rx := set_axis 0 "x" x in
    match rx with Some e => ret e | None =>
    let* ry := set_axis 1 "y" y in
    match ry with Some e => ret e | None =>
    let* rz := set_axis 2 "z" z in
    match rz with Some e => ret e | None =>
    let* ra := set_axis 3 "a" a in
    match ra with Some e => ret e | None =>
    (* the position has to be a vstack *)
    let* my_position := gets _current_position in
    (if (length my_position =? 0)%nat then raise ValueError else ret tt) >>
    (* then directly write the position to the hardware *)
    try_except
      (let* voltages := _scanner_position_to_volt my_position in
       _write_scanner_ao voltages 1 true >>
       ret 0%Z)
      (ret (-1)%Z)
    end end end end.

(** ** Notions used in the statements below *)








(** A board on which every call succeeds and every read delivers zeros, and a
    driver configured for it with nothing set up yet. *)
Definition quiet_board : hardware :=
  {| daq_raises := fun _ => false; counter_samples := fun _ _ => 0%Z;
     analog_samples := fun _ _ => 0%float |}.

Definition example_config : config :=
  {| _default_clock_frequency := integer 100;
     _default_scanner_clock_frequency := integer 100;
     _dummy_frequency := 100; _clock_channels := ["/Dev1/Ctr2"; "/Dev1/Ctr3"];
     _counter_channels := ["/Dev1/Ctr1"]; _counter_ai_channels := [];
     _scanner_position_ranges := [(0, 100); (0, 100); (0, 100); (0, 100)];
     _scanner_voltage_ranges := [(-10, 10); (-10, 10); (-10, 10); (-10, 10)];
     _default_samples_number := 50; _RWTimeout := 10 |}.

Definition fresh_driver : state :=
  {| module_state := "idle"; cfg := example_config;
     clk := {| _clock_daq_task := None; _scanner_clock_daq_task := None;
               _clock_frequency := integer 100;
               _scanner_clock_frequency := integer 100;
               _clock_channel := Some "/Dev1/Ctr0"%string;
               _scanner_clock_channel := Some "/Dev1/Ctr2"%string |};
     reg := {| _clock_daq_task_new := ∅; _clock_frequency_new := ∅;
               _clock_channel_new := ∅ |};
     _counter_daq_tasks := []; _counter_analog_daq_task := None;
     _scanner_ao_task := Some 7%nat; _current_position := [0; 0; 0; 0];
     hw := quiet_board; calls := []; log := [] |}.

(** The two checks [get_counter] makes before reading. *)
Definition no_counter_task (s : state) : Prop := _counter_daq_tasks s = [].

Definition no_analog_task (s : state) : Prop :=
  _counter_daq_tasks s <> [] /\ _counter_ai_channels (cfg s) <> []
  /\ _counter_analog_daq_task s = None.

(** Both checks pass: a counter task runs, and the analog task as well when
    analog channels are configured. *)
Definition counter_ready (s : state) : Prop :=
  _counter_daq_tasks s <> []
  /\ (_counter_ai_channels (cfg s) = [] \/ _counter_analog_daq_task s <> None).

Definition channel_count (s : state) : nat :=
  length (_counter_channels (cfg s) ++ _counter_ai_channels (cfg s)).

Definition in_range (r : Q * Q) (x : Q) : bool := Qleb (fst r) x && Qleb x (snd r).

(** Axis [i] is requested with a value outside its configured range. *)
Definition axis_bad (s : state) (i : nat) (v : option Q) : bool :=
  match v, _scanner_position_ranges (cfg s) !! i with
  | Some x, Some r => negb (in_range r x)
  | _, _ => false
  end.

Definition unlocked (s : state) : Prop := String.eqb (module_state s) "locked" = false.

End NationalInstrumentsXSeries.

(** * The cavity-stabilisation console (cavity_stabilisation_gui.py) *)

Module CavityStabilisationGui.

Local Open Scope Q_scope.

(** The part of the console and of its logic module that the resolution
    handler touches; [log] lists the warnings, most recent first. *)
Record state : Type := {
  _start_voltage : Q;
  _end_voltage : Q;
  _scan_resolution : Q;
  scan_resolution_spinBox : Q;
  log : list string
}.

Definition set_scan_resolution (v : Q) (s : state) : state :=
  {| _start_voltage := _start_voltage s; _end_voltage := _end_voltage s;
     _scan_resolution := v; scan_resolution_spinBox := scan_resolution_spinBox s;
     log := log s |}.

Definition set_spinBox (v : Q) (s : state) : state :=
  {| _start_voltage := _start_voltage s; _end_voltage := _end_voltage s;
     _scan_resolution := _scan_resolution s; scan_resolution_spinBox := v;
     log := log s |}.

Definition warn (msg : string) (s : state) : state :=
  {| _start_voltage := _start_voltage s; _end_voltage := _end_voltage s;
     _scan_resolution := _scan_resolution s;
     scan_resolution_spinBox := scan_resolution_spinBox s; log := msg :: log s |}.

Definition Qltb (a b : Q) : bool := negb (Qle_bool b a).

(** Python's [min(a, b)] and [max(a, b)]: the first argument wins a tie. *)
Definition pymin (a b : Q) : Q := if Qltb b a then b else a.
Definition pymax (a b : Q) : Q := if Qltb a b then b else a.

Section Console.

(** [calculate_resolution(bits, [minV, maxV])] of the logic module, which is
    not among the sources. *)
Variable calculate_resolution : Z -> Q * Q -> Q.

(** [spinBox.setValue(v)]: the box takes the value and, when that changes it,
    emits [valueChanged], which is connected to [on_change]. *)
Definition setValue (on_change : state -> state) (v : Q) (s : state) : state :=
  if Qeq_bool (scan_resolution_spinBox s) v then s
  else on_change (set_spinBox v s).

(** The handler; [depth] bounds the nesting of signal deliveries. *)
Fixpoint scan_resolution_changed (depth : nat) (s : state) : state :=
  let resolution := scan_resolution_spinBox s in
  let minV := pymin (_start_voltage s) (_end_voltage s) in
  let maxV := pymax (_start_voltage s) (_end_voltage s) in
  let maximal_scan_resolution := calculate_resolution 16 (minV, maxV) in
  if Qltb resolution maximal_scan_resolution then
    let s := warn "Maximum scan resolution of scanning device exceeded! Set scan resolution to maximum value." s in
    let s := set_scan_resolution maximal_scan_resolution s in
    setValue
      (match depth with
       | O => fun s => s
       | S depth' => scan_resolution_changed depth'
       end)
      maximal_scan_resolution s
  else set_scan_resolution resolution s.

(** The maximum the handler compares with. *)
Definition maximal_resolution (s : state) : Q :=
  calculate_resolution 16
    (pymin (_start_voltage s) (_end_voltage s),
     pymax (_start_voltage s) (_end_voltage s)).

End Console.

(** ** Notions used in the statements below *)

(** A 16-bit converter over the scanned span, 10 V wide at most here. *)
Definition example_resolution (bits : Z) (span : Q * Q) : Q :=
  (snd span - fst span) / inject_Z (2 ^ bits).

Definition example_console : state :=
  {| _start_voltage := 0; _end_voltage := 10; _scan_resolution := 1 # 100;
     scan_resolution_spinBox := 1 # 100000; log := [] |}.

End CavityStabilisationGui.

(** * Relations kept by a computation *)

(** Every normal return of [c] relates the state before to the state after. *)
Definition keeps {St A} (R : St -> St -> Prop) (c : M St A) : Prop :=
  forall s a s', c s = Ret a s' -> R s s'.

(** * Further notions for the photon-counting card driver *)

Module FastComtecMore.

Import FastComtec.

(** [get_constraints()['hardware_binwidth_list']]: the minimal bin width
    times [2.0 ** k] for [k] in [np.linspace(0, 24, 25)]. *)
Definition hardware_binwidth_list (mb : float) : list float :=
  map (fun k => (mb * PyFloat.pow2 (Z.of_nat k))%float) (seq 0 25).

(** ** Discriminator levels *)

(** A [c_long] field keeps the low 32 bits of the integer assigned to it,
    read back as a signed number. *)
Definition c_long_value (z : Z) : Z := ((z + 2 ^ 31) mod 2 ^ 32 - 2 ^ 31)%Z.

(** What the 32-bit fields of [AcqSettings] give back as it was written:
    [range] is a [c_ulong], [cycles] a [c_long]. *)
Definition fits_c_ulong (z : Z) : Prop := (0 <= z < 2 ^ 32)%Z.

Definition fits_c_long (z : Z) : Prop := (- 2 ^ 31 <= z < 2 ^ 31)%Z.

(** [int((r + 2.048) / 4.096 * int('ffff', 16))]. *)
Definition FloatToWord (r : float) : M state Z :=
  PyFloat.int ((r + 2.048) / 4.096 * PyFloat.of_Z 65535)%float.

(** [(word & int('ffff', 16)) * 4.096 / int('ffff', 16) - 2.048]. *)
Definition WordToFloat (word : Z) : float :=
  (PyFloat.of_Z (Z.land word 65535) * 4.096 / PyFloat.of_Z 65535 - 2.048)%float.

Definition GetLevel : M state (float * float) :=
  let* setting := GetSettingData in
  let* dac0 := getattr_int setting "dac0" in
  let* dac1 := getattr_int setting "dac1" in
  ret (WordToFloat dac0, WordToFloat dac1).

(** [StoreSettingData] followed by [NewSetting]: the card takes over the two
    fields of the structure that [SetLevel] has changed. *)
Definition StoreSettingData (dac0 dac1 : Z) : M state unit :=
  modify (fun s =>
            add_event (DllCall "NewSetting")
              (add_event (DllCall "StoreSettingData")
                 (set_dll (set_regs (fun r => <["dac1" := dac1]> (<["dac0" := dac0]> r)))
                    s))).

(** [int('ffff0000', 16)] is 4294901760. *)
Definition SetLevel (start stop : float) : M state (float * float) :=
  let* setting := GetSettingData in
  let* dac0 := getattr_int setting "dac0" in
  let* w0 := FloatToWord start in
  let dac0 := c_long_value (Z.lor (Z.land dac0 4294901760) w0) in
  let* dac1 := getattr_int setting "dac1" in
  let* w1 := FloatToWord stop in
  let dac1 := c_long_value (Z.lor (Z.land dac1 4294901760) w1) in
  StoreSettingData dac0 dac1 >>
  GetLevel.

(** The 100 ms sleeps of the inner loop of [get_status]. *)
Definition is_sleep100 (e : event) : bool :=
  match e with Sleep 100 => true | _ => false end.

Definition nsleeps100 (s : state) : nat := length (List.filter is_sleep100 (trace s)).

(** The driver after [k] rounds of that loop: a sleep and a status read
    each. *)
Fixpoint after_rounds (k : nat) (s : state) : state :=
  match k with
  | O => s
  | S k' => after_rounds k' (set_dll poll (add_event (Sleep 100) s))
  end.

(** The length [get_length] reports: the card's range over the gate count. *)
Definition reported_length (s : state) : Z :=
  Z.quot (reg (dll s) "range") (if gated s then gate_count s else 1%Z).

(** The cycle count [set_cycles] asks for. *)
Definition requested_cycles (cycles : Z) : Z := if (cycles =? 0)%Z then 1%Z else cycles.

(** What polling the status leaves alone: the driver's mode and notes, the
    card's registers and its histogram memory. *)
Definition same_card (s s' : state) : Prop :=
  gated s' = gated s /\ timetrace_tmp s' = timetrace_tmp s
  /\ stopped_or_halt s' = stopped_or_halt s
  /\ regs (dll s') = regs (dll s) /\ hist (dll s') = hist (dll s)
  /\ started_at (dll s') = started_at (dll s).

(** The gated driver of above, paused: it keeps a snapshot of an earlier
    read. *)
Definition paused_driver : state :=
  set_stopped_or_halt "halt"
    (set_timetrace_tmp (TraceInfo (fresh_read gated_driver) (sweep_info gated_driver))
       gated_driver).

End FastComtecMore.

(** * Further notions for the data-acquisition board driver *)

Module NationalInstrumentsMore.

Import NationalInstrumentsXSeries.

Local Open Scope Q_scope.

(** ** Position ranges *)

Definition set_scanner_position_ranges (r : list (Q * Q)) (d : config) : config :=
  {| _default_clock_frequency := _default_clock_frequency d;
     _default_scanner_clock_frequency := _default_scanner_clock_frequency d;
     _dummy_frequency := _dummy_frequency d;
     _clock_channels := _clock_channels d;
     _counter_channels := _counter_channels d;
     _counter_ai_channels := _counter_ai_channels d;
     _scanner_position_ranges := r;
     _scanner_voltage_ranges := _scanner_voltage_ranges d;
     _default_samples_number := _default_samples_number d;
     _RWTimeout := _RWTimeout d |}.

Definition set_cfg (f : config -> config) (s : state) : state :=
  {| module_state := module_state s; cfg := f (cfg s); clk := clk s; reg := reg s;
     _counter_daq_tasks := _counter_daq_tasks s;
     _counter_analog_daq_task := _counter_analog_daq_task s;
     _scanner_ao_task := _scanner_ao_task s; _current_position := _current_position s;
     hw := hw s; calls := calls s; log := log s |}.

Definition get_position_range : M state (list (Q * Q)) :=
  gets (fun s => _scanner_position_ranges (cfg s)).

Definition get_scanner_position : M state (list Q) := gets _current_position.

(** One entry [pos] of the argument of [set_position_range].  Both error
    messages of the loop format the list [pos] itself with [{:d}], which
    raises [TypeError] while the message is built, before anything is logged
    or returned. *)
Definition check_limit (pos : list Q) : M state (Q * Q) :=
  match pos with
  | [lo; hi] => if Qltb hi lo then raise TypeError else ret (lo, hi)
  | _ => raise TypeError
  end.

Fixpoint check_limits (myrange : list (list Q)) : M state (list (Q * Q)) :=
  match myrange with
  | [] => ret []
  | pos :: rest =>
      let* p := check_limit pos in
      let* ps := check_limits rest in
      ret (p :: ps)
  end.

Definition set_position_range (myrange : py (list (list Q))) : M state Z :=
  let myrange :=
    match myrange with
    | None => [[0; 1 # 1000000]; [0; 1 # 1000000]; [0; 1 # 1000000]; [0; 1 # 1000000]]
    | Some r => r
    end in
  if negb (length myrange =? 4)%nat then
    logm Error "Given range should have dimension 4." >> ret (-1)%Z
  else
    let* ranges := check_limits myrange in
    modify (set_cfg (set_scanner_position_ranges ranges)) >>
    ret 0%Z.

(** ** Aliases of a clock task *)

(** [d[name]] on a dictionary. *)
Definition getitem {St V} (m : gmap string V) (name : string) : M St V :=
  match m !! name with
  | Some v => ret v
  | None => raise KeyError
  end.

Fixpoint add_channels (channel_names : list string) (my_task : TaskHandle)
    (my_channel : py string) (my_frequency : Q) : M state Z :=
  match channel_names with
  | [] => ret 0%Z
  | channel :: rest =>
      let* r := gets reg in
      if bool_decide (is_Some (_clock_daq_task_new r !! channel)) then
        logm Error
          "The same channel already has an existing clock task running, close this one first." >>
        ret (-1)%Z
      else
        modify (set_reg (set_task_new channel my_task)) >>
        modify (set_reg (set_channel_new channel my_channel)) >>
        modify (set_reg (set_frequency_new channel my_frequency)) >>
        add_channels rest my_task my_channel my_frequency
  end.

(** The first test of the method, [if not (channel_names, (frozenset, ...))],
    negates a two-element tuple and so never fires. *)
Definition add_clock_task_to_channel (channel_name_orig : string)
    (channel_names : list string) : M state Z :=
  if negb true then
    logm Error "Channels are not given in array type." >> ret (-1)%Z
  else
    let* r := gets reg in
    if negb (bool_decide (is_Some (_clock_daq_task_new r !! channel_name_orig))) then
      logm Error "The given clock task pointer did not exist yet. Create this one first." >>
      ret (-1)%Z
    else
      let* my_task := getitem (_clock_daq_task_new r) channel_name_orig in
      let* my_channel := getitem (_clock_channel_new r) channel_name_orig in
      let* my_frequency := getitem (_clock_frequency_new r) channel_name_orig in
      add_channels channel_names my_task my_channel my_frequency.

(** ** Releasing tasks *)

(** The two library calls that give a task back. *)
Inductive release_call : Type :=
| DAQmxStopTask (task : py TaskHandle)
| DAQmxClearTask (task : py TaskHandle).

(** The driver together with the board's answers to these calls;
    [released] lists them, most recent first. *)
Record closing : Type := {
  driver : state;
  release_raises : release_call -> bool;
  released : list release_call
}.

Definition with_driver (d : state) (s : closing) : closing :=
  {| driver := d; release_raises := release_raises s; released := released s |}.

(** A method of above, run on the driver. *)
Definition lift {A} (c : M state A) : M closing A :=
  fun s =>
    match c (driver s) with
    | Ret a d => Ret a (with_driver d s)
    | Raise e d => Raise e (with_driver d s)
    | Diverge => Diverge
    end.

Definition release (c : release_call) : M closing unit :=
  fun s =>
    let s' := {| driver := driver s; release_raises := release_raises s;
                 released := c :: released s |} in
    if release_raises s c then Raise DaqError s' else Ret tt s'.

Definition del_task_new (name : string) (r : registry) : registry :=
  {| _clock_daq_task_new := delete name (_clock_daq_task_new r);
     _clock_frequency_new := _clock_frequency_new r;
     _clock_channel_new := _clock_channel_new r |}.

Definition del_frequency_new (name : string) (r : registry) : registry :=
  {| _clock_daq_task_new := _clock_daq_task_new r;
     _clock_frequency_new := delete name (_clock_frequency_new r);
     _clock_channel_new := _clock_channel_new r |}.

Definition del_channel_new (name : string) (r : registry) : registry :=
  {| _clock_daq_task_new := _clock_daq_task_new r;
     _clock_frequency_new := _clock_frequency_new r;
     _clock_channel_new := delete name (_clock_channel_new r) |}.

(** [self._clock_daq_task_new.pop(name)] and its two siblings: a missing key
    raises. *)
Definition pop_task (name : string) : M state TaskHandle :=
  let* r := gets reg in
  let* v := getitem (_clock_daq_task_new r) name in
  modify (set_reg (del_task_new name)) >> ret v.

Definition pop_channel (name : string) : M state (py string) :=
  let* r := gets reg in
  let* v := getitem (_clock_channel_new r) name in
  modify (set_reg (del_channel_new name)) >> ret v.

Definition pop_frequency (name : string) : M state Q :=
  let* r := gets reg in
  let* v := getitem (_clock_frequency_new r) name in
  modify (set_reg (del_frequency_new name)) >> ret v.

(** The names registered for the task object [my_task].  (The order of the
    list is that of the map, not Python's insertion order; the removals
    below commute.) *)
Definition keys_of_task (my_task : TaskHandle) (m : gmap string TaskHandle) : list string :=
  (filter (fun kv => snd kv = my_task) (map_to_list m)).*1.

Fixpoint pop_keys (key_list : list string) : M state unit :=
  match key_list with
  | [] => ret tt
  | item :: rest =>
      pop_task item >> pop_channel item >> pop_frequency item >> pop_keys rest
  end.

Fixpoint restore_keys (key_list : list string) (my_task : TaskHandle)
    (my_channel : py string) (my_frequency : Q) : M state unit :=
  match key_list with
  | [] => ret tt
  | key :: rest =>
      modify (set_reg (set_task_new key my_task)) >>
      modify (set_reg (set_channel_new key my_channel)) >>
      modify (set_reg (set_frequency_new key my_frequency)) >>
      restore_keys rest my_task my_channel my_frequency
  end.

Definition close_clock_new (name : string) : M closing Z :=
  let* r := gets (fun s => reg (driver s)) in
  if bool_decide (is_Some (_clock_daq_task_new r !! name)) then
    let* my_task := lift (pop_task name) in
    let* my_channel := lift (pop_channel name) in
    let* my_frequency := lift (pop_frequency name) in
    (* removes channels from task list that used the same task *)
    let* r := gets (fun s => reg (driver s)) in
    let key_list := keys_of_task my_task (_clock_daq_task_new r) in
    lift (pop_keys key_list) >>
    try_except
      (release (DAQmxStopTask (Some my_task)) >>
       release (DAQmxClearTask (Some my_task)) >>
       ret 0%Z)
      (lift (logm Exception "Could not close clock.") >>
       lift (modify (set_reg (set_task_new name my_task))) >>
       lift (restore_keys key_list my_task my_channel my_frequency) >>
       ret (-1)%Z)
  else
    lift (logm Error
            "There was no task specified for the clock that was tried to be closed.") >>
    ret (-1)%Z.

Definition close_clock (scanner : bool) : M closing Z :=
  let* c := gets (fun s => clk (driver s)) in
  let my_task := if scanner then _scanner_clock_daq_task c else _clock_daq_task c in
  try_except
    (release (DAQmxStopTask my_task) >>
     release (DAQmxClearTask my_task) >>
     (if scanner then
        lift (modify (set_clk (set_clock_task true None))) >>
        lift (pop_channel "Scanner") >> ret tt
      else
        lift (modify (set_clk (set_clock_task false None))) >>
        lift (pop_channel "Counter") >> ret tt) >>
     ret 0%Z)
    (lift (logm Exception "Could not close clock.") >> ret (-1)%Z).

(** ** Notions used in the statements below *)


(** No name holds channel [ch]. *)
Definition channel_free (ch : string) (r : registry) : Prop :=
  forall n, _clock_channel_new r !! n <> Some (Some ch).

(** Every name registered for task [t] has a channel and a frequency. *)
Definition complete_for (t : TaskHandle) (r : registry) : Prop :=
  forall k, _clock_daq_task_new r !! k = Some t ->
            is_Some (_clock_channel_new r !! k) /\ is_Some (_clock_frequency_new r !! k).


(** Only the registry differs between [s] and [s']. *)
Definition registry_only (s s' : state) : Prop := s' = set_reg (fun _ => reg s') s.

(** Name [n] stands for task [t] on channel [c] at frequency [f]. *)
Definition registered (n : string) (t : TaskHandle) (c : py string) (f : Q)
    (r : registry) : Prop :=
  _clock_daq_task_new r !! n = Some t /\ _clock_channel_new r !! n = Some c
  /\ _clock_frequency_new r !! n = Some f.

Definition same_entries (n : string) (r r' : registry) : Prop :=
  _clock_daq_task_new r' !! n = _clock_daq_task_new r !! n
  /\ _clock_channel_new r' !! n = _clock_channel_new r !! n
  /\ _clock_frequency_new r' !! n = _clock_frequency_new r !! n.

Definition no_entries (n : string) (r : registry) : Prop :=
  _clock_daq_task_new r !! n = None /\ _clock_channel_new r !! n = None
  /\ _clock_frequency_new r !! n = None.

(** The driver of above on a board that releases every task. *)
Definition closing_on (d : state) : closing :=
  {| driver := d; release_raises := fun _ => false; released := [] |}.

(** An entry [set_position_range] lets pass. *)
Definition limit_ok (pos : list Q) : bool :=
  match pos with
  | [lo; hi] => Qleb lo hi
  | _ => false
  end.

Definition as_pair (pos : list Q) : Q * Q :=
  match pos with
  | [lo; hi] => (lo, hi)
  | _ => (0, 0)
  end.

(** The voltage the driver computes, in doubles, for position [x] on an axis
    with position range [p] and voltage limits [v]. *)
Definition volt (p v : Q * Q) (x : Q) : float :=
  ((PyFloat.of_Q (snd v) - PyFloat.of_Q (fst v))
   / (PyFloat.of_Q (snd p) - PyFloat.of_Q (fst p))
   * (PyFloat.of_Q x - PyFloat.of_Q (fst p))
   + PyFloat.of_Q (fst v))%float.

(** The position range has no width. *)
Definition flat (p : Q * Q) : bool :=
  PrimFloat.eqb (PyFloat.of_Q (snd p) - PyFloat.of_Q (fst p)) 0.

(** Voltage [y] compares below the lower or above the upper limit of [v]. *)
Definition beyond (v : Q * Q) (y : float) : bool :=
  PrimFloat.ltb y (PyFloat.of_Q (fst v)) || PrimFloat.ltb (PyFloat.of_Q (snd v)) y.

(** The voltages for a list of positions, axis by axis, and whether one of
    them is beyond its limits. *)
Definition volts_of (d : config) (positions : list Q) : list float :=
  zip_with (fun x pv => volt (fst pv) (snd pv) x) positions
    (zip (_scanner_position_ranges d) (_scanner_voltage_ranges d)).

Definition some_beyond (d : config) (volts : list float) : bool :=
  existsb (fun yv => beyond (snd yv) (fst yv)) (zip volts (_scanner_voltage_ranges d)).

(** The first [n] axes have voltage limits and a position range with a
    width. *)
Definition axes_ok (d : config) (n : nat) : Prop :=
  forall i, (i < n)%nat ->
    exists p v, _scanner_position_ranges d !! i = Some p
                /\ _scanner_voltage_ranges d !! i = Some v
                /\ flat p = false.

(** The tracked position after the axes given to [scanner_set_position] are
    stored. *)
Definition move_axis (i : nat) (v : py Q) (s : state) : state :=
  match v with
  | Some x => set_current_position (<[i := x]> (_current_position s)) s
  | None => s
  end.

Definition moved (x y z a : py Q) (s : state) : state :=
  move_axis 3 a (move_axis 2 z (move_axis 1 y (move_axis 0 x s))).

(** The driver of above with a tracked [y] outside its range. *)
Definition stray_driver : state := set_current_position [0; 200; 0; 0] fresh_driver.

(** The driver of above with the [x] axis spanning 0 to 277 micrometres. *)
Definition narrow_driver : state :=
  set_cfg (set_scanner_position_ranges
             [(0, 277 # 1000000); (0, 100); (0, 100); (0, 100)]) fresh_driver.

(** The raw samples of task [t], summed in pairs as the counter reports
    them. *)
Definition pair_count (s : state) (t : TaskHandle) (j : nat) : Z :=
  ((counter_samples (hw s) t (2 * j) + counter_samples (hw s) t (2 * j + 1)) mod 2 ^ 32)%Z.

(** A driver with one counter task running at the configured default rate,
    the integer 100; the raw counts grow by thirty million per sample. *)
Definition counting_driver : state :=
  {| module_state := "idle"; cfg := example_config; clk := clk fresh_driver;
     reg := reg fresh_driver; _counter_daq_tasks := [3%nat];
     _counter_analog_daq_task := None; _scanner_ao_task := Some 7%nat;
     _current_position := [0; 0; 0; 0];
     hw := {| daq_raises := fun _ => false;
              counter_samples := fun _ k => (30000000 * Z.of_nat k)%Z;
              analog_samples := fun _ _ => 0%float |};
     calls := []; log := [] |}.

(** The task, the channel and the registry name of a fixed-role clock. *)
Definition role_task (scanner : bool) (s : state) : py TaskHandle :=
  if scanner then _scanner_clock_daq_task (clk s) else _clock_daq_task (clk s).

Definition role_channel (scanner : bool) (s : state) : py string :=
  if scanner then _scanner_clock_channel (clk s) else _clock_channel (clk s).

Definition role_name (scanner : bool) : string :=
  if scanner then "Scanner"%string else "Counter"%string.

(** The channel [set_up_clock] settles on for the role. *)
Definition requested_channel (clock_channel : py string) (scanner : bool) (s : state)
    : py string :=
  match clock_channel with
  | Some ch => Some ch
  | None => role_channel scanner s
  end.

(** The driver of above with the counter clock running on the channel that
    the scanner clock is configured for. *)
Definition shared_driver : state :=
  set_clk (fun _ => {| _clock_daq_task := Some 5%nat; _scanner_clock_daq_task := None;
                       _clock_frequency := integer 100;
                       _scanner_clock_frequency := integer 100;
                       _clock_channel := Some "/Dev1/Ctr2"%string;
                       _scanner_clock_channel := Some "/Dev1/Ctr2"%string |})
    fresh_driver.

(** The driver of above with a clock registered under the name "cavity". *)
Definition clocked_driver : state :=
  set_reg (fun _ => {| _clock_daq_task_new := {[ "cavity"%string := 0%nat ]};
                       _clock_frequency_new := {[ "cavity"%string := 100 ]};
                       _clock_channel_new := {[ "cavity"%string := Some "/Dev1/Ctr2"%string ]} |})
    fresh_driver.

(** The same on a board that refuses to stop tasks. *)
Definition stuck_board : closing :=
  {| driver := clocked_driver; release_raises := fun c => match c with
                                                          | DAQmxStopTask _ => true
                                                          | DAQmxClearTask _ => false
                                                          end;
     released := [] |}.

(** The driver of above on a board that refuses to create tasks. *)
Definition refusing_driver : state :=
  {| module_state := "idle"; cfg := example_config; clk := clk fresh_driver;
     reg := reg fresh_driver; _counter_daq_tasks := [];
     _counter_analog_daq_task := None; _scanner_ao_task := Some 7%nat;
     _current_position := [0; 0; 0; 0];
     hw := {| daq_raises := fun c => match c with
                                     | DAQmxCreateTask _ _ => true
                                     | _ => false
                                     end;
              counter_samples := fun _ _ => 0%Z;
              analog_samples := fun _ _ => 0%float |};
     calls := []; log := [] |}.

End NationalInstrumentsMore.

(** * Further pentacene pulse generators *)

Module PentaceneMore.

Import PentaceneMethods.

Local Open Scope Q_scope.

Section Generators.

Variable _get_ensemble_count_length : PulseBlockEnsemble -> list PulseBlock -> Q.

Variable self : generator.

(** [self.microwave_channel], a setting of the base class. *)
Variable microwave_channel : string.

Definition generate_rabi_NV_red_read (name : string) (tau_start tau_step : Q)
    (num_of_points : Z) (t_laser_init t_wait_between : Q)
    (laser_read_ch add_gate_ch : string) : generated :=
  let tau_array := sweep tau_start tau_step num_of_points in
  let mw_element :=
    _get_mw_element tau_start tau_step (microwave_amplitude self)
      (microwave_frequency self) 0 in
  let waiting_element := _get_idle_element (wait_time self) 0 in
  let laser_red_element := _get_laser_gate_element (laser_length self) 0 in
  let laser_red_element :=
    if negb (String.eqb laser_read_ch "") then
      let laser_red_element :=
        set_digital_high (laser_channel self) false laser_red_element in
      set_digital_high laser_read_ch true laser_red_element
    else laser_red_element in
  (* additional gate channel, independent on the one from pulsed gui *)
  let laser_red_element :=
    if negb (String.eqb add_gate_ch "") then
      set_digital_high add_gate_ch true laser_red_element
    else laser_red_element in
  let idle_between_lasers_element := _get_idle_element t_wait_between 0 in
  let laser_init_element := _get_laser_gate_element t_laser_init 0 in
  let delay_element := _get_delay_gate_element in
  let rabi_block := {| block_name := name; element_list := [] |} in
  let rabi_block := block_append rabi_block mw_element in
  let rabi_block := block_append rabi_block laser_red_element in
  let rabi_block := block_append rabi_block idle_between_lasers_element in
  let rabi_block := block_append rabi_block laser_init_element in
  let rabi_block := block_append rabi_block delay_element in
  let rabi_block := block_append rabi_block waiting_element in
  finish _get_ensemble_count_length self name rabi_block (num_of_points - 1)%Z false
    tau_array ("s", "")%string ("Tau", "Signal")%string num_of_points.



End Generators.

(** ** Notions used in the statements below *)

(** The measurement block, the measurement information and the repetition
    count of what a generator returns. *)
Definition block_of (g : generated) : option PulseBlock := head (fst (fst g)).

Definition info_of (g : generated) : option measurement_information :=
  match g with
  | (_, [en], _) => info en
  | _ => None
  end.

Definition repetitions_of (g : generated) : option Z :=
  match g with
  | (_, [en], _) => snd <$> head (block_list en)
  | _ => None
  end.

Definition in_rotating_frame (g : generated) : option bool :=
  match g with
  | (_, [en], _) => Some (rotating_frame en)
  | _ => None
  end.

(** The gated laser elements played when the block runs [repetitions + 1]
    times. *)
Definition lasers_played (b : PulseBlock) (repetitions : Z) : Z :=
  (Z.of_nat (count_elements is_laser_gate b) * (repetitions + 1))%Z.

End PentaceneMore.

(** * Stepping through a computation *)

Lemma bind_Ret {St A B} (c : M St A) (k : A -> M St B) (s s' : St) (a : A)
    (r : outcome St B) :
  c s = Ret a s' -> k a s' = r -> bind c k s = r.
Proof. intros Hc Hk. unfold bind. rewrite Hc. exact Hk. Qed.

Lemma bind_Raise {St A B} (c : M St A) (k : A -> M St B) (s s' : St) (e : exn) :
  c s = Raise e s' -> bind c k s = Raise e s'.
Proof. intros Hc. unfold bind. rewrite Hc. reflexivity. Qed.

Lemma bind_Diverge {St A B} (c : M St A) (k : A -> M St B) (s : St) :
  c s = Diverge -> bind c k s = Diverge.
Proof. intros Hc. unfold bind. rewrite Hc. reflexivity. Qed.

(** * Properties of the photon-counting card driver *)

Module FastComtecProofs.

Import FastComtec.

(** ** Reading the setting registers *)

Lemma get_bitshift_eq s : get_bitshift s = Ret (reg (dll s) "bitshift") s.
Proof. reflexivity. Qed.

Lemma get_cycles_eq s : get_cycles s = Ret (reg (dll s) "cycles") s.
Proof. reflexivity. Qed.

Lemma lookup_field_fill (fields : list (string * ctype)) (mem : string -> ctype -> cval)
    (name : string) :
  ~ In name (map fst fields) -> lookup_field name (fill fields mem) = None.
Proof.
  induction fields as [|[f t] fields IH]; intros Hn; [reflexivity|].
  cbn [fill map lookup_field fst snd] in *.
  destruct (String.eqb_spec f name) as [-> | _].
  - exfalso. apply Hn. left. reflexivity.
  - apply IH. intros H. apply Hn. right. exact H.
Qed.

Lemma getattr_undeclared (fields : list (string * ctype)) (mem : string -> ctype -> cval)
    (name : string) (s : state) :
  ~ In name (map fst fields) ->
  getattr_int (fill fields mem) name s = Raise AttributeError s.
Proof.
  intros Hn. unfold getattr_int. apply bind_Raise.
  unfold getattr. rewrite lookup_field_fill by exact Hn. reflexivity.
Qed.

Lemma sequences_undeclared : ~ In "sequences"%string (map fst AcqSettings_fields).
Proof.
  cbn. intros H. repeat (destruct H as [H | H]; [discriminate H|]). exact H.
Qed.

(** C10: [sequences] is not among the declared fields of [AcqSettings], so
    every call of [get_sequences] fails with an attribute error and returns no
    value, whatever the card holds, also right after [set_sequences] has sent
    a sequence count to the card. *)
Theorem get_sequences_attribute_error :
  ~ In "sequences"%string (map fst AcqSettings_fields)
  /\ (forall s : state, get_sequences s = Raise AttributeError s)
  /\ (forall (s : state) (n : Z),
         exists s', set_sequences n s = Ret n s'
                    /\ reg (dll s') "sequences" = n
                    /\ get_sequences s' = Raise AttributeError s').
Proof.
  assert (Hget : forall s : state, get_sequences s = Raise AttributeError s).
  { intros s. unfold get_sequences.
    eapply bind_Ret; [reflexivity|].
    apply getattr_undeclared, sequences_undeclared. }
  split; [exact sequences_undeclared|]. split; [exact Hget|].
  intros s n. eexists. split; [reflexivity|]. split; [|apply Hget].
  unfold reg. cbn. rewrite lookup_insert_eq. reflexivity.
Qed.

(** ** [set_length] *)

(** The size guard of [set_length] and [set_cycles]: [max_bins] is the float
    27199999999.999996, so an integer is below it exactly when it is below
    27200000000. *)
Lemma Z_lt_max_bins (z : Z) : PyFloat.Z_lt z max_bins = (z <? 27200000000)%Z.
Proof.
  unfold PyFloat.Z_lt.
  replace (Prim2SF max_bins) with (S754_finite false 7130316799999999 (-18))
    by (vm_compute; reflexivity).
  cbn [Z.leb Z.compare PyFloat.signed Z.opp].
  change (2 ^ 18)%Z with 262144%Z.
  destruct (Z.ltb_spec (z * 262144) 7130316799999999),
           (Z.ltb_spec z 27200000000); try reflexivity; lia.
Qed.

Lemma set_length_accepts (s : state) (length_bins : Z) :
  (length_bins * cycle_multiplier s < 27200000000)%Z ->
  set_length length_bins s
  = Ret (round64 length_bins) (after_set_length (round64 length_bins) s).
Proof.
  intros Hguard. unfold set_length, cycle_multiplier in *.
  unfold bind at 1. unfold is_gated, gets at 1.
  destruct (gated s) eqn:Hg.
  - unfold bind at 1. rewrite get_cycles_eq.
    rewrite Z_lt_max_bins.
    destruct (Z.ltb_spec (length_bins * reg (dll s) "cycles") 27200000000); [|lia].
    reflexivity.
  - unfold bind at 1. unfold ret at 1.
    rewrite Z_lt_max_bins.
    destruct (Z.ltb_spec (length_bins * 1) 27200000000); [|lia].
    reflexivity.
Qed.

Lemma set_length_rejects (s : state) (length_bins : Z) :
  (27200000000 <= length_bins * cycle_multiplier s)%Z ->
  set_length length_bins s
  = Ret (-1)%Z (add_event (Log Error "Dimensions are too large for fast counter!") s).
Proof.
  intros Hguard. unfold set_length, cycle_multiplier in *.
  unfold bind at 1. unfold is_gated, gets at 1.
  destruct (gated s) eqn:Hg.
  - unfold bind at 1. rewrite get_cycles_eq.
    rewrite Z_lt_max_bins.
    destruct (Z.ltb_spec (length_bins * reg (dll s) "cycles") 27200000000); [lia|].
    reflexivity.
  - unfold bind at 1. unfold ret at 1.
    rewrite Z_lt_max_bins.
    destruct (Z.ltb_spec (length_bins * 1) 27200000000); [lia|].
    reflexivity.
Qed.

Lemma reg_after_set_length (r : Z) (s : state) :
  reg (dll (after_set_length r s)) "range" = r.
Proof.
  unfold after_set_length, reg. cbn.
  rewrite lookup_insert_ne by discriminate.
  rewrite lookup_insert_eq. reflexivity.
Qed.

(** For a non-negative length, truncation is rounding down to a multiple of
    64. *)
Lemma round64_floor (l : Z) :
  (0 <= l)%Z ->
  round64 l = (64 * (l / 64))%Z /\ (round64 l <= l < round64 l + 64)%Z.
Proof.
  intros Hl. unfold round64.
  rewrite Z.quot_div_nonneg by lia.
  split; [reflexivity|].
  pose proof (Z.mul_div_le l 64 ltac:(lia)).
  pose proof (Z.mul_succ_div_gt l 64 ltac:(lia)).
  lia.
Qed.

(** ** [configure] *)

Lemma set_bitshift_eq (b : Z) (s : state) :
  set_bitshift b s = Ret b (after_set_bitshift b s).
Proof.
  unfold set_bitshift, bind, RunCmd, modify. rewrite get_bitshift_eq.
  unfold after_set_bitshift, reg. cbn.
  rewrite lookup_insert_eq. reflexivity.
Qed.

Lemma get_binwidth_eq (s : state) :
  (reg (dll s) "bitshift" < 1024)%Z ->
  get_binwidth s
  = Ret (minimal_binwidth s * PyFloat.pow2 (reg (dll s) "bitshift"))%float s.
Proof.
  intros H. unfold get_binwidth, bind. rewrite get_bitshift_eq.
  unfold gets.
  destruct (Z.leb_spec 1024 (reg (dll s) "bitshift")); [lia | reflexivity].
Qed.

Lemma get_length_ungated (s : state) :
  gated s = false -> get_length s = Ret (reg (dll s) "range") s.
Proof.
  intros Hg. unfold get_length, bind, is_gated, gets. rewrite Hg.
  unfold ret. cbn. rewrite Z.quot_1_r. reflexivity.
Qed.

Lemma set_binwidth_1ns (s : state) :
  minimal_binwidth s = 0.25e-9%float ->
  set_binwidth 1e-9 s = Ret 1e-9%float (after_set_bitshift 2 s).
Proof.
  intros Hm. unfold set_binwidth, bind at 1. unfold gets at 1. rewrite Hm.
  unfold bind at 1.
  replace (PyFloat.truediv 1e-9 0.25e-9 s) with (Ret 4%float s)
    by (unfold PyFloat.truediv; vm_compute; reflexivity).
  unfold bind at 1.
  replace (PyFloat.int_log2 4 s) with (Ret 2%Z s)
    by (unfold PyFloat.int_log2; vm_compute; reflexivity).
  unfold bind at 1. rewrite set_bitshift_eq.
  rewrite get_binwidth_eq.
  - f_equal.
    replace (reg (dll (after_set_bitshift 2 s)) "bitshift") with 2%Z.
    + change (minimal_binwidth (after_set_bitshift 2 s)) with (minimal_binwidth s).
      rewrite Hm. vm_compute. reflexivity.
    + unfold after_set_bitshift, reg. cbn. rewrite lookup_insert_eq. reflexivity.
  - unfold after_set_bitshift, reg. cbn. rewrite lookup_insert_eq. cbn. lia.
Qed.

Lemma no_of_bins_documented (s : state) :
  gated s = false -> trigger_safety s = 200e-9%float ->
  no_of_bins 1e-6 1e-9 s = Ret 799%Z s.
Proof.
  intros Hg Ht. unfold no_of_bins, bind at 1. unfold gets at 1. rewrite Hg.
  unfold bind at 1. unfold gets at 1. rewrite Ht.
  unfold bind.
  replace (PyFloat.truediv (1e-6 - 200e-9) 1e-9 s)
    with (Ret 799.99999999999989%float s)
    by (unfold PyFloat.truediv; vm_compute; reflexivity).
  unfold PyFloat.int. vm_compute Prim2SF. reflexivity.
Qed.

Lemma bitshift_after_set_length (r b : Z) (s : state) :
  reg (dll (after_set_length r (after_set_bitshift b s))) "bitshift" = b.
Proof.
  unfold after_set_length, after_set_bitshift, reg. cbn.
  rewrite !lookup_insert_ne by discriminate.
  rewrite lookup_insert_eq. reflexivity.
Qed.

Lemma configure_documented (s : state) (number_of_gates : Z) (n_sequences : option Z) :
  documented s ->
  configure 1e-9 1e-6 number_of_gates None n_sequences None s
  = Ret (1e-9%float, 7.680000000000001e-07%float, number_of_gates)
        (after_configure_documented s).
Proof.
  intros (Hg & Ht & Hm). unfold configure.
  unfold bind at 1. rewrite (set_binwidth_1ns s Hm).
  set (s1 := after_set_bitshift 2 s).
  assert (Hb1 : reg (dll s1) "bitshift" = 2%Z).
  { unfold s1, after_set_bitshift, reg. cbn. rewrite lookup_insert_eq. reflexivity. }
  assert (Hbw : forall t, minimal_binwidth t = 0.25e-9%float ->
                          reg (dll t) "bitshift" = 2%Z ->
                          get_binwidth t = Ret 1e-9%float t).
  { intros t Hmt Hbt. rewrite get_binwidth_eq by (rewrite Hbt; lia).
    rewrite Hmt, Hbt. f_equal. }
  unfold bind at 1. rewrite (Hbw s1 Hm Hb1).
  unfold bind at 1. rewrite (no_of_bins_documented s1 Hg Ht).
  unfold bind at 1.
  rewrite set_length_accepts
    by (unfold cycle_multiplier; change (gated s1) with (gated s); rewrite Hg; lia).
  change (round64 799) with 768%Z.
  set (s2 := after_set_length 768 s1).
  unfold bind at 1. unfold gets at 1. change (gated s2) with (gated s). rewrite Hg.
  unfold bind at 1. unfold ret at 1.
  unfold bind at 1. unfold ret at 1.
  unfold bind at 1.
  rewrite get_length_ungated by (change (gated s2) with (gated s); exact Hg).
  unfold s2 at 1. rewrite reg_after_set_length.
  unfold bind at 1. unfold ret at 1.
  unfold bind at 1. unfold log, modify.
  unfold bind at 1.
  rewrite Hbw.
  - unfold ret, after_configure_documented. fold s1. fold s2. f_equal.
  - exact Hm.
  - unfold s2, s1. apply bitshift_after_set_length.
Qed.

(** C7 (amended): whenever [set_length] accepts a non-negative length (the
    length times the cycle multiplier is below [max_bins]) it stores the
    largest multiple of 64 that does not exceed it, so [set_length 130] with
    multiplier 1 stores 128; a length at or above the bound is refused with -1
    and nothing is sent to the card.  [configure] with [gated=False],
    [trigger_safety=200e-9], [record_length_s=1e-6], [bin_width_s=1e-9]
    computes [no_of_bins = 799] (the double quotient is 799.9999999999999) and
    stores 768. *)
Theorem set_length_rounds_down_to_64 :
  (forall (s : state) (length_bins : Z),
      (0 <= length_bins < 2 ^ 53)%Z ->
      (length_bins * cycle_multiplier s < 27200000000)%Z ->
      exists s',
        set_length length_bins s = Ret (64 * (length_bins / 64))%Z s'
        /\ reg (dll s') "range" = (64 * (length_bins / 64))%Z
        /\ (64 * (length_bins / 64) <= length_bins < 64 * (length_bins / 64) + 64)%Z
        /\ trace s' = Sleep 500 :: RunCmdEv (Cmd_roimax (64 * (length_bins / 64)))
                        :: RunCmdEv (Cmd_RANGE (64 * (length_bins / 64))) :: trace s)
  /\ (forall s : state,
         cycle_multiplier s = 1%Z ->
         exists s', set_length 130 s = Ret 128%Z s' /\ reg (dll s') "range" = 128%Z)
  /\ (forall (s : state) (length_bins : Z),
         (27200000000 <= length_bins * cycle_multiplier s)%Z ->
         exists s',
           set_length length_bins s = Ret (-1)%Z s'
           /\ dll s' = dll s
           /\ trace s' = Log Error "Dimensions are too large for fast counter!" :: trace s)
  /\ (forall (s : state) (number_of_gates : Z) (n_sequences : option Z),
         documented s ->
         exists s1 s',
           (set_binwidth 1e-9 >> get_binwidth) s = Ret 1e-9%float s1
           /\ no_of_bins 1e-6 1e-9 s1 = Ret 799%Z s1
           /\ configure 1e-9 1e-6 number_of_gates None n_sequences None s
              = Ret (1e-9%float, 7.680000000000001e-07%float, number_of_gates) s'
           /\ reg (dll s') "range" = 768%Z
           /\ In (RunCmdEv (Cmd_RANGE 768)) (trace s')).
Proof.
  split; [|split; [|split]].
  - intros s l [Hl _] Hguard.
    destruct (round64_floor l Hl) as [Hr Hb].
    exists (after_set_length (round64 l) s).
    rewrite (set_length_accepts s l Hguard), reg_after_set_length.
    rewrite <- Hr. repeat split; try reflexivity; lia.
  - intros s Hc.
    exists (after_set_length (round64 130) s).
    rewrite set_length_accepts by (rewrite Hc; lia).
    rewrite reg_after_set_length. split; reflexivity.
  - intros s l Hguard. eexists.
    rewrite (set_length_rejects s l Hguard). repeat split.
  - intros s ng nseq Hd.
    pose proof Hd as (Hg & Ht & Hm).
    exists (after_set_bitshift 2 s), (after_configure_documented s).
    split; [|split; [|split; [|split]]].
    + unfold bind. rewrite (set_binwidth_1ns s Hm).
      rewrite get_binwidth_eq.
      * unfold after_set_bitshift, reg. cbn. rewrite lookup_insert_eq.
        rewrite Hm. f_equal.
      * unfold after_set_bitshift, reg. cbn. rewrite lookup_insert_eq. cbn. lia.
    + apply no_of_bins_documented; assumption.
    + apply configure_documented; assumption.
    + unfold after_configure_documented.
      change (dll (add_event ?e ?t)) with (dll t).
      apply reg_after_set_length.
    + cbn. tauto.
Qed.

Lemma set_length_rounds_down_to_64_witness :
  (exists s', set_length 130 documented_driver = Ret 128%Z s'
              /\ reg (dll s') "range" = 128%Z)
  /\ (exists s1 s',
         (set_binwidth 1e-9 >> get_binwidth) documented_driver = Ret 1e-9%float s1
         /\ no_of_bins 1e-6 1e-9 s1 = Ret 799%Z s1
         /\ configure 1e-9 1e-6 0 None None None documented_driver
            = Ret (1e-9%float, 7.680000000000001e-07%float, 0%Z) s'
         /\ reg (dll s') "range" = 768%Z
         /\ In (RunCmdEv (Cmd_RANGE 768)) (trace s')).
Proof.
  destruct set_length_rounds_down_to_64 as (_ & H130 & _ & Hconf).
  split.
  - apply (H130 documented_driver). reflexivity.
  - apply (Hconf documented_driver 0%Z None).
    unfold documented. repeat split; reflexivity.
Defined.

(** C7 as stated fails twice: the bin count [configure] computes for the
    documented inputs is 799, not 800; and a negative length (which
    [configure] produces when the record is shorter than the trigger safety)
    is rounded toward zero, that is up: -100 is stored as -64. *)
Lemma set_length_counterexample :
  no_of_bins 1e-6 1e-9 documented_driver <> Ret 800%Z documented_driver
  /\ exists s', set_length (-100) documented_driver = Ret (-64)%Z s'
                /\ reg (dll s') "range" = (-64)%Z
                /\ ~ (-64 <= -100)%Z.
Proof.
  split.
  - rewrite no_of_bins_documented by reflexivity. discriminate.
  - exists (after_set_length (-64) documented_driver).
    split; [|split].
    + rewrite set_length_accepts by (vm_compute; reflexivity). reflexivity.
    + apply reg_after_set_length.
    + lia.
Qed.

(** ** Status polling *)

Lemma get_status_eq (fuel : nat) (s : state) :
  started_at (dll s) (polls (dll s)) <> 3%Z ->
  get_status (S fuel) s
  = Ret (status_code (started_at (dll s) (polls (dll s))) (stopped_or_halt s))
        (prepend (status_events (started_at (dll s) (polls (dll s))) (stopped_or_halt s))
           (set_dll poll s)).
Proof.
  intros H3.
  assert (Hget : forall t : state,
             getattr_int (status_struct (dll s)) "started" t
             = Ret (started_at (dll s) (polls (dll s))) t)
    by reflexivity.
  unfold get_status.
  eapply bind_Ret; [reflexivity|].
  eapply bind_Ret.
  { cbn [while]. eapply bind_Ret; [eapply bind_Ret; [apply Hget | reflexivity]|].
    destruct (Z.eqb_spec (started_at (dll s) (polls (dll s))) 3); [contradiction|].
    reflexivity. }
  eapply bind_Ret; [apply Hget|].
  unfold status_events, status_code.
  destruct (started_at (dll s) (polls (dll s)) =? 1)%Z; [reflexivity|].
  destruct (started_at (dll s) (polls (dll s)) =? 0)%Z; [|reflexivity].
  eapply bind_Ret; [reflexivity|].
  change (stopped_or_halt (set_dll poll s)) with (stopped_or_halt s).
  destruct (String.eqb (stopped_or_halt s) "stopped"); [reflexivity|].
  destruct (String.eqb (stopped_or_halt s) "halt"); reflexivity.
Qed.

Lemma prepend_status_frame (st : Z) (soh : string) (s : state) :
  let s' := prepend (status_events st soh) (set_dll poll s) in
  started_at (dll s') = started_at (dll s)
  /\ polls (dll s') = S (polls (dll s))
  /\ stopped_or_halt s' = stopped_or_halt s
  /\ gated s' = gated s
  /\ nsleeps s' = nsleeps s.
Proof.
  unfold status_events.
  destruct (status_code st soh =? -1)%Z; cbn; repeat split; reflexivity.
Qed.

Lemma nsleeps_sleep50 (s : state) : nsleeps (add_event (Sleep 50) s) = S (nsleeps s).
Proof. reflexivity. Qed.

Lemma capped_loop (target : Z) (fuel : nat) :
  (1 <= fuel)%nat ->
  forall (n : nat) (i : Z) (s : state),
    never_stopping s ->
    (0 <= i <= 20)%Z ->
    (Z.to_nat (20 - i) < n)%nat ->
    exists i' s',
      while n (capped_cond fuel target) capped_body i s = Ret i' s'
      /\ (i <= i' <= 20)%Z
      /\ nsleeps s' = (nsleeps s + Z.to_nat (i' - i))%nat
      /\ gated s' = gated s
      /\ ((forall k, (k <= Z.to_nat (20 - i))%nat ->
             status_code (started_at (dll s) (polls (dll s) + k)%nat) (stopped_or_halt s)
             <> target) -> i' = 20%Z).
Proof.
  intros Hfuel. destruct fuel as [|fuel]; [lia|].
  induction n as [|n IH]; intros i s H3 Hi Hn; [lia|].
  set (st := started_at (dll s) (polls (dll s))).
  set (s1 := prepend (status_events st (stopped_or_halt s)) (set_dll poll s)).
  destruct (prepend_status_frame st (stopped_or_halt s) s)
    as (Hsa & Hpo & Hso & Hga & Hsl). fold s1 in Hsa, Hpo, Hso, Hga, Hsl.
  assert (Hcond : capped_cond (S fuel) target i s
                  = Ret (negb (status_code st (stopped_or_halt s) =? target)%Z
                         && (i <? n_wait_max)%Z) s1).
  { unfold capped_cond. eapply bind_Ret; [apply get_status_eq, H3 | reflexivity]. }
  cbn [while].
  destruct (Z.eqb_spec (status_code st (stopped_or_halt s)) target) as [Heq | Hne].
  - (* the expected state is observed *)
    exists i, s1. split; [eapply bind_Ret; [exact Hcond | reflexivity]|].
    split; [lia|]. split; [|split].
    + rewrite Hsl, Z.sub_diag. cbn. lia.
    + exact Hga.
    + intros Hnever. exfalso. apply (Hnever 0%nat); [lia|].
      rewrite Nat.add_0_r. exact Heq.
  - unfold n_wait_max in Hcond.
    destruct (Z.ltb_spec i 20) as [Hlt | Hge].
    + (* one more iteration *)
      set (s2 := add_event (Sleep 50) s1).
      destruct (IH (i + 1)%Z s2) as (i' & s' & Hw & Hi' & Hs' & Hg' & Hto).
      * intros k. change (dll s2) with (dll s1). rewrite Hsa. apply H3.
      * lia.
      * lia.
      * exists i', s'. split.
        { eapply bind_Ret; [exact Hcond|]. cbn [negb andb].
          eapply bind_Ret; [reflexivity|]. exact Hw. }
        split; [lia|]. split; [|split].
        -- rewrite Hs'. unfold s2. rewrite nsleeps_sleep50, Hsl. lia.
        -- rewrite Hg'. exact Hga.
        -- intros Hnever. apply Hto. intros k Hk.
           change (dll s2) with (dll s1).
           change (stopped_or_halt s2) with (stopped_or_halt s1).
           rewrite Hsa, Hpo, Hso.
           replace (S (polls (dll s)) + k)%nat with (polls (dll s) + S k)%nat by lia.
           apply Hnever. lia.
    + exists i, s1. split; [eapply bind_Ret; [exact Hcond | reflexivity]|].
      split; [lia|]. split; [|split].
      * rewrite Hsl, Z.sub_diag. cbn. lia.
      * exact Hga.
      * intros _. lia.
Qed.

Lemma status_code_running (st : Z) (soh : string) : status_code st soh = 2%Z <-> st = 1%Z.
Proof.
  unfold status_code.
  destruct (Z.eqb_spec st 1); [tauto|].
  destruct (st =? 0)%Z; [|split; [discriminate | contradiction]].
  destruct (String.eqb soh "stopped"); [split; [discriminate | contradiction]|].
  destruct (String.eqb soh "halt"); split; try discriminate; contradiction.
Qed.

Lemma status_code_idle (st : Z) : status_code st "stopped" = 1%Z <-> st = 0%Z.
Proof.
  unfold status_code.
  destruct (Z.eqb_spec st 1) as [-> | H1]; [split; discriminate|].
  destruct (Z.eqb_spec st 0) as [-> | H0]; [cbn; tauto|].
  split; [discriminate | contradiction].
Qed.

Lemma start_measure_bounded (fuel : nat) (s : state) :
  (21 <= fuel)%nat ->
  never_stopping s ->
  exists s',
    start_measure fuel s = Ret (dll_status (dll s)) s'
    /\ (nsleeps s' <= nsleeps s + 20)%nat
    /\ ((forall k, (k <= 20)%nat -> started_at (dll s) (polls (dll s) + k)%nat <> 1%Z) ->
        nsleeps s' = (nsleeps s + 20)%nat
        /\ hd_error (trace s') = Some (Log Warning "Starting fastcomtec timed out.")).
Proof.
  intros Hfuel H3.
  set (s0 := add_event (DllCall "Start") s).
  destruct (capped_loop 2 fuel ltac:(lia) fuel 0%Z s0) as (i' & s1 & Hw & Hi & Hs & _ & Hto).
  { exact H3. } { lia. } { cbn. lia. }
  change (nsleeps s0) with (nsleeps s) in Hs.
  change (dll s0) with (dll s) in Hto. change (stopped_or_halt s0) with (stopped_or_halt s) in Hto.
  unfold start_measure.
  destruct (Z.leb_spec n_wait_max i') as [Hge | Hlt].
  - exists (add_event (Log Warning "Starting fastcomtec timed out.") s1).
    split; [|split].
    + eapply bind_Ret; [reflexivity|]. fold s0.
      eapply bind_Ret; [exact Hw|].
      destruct (Z.leb_spec n_wait_max i'); [reflexivity | lia].
    + change (nsleeps (add_event ?e s1)) with (nsleeps s1). rewrite Hs. lia.
    + intros _. split; [|reflexivity].
      change (nsleeps (add_event ?e s1)) with (nsleeps s1). rewrite Hs.
      unfold n_wait_max in Hge. replace i' with 20%Z by lia. reflexivity.
  - exists s1. split; [|split].
    + eapply bind_Ret; [reflexivity|]. fold s0.
      eapply bind_Ret; [exact Hw|].
      destruct (Z.leb_spec n_wait_max i'); [lia | reflexivity].
    + rewrite Hs. lia.
    + intros Hnever. exfalso. unfold n_wait_max in Hlt.
      enough (i' = 20%Z) by lia. apply Hto. intros k Hk Hc.
      apply status_code_running in Hc. apply (Hnever k); [cbn in Hk; lia | exact Hc].
Qed.

Lemma stop_measure_bounded (fuel : nat) (s : state) :
  (21 <= fuel)%nat ->
  never_stopping s ->
  exists s',
    stop_measure fuel s = Ret (dll_status (dll s)) s'
    /\ (nsleeps s' <= nsleeps s + 20)%nat
    /\ ((forall k, (k <= 20)%nat -> started_at (dll s) (polls (dll s) + k)%nat <> 0%Z) ->
        nsleeps s' = (nsleeps s + 20)%nat
        /\ In (Log Warning "Stopping fastcomtec timed out.") (trace s')).
Proof.
  intros Hfuel H3.
  set (s0 := add_event (DllCall "Halt") (set_stopped_or_halt "stopped" s)).
  destruct (capped_loop 1 fuel ltac:(lia) fuel 0%Z s0) as (i' & s1 & Hw & Hi & Hs & Hg & Hto).
  { exact H3. } { lia. } { cbn. lia. }
  change (nsleeps s0) with (nsleeps s) in Hs.
  change (dll s0) with (dll s) in Hto. change (stopped_or_halt s0) with "stopped" in Hto.
  unfold stop_measure.
  assert (Htail : forall t : state,
             exists t', (let* g := gets gated in
                         (if (g : bool) then modify (set_timetrace_tmp EmptyList) else ret tt) >>
                         ret (dll_status (dll s))) t = Ret (dll_status (dll s)) t'
                        /\ nsleeps t' = nsleeps t /\ trace t' = trace t).
  { intros t. unfold bind, gets. destruct (gated t); eexists; repeat split. }
  destruct (Z.leb_spec n_wait_max i') as [Hge | Hlt].
  - destruct (Htail (add_event (Log Warning "Stopping fastcomtec timed out.") s1))
      as (t' & Ht & Hn & Htr).
    exists t'. split; [|split].
    + eapply bind_Ret; [reflexivity|].
      eapply bind_Ret; [reflexivity|]. fold s0.
      eapply bind_Ret; [exact Hw|].
      destruct (Z.leb_spec n_wait_max i'); [|lia].
      eapply bind_Ret; [reflexivity|]. exact Ht.
    + rewrite Hn. change (nsleeps (add_event ?e s1)) with (nsleeps s1). rewrite Hs. lia.
    + intros _. split.
      * rewrite Hn. change (nsleeps (add_event ?e s1)) with (nsleeps s1). rewrite Hs.
        unfold n_wait_max in Hge. replace i' with 20%Z by lia. reflexivity.
      * rewrite Htr. left. reflexivity.
  - destruct (Htail s1) as (t' & Ht & Hn & Htr).
    exists t'. split; [|split].
    + eapply bind_Ret; [reflexivity|].
      eapply bind_Ret; [reflexivity|]. fold s0.
      eapply bind_Ret; [exact Hw|].
      destruct (Z.leb_spec n_wait_max i'); [lia|].
      eapply bind_Ret; [reflexivity|]. exact Ht.
    + rewrite Hn, Hs. lia.
    + intros Hnever. exfalso. unfold n_wait_max in Hlt.
      enough (i' = 20%Z) by lia. apply Hto. intros k Hk Hc.
      apply status_code_idle in Hc. apply (Hnever k); [cbn in Hk; lia | exact Hc].
Qed.

Lemma uncapped_loop_diverges (target : Z) (fuel : nat) :
  forall (n : nat) (s : state),
    (forall k, started_at (dll s) k <> 3%Z
               /\ status_code (started_at (dll s) k) (stopped_or_halt s) <> target) ->
    while n (uncapped_cond fuel target) (fun _ => sleep 50) tt s = Diverge.
Proof.
  induction n as [|n IH]; intros s Hdev; [reflexivity|].
  cbn [while]. destruct fuel as [|fuel].
  - apply bind_Diverge. unfold uncapped_cond. apply bind_Diverge.
    unfold get_status. eapply bind_Ret; reflexivity.
  - set (st := started_at (dll s) (polls (dll s))).
    set (s1 := prepend (status_events st (stopped_or_halt s)) (set_dll poll s)).
    destruct (prepend_status_frame st (stopped_or_halt s) s) as (Hsa & _ & Hso & _).
    fold s1 in Hsa, Hso.
    eapply bind_Ret.
    + unfold uncapped_cond. eapply bind_Ret; [apply get_status_eq, Hdev | reflexivity].
    + fold st. destruct (Z.eqb_spec (status_code st (stopped_or_halt s)) target) as [E | _].
      * exfalso. exact (proj2 (Hdev _) E).
      * cbn [negb]. eapply bind_Ret; [reflexivity|].
        apply IH. intros k. fold s1.
        change (dll (add_event (Sleep 50) s1)) with (dll s1).
        change (stopped_or_halt (add_event (Sleep 50) s1)) with (stopped_or_halt s1).
        rewrite Hsa, Hso. apply Hdev.
Qed.

Lemma pause_measure_diverges (fuel : nat) (s : state) :
  (forall n, started_at (dll s) n = 1%Z) -> pause_measure fuel s = Diverge.
Proof.
  intros Hrun. unfold pause_measure.
  eapply bind_Ret; [reflexivity|].
  eapply bind_Ret; [reflexivity|].
  apply bind_Diverge.
  apply (uncapped_loop_diverges 3 fuel fuel). intros k. cbn. rewrite Hrun.
  split; [discriminate | cbn; discriminate].
Qed.

Lemma continue_measure_diverges (fuel : nat) (s : state) :
  gated s = false ->
  (forall n, started_at (dll s) n = 0%Z) -> continue_measure fuel s = Diverge.
Proof.
  intros Hg Hidle. unfold continue_measure.
  eapply bind_Ret; [reflexivity|]. rewrite Hg.
  eapply bind_Ret; [reflexivity|].
  apply bind_Diverge.
  apply (uncapped_loop_diverges 2 fuel fuel). intros k. cbn. rewrite Hidle.
  split; [discriminate|].
  intros Hc. apply status_code_running in Hc. discriminate.
Qed.

(** [get_status] has a loop of its own, on the flag value 3 ("about to
    stop"), and that one has no cap either: a card stuck on 3 keeps every
    operation that polls the status from returning. *)
Lemma get_status_stuck (fuel : nat) (s : state) :
  (forall n, started_at (dll s) n = 3%Z) -> get_status fuel s = Diverge.
Proof.
  intros Hstuck. unfold get_status.
  eapply bind_Ret; [reflexivity|].
  apply bind_Diverge.
  assert (Hloop : forall (n : nat) (status : cstruct) (t : state),
             (forall k, started_at (dll t) k = 3%Z) ->
             lookup_field "started" status = Some (CInt 3) ->
             while n
               (fun status => let* started := getattr_int status "started" in
                              ret (started =? 3)%Z)
               (fun _ => sleep 100 >> GetStatusData) status t = Diverge).
  { induction n as [|n IH]; intros status t Ht Hst; [reflexivity|].
    cbn [while].
    eapply bind_Ret.
    - eapply bind_Ret; [|reflexivity].
      unfold getattr_int, getattr. rewrite Hst. reflexivity.
    - cbn [Z.eqb Pos.eqb].
      eapply bind_Ret; [reflexivity|].
      apply IH.
      + intros k. apply Ht.
      + cbn. rewrite Ht. reflexivity. }
  apply Hloop.
  - intros k. apply Hstuck.
  - cbn. rewrite Hstuck. reflexivity.
Qed.

Lemma start_measure_stuck (fuel : nat) (s : state) :
  (forall n, started_at (dll s) n = 3%Z) -> start_measure fuel s = Diverge.
Proof.
  intros Hstuck. unfold start_measure.
  eapply bind_Ret; [reflexivity|].
  apply bind_Diverge.
  destruct fuel as [|fuel]; [reflexivity|].
  cbn [while]. apply bind_Diverge. apply bind_Diverge.
  apply get_status_stuck. exact Hstuck.
Qed.

(** C3: the polling loops of [start_measure] and [stop_measure] run at most 20
    iterations and then log a warning and return; the loops of
    [pause_measure] and of the ungated [continue_measure] have no cap: with a
    card that never halts (respectively never starts) they poll for ever,
    whatever fuel they are given. *)
Theorem polling_caps :
  (forall (fuel : nat) (s : state),
      (21 <= fuel)%nat -> never_stopping s ->
      exists s',
        start_measure fuel s = Ret (dll_status (dll s)) s'
        /\ (nsleeps s' <= nsleeps s + 20)%nat
        /\ ((forall k, (k <= 20)%nat -> started_at (dll s) (polls (dll s) + k)%nat <> 1%Z) ->
            nsleeps s' = (nsleeps s + 20)%nat
            /\ hd_error (trace s') = Some (Log Warning "Starting fastcomtec timed out.")))
  /\ (forall (fuel : nat) (s : state),
         (21 <= fuel)%nat -> never_stopping s ->
         exists s',
           stop_measure fuel s = Ret (dll_status (dll s)) s'
           /\ (nsleeps s' <= nsleeps s + 20)%nat
           /\ ((forall k, (k <= 20)%nat -> started_at (dll s) (polls (dll s) + k)%nat <> 0%Z) ->
               nsleeps s' = (nsleeps s + 20)%nat
               /\ In (Log Warning "Stopping fastcomtec timed out.") (trace s')))
  /\ (forall (fuel : nat) (s : state),
         (forall n, started_at (dll s) n = 1%Z) -> pause_measure fuel s = Diverge)
  /\ (forall (fuel : nat) (s : state),
         gated s = false -> (forall n, started_at (dll s) n = 0%Z) ->
         continue_measure fuel s = Diverge).
Proof.
  split; [|split; [|split]].
  - apply start_measure_bounded.
  - apply stop_measure_bounded.
  - apply pause_measure_diverges.
  - apply continue_measure_diverges.
Qed.

Lemma polling_caps_witness :
  (exists s', start_measure 21 (driver_on idle_card) = Ret 0%Z s'
              /\ nsleeps s' = 20%nat
              /\ hd_error (trace s') = Some (Log Warning "Starting fastcomtec timed out."))
  /\ (forall fuel, pause_measure fuel (driver_on running_card) = Diverge)
  /\ (forall fuel, continue_measure fuel (driver_on idle_card) = Diverge).
Proof.
  destruct polling_caps as (Hstart & _ & Hpause & Hcont).
  split; [|split].
  - destruct (Hstart 21%nat (driver_on idle_card)) as (s' & Hr & _ & Hto).
    + lia.
    + intros n. cbn. discriminate.
    + exists s'. split; [exact Hr|]. apply Hto. intros k _. cbn. discriminate.
  - intros fuel. apply Hpause. intros n. reflexivity.
  - intros fuel. apply Hcont; [reflexivity|]. intros n. reflexivity.
Defined.

(** ** [get_data_trace] *)

Lemma np_empty_ok (sh : list Z) (s : state) :
  forallb (fun d => (0 <=? d)%Z) sh = true ->
  np_empty sh s = Ret (Z.to_nat (fold_right Z.mul 1%Z sh)) s.
Proof. intros H. unfold np_empty. rewrite H. reflexivity. Qed.

Lemma np_empty_negative (sh : list Z) (s : state) :
  forallb (fun d => (0 <=? d)%Z) sh = false -> np_empty sh s = Raise ValueError s.
Proof. intros H. unfold np_empty. rewrite H. reflexivity. Qed.

Lemma get_data_trace_shape (s : state) :
  (gated s = true ->
   (let* bsetting := GetSettingData in
    let* H := getattr_int bsetting "cycles" in
    let H := if (H =? 0)%Z then 1%Z else H in
    ret [H; Z.quot (reg (dll s) "range") H]) s = Ret (trace_shape s) s)
  /\ (gated s = false -> trace_shape s = [reg (dll s) "range"]).
Proof.
  unfold trace_shape, gate_count. split; intros Hg; rewrite Hg; reflexivity.
Qed.

Lemma get_data_trace_no_snapshot (s : state) :
  gated s = false \/ timetrace_tmp s = EmptyList ->
  forallb (fun d => (0 <=? d)%Z) (trace_shape s) = true ->
  get_data_trace s = Ret (fresh_read s, sweep_info s) (set_dll poll s).
Proof.
  intros Hsnap Hdims. unfold get_data_trace.
  eapply bind_Ret; [reflexivity|].
  eapply bind_Ret; [reflexivity|].
  eapply bind_Ret; [reflexivity|].
  eapply (bind_Ret _ _ _ s (trace_shape s)).
  { destruct (get_data_trace_shape s) as [Ht Hf].
    destruct (gated s) eqn:Hg; [apply Ht | rewrite Hf]; reflexivity. }
  eapply bind_Ret; [apply np_empty_ok, Hdims|].
  eapply bind_Ret; [reflexivity|].
  eapply bind_Ret; [reflexivity|].
  eapply (bind_Ret _ _ _ s (fresh_read s)).
  { destruct Hsnap as [Hg | He].
    - rewrite Hg. destruct (timetrace_tmp s); reflexivity.
    - rewrite He. reflexivity. }
  eapply bind_Ret; reflexivity.
Qed.

Lemma get_data_trace_snapshot (s : state) (t : ndarray) (i : info_dict) :
  gated s = true -> timetrace_tmp s = TraceInfo t i ->
  exists e, get_data_trace s = Raise e s /\ (e = ValueError \/ e = TypeError).
Proof.
  intros Hg Hsnap. unfold get_data_trace.
  destruct (forallb (fun d => (0 <=? d)%Z) (trace_shape s)) eqn:Hdims.
  - assert (Hadd : exists e, add_tuple (fresh_read s) t i s = Raise e s
                             /\ (e = ValueError \/ e = TypeError)).
    { unfold add_tuple. destruct (last (shape (fresh_read s))) as [w|].
      - destruct ((w =? 1) || (w =? 2))%Z; eexists; split; eauto.
      - eexists; split; eauto. }
    destruct Hadd as (e & Hadd & He). exists e. split; [|exact He].
    eapply bind_Ret; [reflexivity|].
    eapply bind_Ret; [reflexivity|].
    eapply bind_Ret; [reflexivity|].
    eapply (bind_Ret _ _ _ s (trace_shape s)).
    { rewrite Hg. apply (proj1 (get_data_trace_shape s) Hg). }
    eapply bind_Ret; [apply np_empty_ok, Hdims|].
    eapply bind_Ret; [reflexivity|].
    eapply bind_Ret; [reflexivity|].
    apply bind_Raise. rewrite Hsnap, Hg. exact Hadd.
  - exists ValueError. split; [|left; reflexivity].
    eapply bind_Ret; [reflexivity|].
    eapply bind_Ret; [reflexivity|].
    eapply bind_Ret; [reflexivity|].
    eapply (bind_Ret _ _ _ s (trace_shape s)).
    { rewrite Hg. apply (proj1 (get_data_trace_shape s) Hg). }
    apply bind_Raise. apply np_empty_negative, Hdims.
Qed.

Lemma pause_measure_snapshot (fuel : nat) (s : state) :
  gated s = true -> timetrace_tmp s = EmptyList ->
  started_at (dll s) (polls (dll s)) = 0%Z ->
  forallb (fun d => (0 <=? d)%Z) (trace_shape s) = true ->
  exists s' t i,
    pause_measure (S fuel) s = Ret (dll_status (dll s)) s'
    /\ gated s' = true
    /\ timetrace_tmp s' = TraceInfo t i
    /\ shape t = trace_shape s.
Proof.
  intros Hg Hsnap Hhalt Hdims.
  set (s1 := add_event (DllCall "Halt") (set_stopped_or_halt "halt" s)).
  set (s2 := set_dll poll s1).
  assert (Hloop : while (S fuel) (uncapped_cond (S fuel) 3) (fun _ => sleep 50) tt s1
                  = Ret tt s2).
  { cbn [while]. eapply bind_Ret.
    - unfold uncapped_cond. eapply bind_Ret; [|reflexivity].
      apply get_status_eq. change (dll s1) with (dll s). rewrite Hhalt. discriminate.
    - change (dll s1) with (dll s). rewrite Hhalt. reflexivity. }
  assert (Hread : get_data_trace s2 = Ret (fresh_read s2, sweep_info s2) (set_dll poll s2)).
  { apply get_data_trace_no_snapshot; [right; exact Hsnap | exact Hdims]. }
  exists (set_timetrace_tmp (TraceInfo (fresh_read s2) (sweep_info s2)) (set_dll poll s2)),
         (fresh_read s2), (sweep_info s2).
  split; [|split; [exact Hg | split; reflexivity]].
  unfold pause_measure.
  eapply bind_Ret; [reflexivity|].
  eapply bind_Ret; [reflexivity|]. fold s1.
  eapply bind_Ret; [exact Hloop|].
  eapply bind_Ret; [reflexivity|].
  change (gated s2) with (gated s). rewrite Hg.
  eapply bind_Ret; [eapply bind_Ret; [exact Hread | reflexivity]|].
  reflexivity.
Qed.

(** C8: ungated, [get_data_trace] returns a one-dimensional trace whose length
    is the card's [range]; gated and without a pending snapshot, a trace of
    shape (cycles, range/cycles), with 1 for a cycle count of 0.  With a
    snapshot pending it does not return the element-wise sum: [pause_measure]
    stores the pair (trace, info) that [get_data_trace] returns, and adding
    that pair to the fresh read raises, so every [get_data_trace] after a
    gated [pause_measure] fails. *)
Theorem get_data_trace_shapes :
  (forall s : state,
      gated s = false -> (0 <= reg (dll s) "range")%Z ->
      exists tr info s',
        get_data_trace s = Ret (tr, info) s'
        /\ shape tr = [reg (dll s) "range"]
        /\ length (items tr) = Z.to_nat (reg (dll s) "range"))
  /\ (forall s : state,
         gated s = true -> timetrace_tmp s = EmptyList ->
         (0 <= gate_count s)%Z -> (0 <= Z.quot (reg (dll s) "range") (gate_count s))%Z ->
         exists tr info s',
           get_data_trace s = Ret (tr, info) s'
           /\ shape tr = [gate_count s; Z.quot (reg (dll s) "range") (gate_count s)])
  /\ (forall (s : state) (t : ndarray) (i : info_dict),
         gated s = true -> timetrace_tmp s = TraceInfo t i ->
         exists e, get_data_trace s = Raise e s)
  /\ (forall (fuel : nat) (s : state),
         gated s = true -> timetrace_tmp s = EmptyList ->
         started_at (dll s) (polls (dll s)) = 0%Z ->
         (0 <= gate_count s)%Z -> (0 <= Z.quot (reg (dll s) "range") (gate_count s))%Z ->
         exists e s', (pause_measure (S fuel) >> get_data_trace) s = Raise e s').
Proof.
  split; [|split; [|split]].
  - intros s Hg Hr.
    assert (Hsh : trace_shape s = [reg (dll s) "range"])
      by (unfold trace_shape; rewrite Hg; reflexivity).
    exists (fresh_read s), (sweep_info s), (set_dll poll s).
    split; [|split].
    + apply get_data_trace_no_snapshot; [left; exact Hg|].
      rewrite Hsh. cbn. destruct (Z.leb_spec 0 (reg (dll s) "range")); [reflexivity | lia].
    + exact Hsh.
    + unfold fresh_read. cbn [items]. rewrite length_map, length_seq, Hsh.
      cbn [fold_right]. rewrite Z.mul_1_r. reflexivity.
  - intros s Hg Hsnap H1 H2.
    assert (Hsh : trace_shape s = [gate_count s; Z.quot (reg (dll s) "range") (gate_count s)])
      by (unfold trace_shape; rewrite Hg; reflexivity).
    exists (fresh_read s), (sweep_info s), (set_dll poll s).
    split; [|exact Hsh].
    apply get_data_trace_no_snapshot; [right; exact Hsnap|].
    rewrite Hsh. cbn [forallb].
    destruct (Z.leb_spec 0 (gate_count s)); [|lia].
    destruct (Z.leb_spec 0 (Z.quot (reg (dll s) "range") (gate_count s))); [reflexivity | lia].
  - intros s t i Hg Hsnap.
    destruct (get_data_trace_snapshot s t i Hg Hsnap) as (e & He & _).
    exists e. exact He.
  - intros fuel s Hg Hsnap Hhalt H1 H2.
    destruct (pause_measure_snapshot fuel s Hg Hsnap Hhalt) as (s' & t & i & Hp & Hg' & Ht & _).
    { unfold trace_shape. rewrite Hg. cbn [forallb].
      destruct (Z.leb_spec 0 (gate_count s)); [|lia].
      destruct (Z.leb_spec 0 (Z.quot (reg (dll s) "range") (gate_count s)));
        [reflexivity | lia]. }
    destruct (get_data_trace_snapshot s' t i Hg' Ht) as (e & He & _).
    exists e, s'. eapply bind_Ret; [exact Hp | exact He].
Qed.

Lemma get_data_trace_shapes_witness :
  (exists tr info s',
      get_data_trace gated_driver = Ret (tr, info) s' /\ shape tr = [2; 4]%Z)
  /\ (exists e s', (pause_measure 1 >> get_data_trace) gated_driver = Raise e s').
Proof.
  destruct get_data_trace_shapes as (_ & Hgated & _ & Hpause).
  split.
  - apply (Hgated gated_driver); try reflexivity; vm_compute; discriminate.
  - apply (Hpause 0%nat gated_driver); try reflexivity; vm_compute; discriminate.
Defined.

(** C8 evaluated: after a gated [pause_measure] the next
    [get_data_trace] raises instead of returning a trace. *)
Lemma get_data_trace_after_pause :
  exists s', (pause_measure 1 >> get_data_trace) gated_driver = Raise ValueError s'.
Proof. eexists. vm_compute. reflexivity. Qed.

End FastComtecProofs.

(** * Properties of the pentacene pulse generators *)

Module PentaceneProofs.

Import PentaceneMethods.

Local Open Scope Q_scope.

Section Generators.

Variable count_length : PulseBlockEnsemble -> list PulseBlock -> Q.
Variable self : generator.

Lemma lasers_of_finish (name : string) (block : PulseBlock) (repetitions : Z)
    (alt : bool) (var : list Q) (u l : string * string) (lasers : Z) :
  lasers_of (finish count_length self name block repetitions alt var u l lasers)
  = Some lasers.
Proof.
  unfold finish, _add_trigger.
  destruct (String.eqb (sync_channel self) ""); reflexivity.
Qed.

Lemma count_block_append (p : PulseBlockElement -> bool) (b : PulseBlock)
    (e : PulseBlockElement) :
  count_elements p (block_append b e)
  = (count_elements p b + (if p e then 1 else 0))%nat.
Proof.
  unfold count_elements, block_append. cbn [element_list].
  rewrite filter_app, length_app. f_equal.
  cbn. unfold filter. cbn. destruct (p e); reflexivity.
Qed.

Lemma count_fold_left {A : Type} (p : PulseBlockElement -> bool)
    (f : PulseBlock -> A -> PulseBlock) (k : nat) :
  (forall b x, count_elements p (f b x) = (count_elements p b + k)%nat) ->
  forall (l : list A) (b : PulseBlock),
    count_elements p (fold_left f l b) = (count_elements p b + k * length l)%nat.
Proof.
  intros Hf. induction l as [|x l IH]; intros b; cbn [fold_left length].
  - lia.
  - rewrite IH, Hf. lia.
Qed.

Lemma length_sweep (start step : Q) (n : Z) : length (sweep start step n) = Z.to_nat n.
Proof. unfold sweep, arange. rewrite !length_map, length_seq. reflexivity. Qed.

(** The pulsed-ODMR block holds one gated laser element per point, and two
    when alternating. *)
Lemma podmr_block_lasers (name : string) (a b c : Q) (n : Z) (alt : bool) :
  count_elements is_laser_gate
    <$> head (fst (fst (generate_podmr_pentacene count_length self name a b c n alt)))
  = Some ((if alt then 2 else 1) * Z.to_nat n)%nat.
Proof.
  unfold generate_podmr_pentacene, finish, _add_trigger.
  destruct (String.eqb (sync_channel self) "");
    cbn [fst head fmap option_fmap option_map app];
    f_equal;
    (rewrite (count_fold_left is_laser_gate _ (if alt then 2 else 1)%nat);
     [rewrite length_sweep; cbn; lia |
      intros blk x; destruct alt; rewrite !count_block_append; cbn; lia]).
Qed.

(** So does the fake-CW-ODMR block, with combined microwave and laser
    elements. *)
Lemma fakecwodmr_block_lasers (name : string) (a b c : Q) (n : Z) (alt : bool) :
  count_elements is_mw_laser
    <$> head (fst (fst (generate_fakecwodmr_pentacene count_length self name a b c n alt)))
  = Some ((if alt then 2 else 1) * Z.to_nat n)%nat.
Proof.
  unfold generate_fakecwodmr_pentacene, finish, _add_trigger.
  destruct (String.eqb (sync_channel self) "");
    cbn [fst head fmap option_fmap option_map app];
    f_equal;
    (rewrite (count_fold_left is_mw_laser _ (if alt then 2 else 1)%nat);
     [rewrite length_sweep; cbn; lia |
      intros blk x; destruct alt; rewrite !count_block_append; cbn; lia]).
Qed.

(** C6: the Rabi and T1 generators report [num_of_points] lasers, doubled
    when alternating.  The pulsed-ODMR and fake-CW-ODMR generators report
    [num_of_points] whatever the flag is: with the flag set they do not report
    the doubled count, although the block they build then holds two laser
    elements per point. *)
Theorem number_of_lasers_reported (name : string) (a b c : Q) (num_of_points : Z)
    (alt : bool) :
  let podmr := generate_podmr_pentacene count_length self name a b c num_of_points alt in
  let fakecw :=
    generate_fakecwodmr_pentacene count_length self name a b c num_of_points alt in
  lasers_of (generate_rabi_pentacene count_length self name a b num_of_points c alt)
  = Some (if alt then 2 * num_of_points else num_of_points)%Z
  /\ lasers_of (generate_t1_pentacene count_length self name a b num_of_points alt c)
     = Some (if alt then 2 * num_of_points else num_of_points)%Z
  /\ lasers_of podmr = Some num_of_points
  /\ lasers_of fakecw = Some num_of_points
  /\ count_elements is_laser_gate <$> head (fst (fst podmr))
     = Some ((if alt then 2 else 1) * Z.to_nat num_of_points)%nat
  /\ count_elements is_mw_laser <$> head (fst (fst fakecw))
     = Some ((if alt then 2 else 1) * Z.to_nat num_of_points)%nat.
Proof.
  intros podmr fakecw. subst podmr fakecw.
  split; [apply lasers_of_finish|].
  split; [apply lasers_of_finish|].
  split; [apply lasers_of_finish|].
  split; [apply lasers_of_finish|].
  split; [apply podmr_block_lasers | apply fakecwodmr_block_lasers].
Qed.

End Generators.

(** C6 on 20 points with the alternating flag set: the ensemble reports 20
    lasers, not 40, although the block holds 40 gated laser elements. *)
Lemma podmr_alternating_20 :
  let g := generate_podmr_pentacene (fun _ _ => 0) default_generator "podmr_pen"
             1430000000 2000000 (50 # 1000000) 20 true in
  lasers_of g = Some 20%Z
  /\ lasers_of g <> Some 40%Z
  /\ count_elements is_laser_gate <$> head (fst (fst g)) = Some 40%nat.
Proof.
  intros g. subst g. split; [|split].
  - apply lasers_of_finish.
  - unfold generate_podmr_pentacene. rewrite lasers_of_finish. discriminate.
  - vm_compute. reflexivity.
Qed.

Lemma existsb_eqb_In (x : string) (l : list string) :
  existsb (String.eqb x) l = true <-> In x l.
Proof.
  rewrite existsb_exists. split.
  - intros (y & Hy & He). apply String.eqb_eq in He. subst y. exact Hy.
  - intros H. exists x. split; [exact H | apply String.eqb_refl].
Qed.

Lemma getattr_self_missing (base_attributes : list string) (log : list string) :
  ~ In "self"%string base_attributes ->
  getattr_self base_attributes "self" log = Raise AttributeError log.
Proof.
  intros Hb. unfold getattr_self.
  destruct (existsb (String.eqb "self") (own_attributes ++ base_attributes)) eqn:E;
    [|reflexivity].
  exfalso. apply existsb_eqb_In, in_app_or in E. destruct E as [E | E].
  - cbn in E. repeat (destruct E as [E | E]; [discriminate E|]). exact E.
  - exact (Hb E).
Qed.

(** C5: with a base class that defines no attribute called [self], the
    chirp generator never returns a block: for any non-zero [t_mw_ramp] it
    logs the divisibility warning (exactly when [t_laser % t_mw_ramp] is not
    zero) and then raises an attribute error at
    [self.self._get_mw_element_linearchirp]. *)
Theorem pol_ise_attribute_error
    (count_length : PulseBlockEnsemble -> list PulseBlock -> Q)
    (base_attributes : list string) (self : generator) (name : string)
    (t_laser t_mw_ramp f_mw_sweep : Q) (jump_channel : string) (log : list string) :
  ~ In "self"%string base_attributes ->
  ~ t_mw_ramp == 0 ->
  generate_pol_ise_pentacene count_length base_attributes self name
    t_laser t_mw_ramp f_mw_sweep jump_channel log
  = Raise AttributeError
      (if negb (Qeq_bool (pymod t_laser t_mw_ramp) 0)
       then "Laser not dividable by t_mw."%string :: log else log).
Proof.
  intros Hb Hr. unfold generate_pol_ise_pentacene.
  assert (Hr' : Qeq_bool t_mw_ramp 0 = false).
  { destruct (Qeq_bool t_mw_ramp 0) eqn:E; [|reflexivity].
    exfalso. apply Hr, Qeq_bool_eq, E. }
  rewrite Hr'. unfold bind at 1. unfold ret at 1.
  destruct (negb (Qeq_bool (pymod t_laser t_mw_ramp) 0)).
  - unfold bind at 1. unfold warning, modify at 1.
    unfold bind at 1. rewrite getattr_self_missing by exact Hb. reflexivity.
  - unfold bind at 1. unfold ret at 1.
    unfold bind at 1. rewrite getattr_self_missing by exact Hb. reflexivity.
Qed.

Lemma pol_ise_attribute_error_witness :
  generate_pol_ise_pentacene (fun _ _ => 0) used_base_attributes default_generator
    "pol_pen" (1 # 1000000) (1 # 10000000) 10000000 "d_ch4" []
  = Raise AttributeError [].
Proof.
  apply (pol_ise_attribute_error (fun _ _ => 0) used_base_attributes default_generator
           "pol_pen" (1 # 1000000) (1 # 10000000) 10000000 "d_ch4" []).
  - cbn. intros H. repeat (destruct H as [H | H]; [discriminate H|]). exact H.
  - intros H. vm_compute in H. discriminate H.
Defined.

End PentaceneProofs.

(** * Properties of the data-acquisition board driver *)

Module NationalInstrumentsProofs.

Import NationalInstrumentsXSeries.

Local Open Scope Q_scope.

(** ** Clock frequencies *)


Local Opaque Qmult Qdiv Qplus Qminus Qinv.

(** Split on the condition of an innermost [if]. *)
Ltac case_if :=
  match goal with
  | |- context [if ?b then _ else _] =>
      lazymatch b with
      | context [if _ then _ else _] => fail
      | _ => destruct b eqn:?
      end
  end.






(** ** The slow counter *)

Lemma full_cells (rows cols : Z) (v : float) :
  Forall (Forall (eq v)) (cells (full rows cols v)).
Proof.
  unfold full. cbn [cells].
  apply Forall_forall. intros row Hrow.
  apply list_elem_of_In, repeat_spec in Hrow. subst row.
  apply Forall_forall. intros x Hx. apply list_elem_of_In, repeat_spec in Hx. congruence.
Qed.

Lemma get_counter_precondition (samples : option Z) (s : state) :
  no_counter_task s \/ no_analog_task s ->
  exists msg,
    get_counter samples s
    = minus_ones (channel_count s) samples (add_log Error msg s).
Proof.
  intros Hpre. unfold get_counter.
  destruct Hpre as [Hno | (Htasks & Hai & Hat)]; eapply ex_intro;
    (eapply bind_Ret; [reflexivity|]); (eapply bind_Ret; [reflexivity|]).
  - unfold no_counter_task in Hno. rewrite Hno. cbn [length Nat.ltb Nat.leb].
    eapply bind_Ret; reflexivity.
  - destruct (_counter_daq_tasks s) as [|t ts] eqn:Ht; [contradiction|].
    cbn [length Nat.ltb Nat.leb].
    eapply bind_Ret; [reflexivity|].
    eapply bind_Ret; [reflexivity|].
    rewrite Hat.
    destruct (_counter_ai_channels (cfg s)) as [|c cs] eqn:Hc; [contradiction|].
    cbn [length Nat.ltb Nat.leb andb].
    rewrite bool_decide_eq_true_2 by reflexivity.
    eapply bind_Ret; [reflexivity|].
    unfold channel_count. rewrite Hc. reflexivity.
Qed.

Lemma get_counter_read_failure (n : Z) (s : state) (t : TaskHandle)
    (ts : list TaskHandle) :
  _counter_daq_tasks s = t :: ts ->
  (_counter_ai_channels (cfg s) = [] \/ _counter_analog_daq_task s <> None) ->
  (0 <= n)%Z ->
  daq_raises (hw s) (DAQmxReadCounterU32 t (2 * n)) = true ->
  exists s',
    get_counter (Some n) s = Ret (full (Z.of_nat (channel_count s)) n (-1)%float) s'.
Proof.
  intros Ht Hai Hn Hfail. unfold get_counter.
  eexists.
  eapply bind_Ret; [reflexivity|].
  eapply bind_Ret; [reflexivity|].
  rewrite Ht. cbn [length Nat.ltb Nat.leb].
  eapply bind_Ret; [reflexivity|].
  eapply bind_Ret; [reflexivity|].
  replace ((0 <? length (_counter_ai_channels (cfg s)))%nat
           && bool_decide (_counter_analog_daq_task s = None)) with false.
  2:{ destruct Hai as [-> | Hat]; [reflexivity|].
      rewrite (bool_decide_eq_false_2 _ Hat). apply eq_sym, andb_false_r. }
  eapply bind_Ret; [reflexivity|].
  eapply bind_Ret.
  - unfold try_except.
    replace ((let* _ := if (2 * n <? 0)%Z then raise ValueError else ret () in _) s)
      with (Raise (A := (list (list Z) * list (list float)) + ndarray) DaqError
              (add_call (DAQmxReadCounterU32 t (2 * n)) s)).
    + unfold bind, logm, modify, minus_ones.
      destruct (Z.ltb_spec n 0); [lia|]. reflexivity.
    + destruct (Z.ltb_spec (2 * n) 0); [lia|].
      unfold bind at 1. unfold ret at 1. cbn [read_counters].
      unfold bind at 1. unfold bind at 1. unfold daq. rewrite Hfail. reflexivity.
  - cbn beta iota. unfold ret, channel_count. reflexivity.
Qed.

Lemma get_counter_unset_default (s : state) :
  counter_ready s -> get_counter None s = Raise AttributeError s.
Proof.
  intros (Htasks & Hai). unfold get_counter.
  eapply bind_Ret; [reflexivity|].
  eapply bind_Ret; [reflexivity|].
  destruct (_counter_daq_tasks s) as [|t ts] eqn:Ht; [contradiction|].
  cbn [length Nat.ltb Nat.leb].
  eapply bind_Ret; [reflexivity|].
  eapply bind_Ret; [reflexivity|].
  replace ((0 <? length (_counter_ai_channels (cfg s)))%nat
           && bool_decide (_counter_analog_daq_task s = None)) with false.
  2:{ destruct Hai as [-> | Hat]; [reflexivity|].
      rewrite (bool_decide_eq_false_2 _ Hat). apply eq_sym, andb_false_r. }
  apply bind_Raise. reflexivity.
Qed.

(** C2: a failing [get_counter] returns an array of -1 of shape
    [channels, samples] when [samples] is given: on a failed precondition and
    on a failed read.  With the default [samples=None] it never returns: on a
    failed precondition it raises a type error, because the default is only
    resolved after the two checks, and past the two checks it raises an
    attribute error, because the attribute the default is read from is never
    assigned. *)
Theorem get_counter_failures :
  (forall (s : state) (n : Z),
      no_counter_task s \/ no_analog_task s -> (0 <= n)%Z ->
      exists a s',
        get_counter (Some n) s = Ret a s'
        /\ shape a = (Z.of_nat (channel_count s), n)
        /\ Forall (Forall (eq (-1)%float)) (cells a))
  /\ (forall (s : state) (n : Z) (t : TaskHandle) (ts : list TaskHandle),
         _counter_daq_tasks s = t :: ts ->
         (_counter_ai_channels (cfg s) = [] \/ _counter_analog_daq_task s <> None) ->
         (0 <= n)%Z ->
         daq_raises (hw s) (DAQmxReadCounterU32 t (2 * n)) = true ->
         exists a s',
           get_counter (Some n) s = Ret a s'
           /\ shape a = (Z.of_nat (channel_count s), n)
           /\ Forall (Forall (eq (-1)%float)) (cells a))
  /\ (forall s : state,
         no_counter_task s \/ no_analog_task s ->
         exists s', get_counter None s = Raise TypeError s')
  /\ (forall s : state,
         counter_ready s -> get_counter None s = Raise AttributeError s).
Proof.
  split; [|split; [|split]].
  - intros s n Hpre Hn.
    destruct (get_counter_precondition (Some n) s Hpre) as (msg & Hg).
    exists (full (Z.of_nat (channel_count s)) n (-1)%float), (add_log Error msg s).
    split; [|split; [reflexivity | apply full_cells]].
    rewrite Hg. unfold minus_ones. destruct (Z.ltb_spec n 0); [lia|]. reflexivity.
  - intros s n t ts Ht Hai Hn Hfail.
    destruct (get_counter_read_failure n s t ts Ht Hai Hn Hfail) as (s' & Hg).
    exists (full (Z.of_nat (channel_count s)) n (-1)%float), s'.
    split; [exact Hg | split; [reflexivity | apply full_cells]].
  - intros s Hpre.
    destruct (get_counter_precondition None s Hpre) as (msg & Hg).
    exists (add_log Error msg s). rewrite Hg. reflexivity.
  - apply get_counter_unset_default.
Qed.

Lemma get_counter_failures_witness :
  (exists a s',
      get_counter (Some 5%Z) fresh_driver = Ret a s'
      /\ shape a = (1%Z, 5%Z) /\ Forall (Forall (eq (-1)%float)) (cells a))
  /\ (exists s', get_counter None fresh_driver = Raise TypeError s').
Proof.
  destruct get_counter_failures as (Hsome & _ & Hnone & _).
  split.
  - apply (Hsome fresh_driver 5%Z); [left; reflexivity | lia].
  - apply (Hnone fresh_driver). left. reflexivity.
Defined.

(** C2 evaluated on a driver without counter task, with [samples] left at
    its default: the call raises. *)
Lemma get_counter_default_samples_raises :
  get_counter None fresh_driver
  = Raise TypeError
      (add_log Error "No counter running, call set_up_counter before reading it."
         fresh_driver).
Proof. reflexivity. Qed.

(** ** The confocal scanner *)

Lemma set_axis_step (i : nat) (axis : string) (v : option Q) (s : state) :
  (i < length (_scanner_position_ranges (cfg s)))%nat ->
  (i < length (_current_position s))%nat ->
  exists s',
    set_axis i axis v s = Ret (if axis_bad s i v then Some (-1)%Z else None) s'
    /\ cfg s' = cfg s
    /\ length (_current_position s') = length (_current_position s)
    /\ (axis_bad s i v = true -> _current_position s' = _current_position s)
    /\ (axis_bad s i v = false ->
        _current_position s'
        = match v with
          | Some x => <[i := x]> (_current_position s)
          | None => _current_position s
          end).
Proof.
  intros Hr Hp. unfold set_axis, axis_bad.
  destruct v as [x|]; [|exists s; repeat split; reflexivity].
  destruct (lookup_lt_is_Some_2 _ _ Hr) as [r Hri].
  unfold bind at 1. unfold gets at 1. rewrite Hri. fold (in_range r x).
  destruct (in_range r x); cbn [negb].
  - exists (set_current_position (<[i := x]> (_current_position s)) s).
    split; [|repeat split; try discriminate; cbn; apply length_insert].
    eapply bind_Ret; [|reflexivity].
    unfold store_position. eapply bind_Ret; [reflexivity|].
    destruct (Nat.ltb_spec i (length (_current_position s))); [reflexivity | lia].
  - eexists. split; [eapply bind_Ret; reflexivity|].
    repeat split; discriminate.
Qed.

Lemma scanner_set_position_locked (x y z a : option Q) (s : state) :
  module_state s = "locked"%string ->
  scanner_set_position x y z a s
  = Ret (-1)%Z
      (add_log Error "Another scan_line is already running, close this one first." s).
Proof.
  intros Hl. unfold scanner_set_position.
  eapply bind_Ret; [reflexivity|]. rewrite Hl. reflexivity.
Qed.

Lemma scanner_set_position_rejects (x y z a : option Q) (s : state) :
  unlocked s ->
  length (_scanner_position_ranges (cfg s)) = 4%nat ->
  length (_current_position s) = 4%nat ->
  axis_bad s 0 x || axis_bad s 1 y || axis_bad s 2 z || axis_bad s 3 a = true ->
  exists s', scanner_set_position x y z a s = Ret (-1)%Z s'.
Proof.
  intros Hu Hr Hp Hbad.
  destruct (set_axis_step 0 "x" x s) as (s1 & H1 & Hc1 & Hl1 & _); [lia | lia |].
  destruct (set_axis_step 1 "y" y s1) as (s2 & H2 & Hc2 & Hl2 & _);
    [rewrite Hc1; lia | lia |].
  destruct (set_axis_step 2 "z" z s2) as (s3 & H3 & Hc3 & Hl3 & _);
    [rewrite Hc2, Hc1; lia | lia |].
  destruct (set_axis_step 3 "a" a s3) as (s4 & H4 & Hc4 & Hl4 & _);
    [rewrite Hc3, Hc2, Hc1; lia | lia |].
  assert (By : axis_bad s1 1 y = axis_bad s 1 y)
    by (unfold axis_bad; rewrite Hc1; reflexivity).
  assert (Bz : axis_bad s2 2 z = axis_bad s 2 z)
    by (unfold axis_bad; rewrite Hc2, Hc1; reflexivity).
  assert (Ba : axis_bad s3 3 a = axis_bad s 3 a)
    by (unfold axis_bad; rewrite Hc3, Hc2, Hc1; reflexivity).
  rewrite By in H2. rewrite Bz in H3. rewrite Ba in H4.
  unfold scanner_set_position.
  destruct (axis_bad s 0 x).
  { exists s1. eapply bind_Ret; [reflexivity|]. rewrite Hu.
    eapply bind_Ret; [exact H1|]. reflexivity. }
  destruct (axis_bad s 1 y).
  { exists s2. eapply bind_Ret; [reflexivity|]. rewrite Hu.
    eapply bind_Ret; [exact H1|]. eapply bind_Ret; [exact H2|]. reflexivity. }
  destruct (axis_bad s 2 z).
  { exists s3. eapply bind_Ret; [reflexivity|]. rewrite Hu.
    eapply bind_Ret; [exact H1|]. eapply bind_Ret; [exact H2|].
    eapply bind_Ret; [exact H3|]. reflexivity. }
  destruct (axis_bad s 3 a); [|discriminate Hbad].
  exists s4. eapply bind_Ret; [reflexivity|]. rewrite Hu.
  eapply bind_Ret; [exact H1|]. eapply bind_Ret; [exact H2|].
  eapply bind_Ret; [exact H3|]. eapply bind_Ret; [exact H4|]. reflexivity.
Qed.

Lemma scanner_set_position_partial (x y : Q) (z a : option Q) (s : state) :
  unlocked s ->
  (1 < length (_scanner_position_ranges (cfg s)))%nat ->
  (1 < length (_current_position s))%nat ->
  axis_bad s 0 (Some x) = false ->
  axis_bad s 1 (Some y) = true ->
  exists s',
    scanner_set_position (Some x) (Some y) z a s = Ret (-1)%Z s'
    /\ _current_position s' = <[0%nat := x]> (_current_position s).
Proof.
  intros Hu Hr Hp Bx By. unfold scanner_set_position.
  destruct (set_axis_step 0 "x" (Some x) s) as (s1 & H1 & Hc1 & Hl1 & _ & Hp1);
    [lia | lia |].
  destruct (set_axis_step 1 "y" (Some y) s1) as (s2 & H2 & Hc2 & Hl2 & Hp2 & _);
    [rewrite Hc1; lia | lia |].
  assert (By' : axis_bad s1 1 (Some y) = true)
    by (unfold axis_bad in *; rewrite Hc1; exact By).
  rewrite Bx in H1. rewrite By' in H2.
  exists s2. split.
  - eapply bind_Ret; [reflexivity|]. rewrite Hu.
    eapply bind_Ret; [exact H1|].
    eapply bind_Ret; [exact H2|]. reflexivity.
  - rewrite (Hp2 By'). apply Hp1, Bx.
Qed.

(** C1: [scanner_set_position] returns -1 whenever a line scan is in progress
    or a requested axis value is outside its range.  The tracked position is
    left as it was when the module is locked, but not in general: the axes are
    checked and stored one after the other, so when [x] is in range and [y] is
    not, the call returns -1 with [x] already stored in the position vector. *)
Theorem scanner_set_position_rejection :
  (forall (x y z a : option Q) (s : state),
      module_state s = "locked"%string ->
      exists s', scanner_set_position x y z a s = Ret (-1)%Z s'
                 /\ _current_position s' = _current_position s)
  /\ (forall (x y z a : option Q) (s : state),
         unlocked s ->
         length (_scanner_position_ranges (cfg s)) = 4%nat ->
         length (_current_position s) = 4%nat ->
         axis_bad s 0 x || axis_bad s 1 y || axis_bad s 2 z || axis_bad s 3 a = true ->
         exists s', scanner_set_position x y z a s = Ret (-1)%Z s')
  /\ (forall (x y : Q) (z a : option Q) (s : state),
         unlocked s ->
         (1 < length (_scanner_position_ranges (cfg s)))%nat ->
         (1 < length (_current_position s))%nat ->
         axis_bad s 0 (Some x) = false ->
         axis_bad s 1 (Some y) = true ->
         exists s',
           scanner_set_position (Some x) (Some y) z a s = Ret (-1)%Z s'
           /\ _current_position s' = <[0%nat := x]> (_current_position s)).
Proof.
  split; [|split].
  - intros x y z a s Hl. eexists.
    rewrite (scanner_set_position_locked x y z a s Hl). split; reflexivity.
  - apply scanner_set_position_rejects.
  - apply scanner_set_position_partial.
Qed.

Lemma scanner_set_position_rejection_witness :
  exists s',
    scanner_set_position (Some 50) (Some 200) None None fresh_driver = Ret (-1)%Z s'
    /\ _current_position s' = <[0%nat := 50]> (_current_position fresh_driver).
Proof.
  destruct scanner_set_position_rejection as (_ & _ & Hpartial).
  apply (Hpartial 50 200 None None fresh_driver); try reflexivity; cbn; lia.
Defined.

(** C1 evaluated: the position was (0, 0, 0, 0), the
    call asks for x = 50 (in range) and y = 200 (out of range); it returns -1
    and the tracked position is (50, 0, 0, 0). *)
Lemma scanner_set_position_partial_update :
  exists s',
    scanner_set_position (Some 50) (Some 200) None None fresh_driver = Ret (-1)%Z s'
    /\ _current_position fresh_driver = [0; 0; 0; 0]
    /\ _current_position s' = [50; 0; 0; 0]
    /\ calls s' = [].
Proof. eexists. repeat split. Qed.

End NationalInstrumentsProofs.

(** * Properties of the cavity-stabilisation console *)

Module CavityStabilisationProofs.

Import CavityStabilisationGui.

Local Open Scope Q_scope.

Section Console.

Variable calculate_resolution : Z -> Q * Q -> Q.

Lemma Qltb_irrefl (q : Q) : Qltb q q = false.
Proof.
  unfold Qltb. destruct (Qle_bool q q) eqn:E; [reflexivity|].
  exfalso. assert (H : Qle_bool q q = true) by (apply Qle_bool_iff, Qle_refl).
  congruence.
Qed.

Lemma Qltb_lt (a b : Q) : Qltb a b = true <-> a < b.
Proof.
  unfold Qltb. rewrite negb_true_iff. split.
  - intros H. apply Qnot_le_lt. intros Hle. apply Qle_bool_iff in Hle. congruence.
  - intros H. destruct (Qle_bool b a) eqn:E; [|reflexivity].
    apply Qle_bool_iff in E. exfalso. exact (Qlt_not_le _ _ H E).
Qed.

(** C9: when the computed maximum exceeds the entered resolution, the handler
    logs a warning and both the logic's resolution and the spin box hold the
    maximum afterwards; otherwise the entered value is stored and the spin box
    is not touched. *)
Theorem scan_resolution_changed_clamps (depth : nat) (s : state) :
  let m := maximal_resolution calculate_resolution s in
  let s' := scan_resolution_changed calculate_resolution depth s in
  (scan_resolution_spinBox s < m ->
   _scan_resolution s' = m /\ scan_resolution_spinBox s' = m
   /\ log s' = "Maximum scan resolution of scanning device exceeded! Set scan resolution to maximum value."%string
               :: log s)
  /\ (m <= scan_resolution_spinBox s ->
      _scan_resolution s' = scan_resolution_spinBox s
      /\ scan_resolution_spinBox s' = scan_resolution_spinBox s
      /\ log s' = log s).
Proof.
  intros m s'. subst s'. split.
  - intros Hlt. apply Qltb_lt in Hlt.
    destruct depth as [|depth]; cbn [scan_resolution_changed];
      fold (maximal_resolution calculate_resolution s); fold m; rewrite Hlt;
      unfold setValue; cbn [scan_resolution_spinBox set_scan_resolution warn].
    + destruct (Qeq_bool (scan_resolution_spinBox s) m) eqn:E.
      * exfalso. apply Qeq_bool_eq in E. apply Qltb_lt in Hlt.
        rewrite E in Hlt. exact (Qlt_irrefl _ Hlt).
      * repeat split.
    + destruct (Qeq_bool (scan_resolution_spinBox s) m) eqn:E.
      * exfalso. apply Qeq_bool_eq in E. apply Qltb_lt in Hlt.
        rewrite E in Hlt. exact (Qlt_irrefl _ Hlt).
      * destruct depth as [|depth]; cbn [scan_resolution_changed];
          cbn [_start_voltage _end_voltage scan_resolution_spinBox set_spinBox
                 set_scan_resolution warn];
          fold (maximal_resolution calculate_resolution s); fold m;
          rewrite Qltb_irrefl; repeat split.
  - intros Hle.
    assert (Hnlt : Qltb (scan_resolution_spinBox s) m = false).
    { destruct (Qltb (scan_resolution_spinBox s) m) eqn:E; [|reflexivity].
      apply Qltb_lt in E. exfalso. exact (Qlt_not_le _ _ E Hle). }
    destruct depth as [|depth]; cbn [scan_resolution_changed];
      fold (maximal_resolution calculate_resolution s); fold m; rewrite Hnlt;
      repeat split.
Qed.

End Console.

Lemma scan_resolution_changed_clamps_witness :
  (let m := maximal_resolution example_resolution example_console in
   let s' := scan_resolution_changed example_resolution 1 example_console in
   _scan_resolution s' = m /\ scan_resolution_spinBox s' = m
   /\ log s' = "Maximum scan resolution of scanning device exceeded! Set scan resolution to maximum value."%string
               :: log example_console)
  /\ (let s := set_spinBox 1 example_console in
      let s' := scan_resolution_changed example_resolution 1 s in
      _scan_resolution s' = 1 /\ scan_resolution_spinBox s' = 1 /\ log s' = log s).
Proof.
  split.
  - apply (proj1 (scan_resolution_changed_clamps example_resolution 1 example_console)).
    vm_compute. reflexivity.
  - apply (proj2 (scan_resolution_changed_clamps example_resolution 1
                    (set_spinBox 1 example_console))).
    vm_compute. discriminate.
Defined.

End CavityStabilisationProofs.

(** * Composing computations *)

Lemma bind_inv {St A B} (c : M St A) (k : A -> M St B) (s s' : St) (b : B) :
  bind c k s = Ret b s' -> exists a s1, c s = Ret a s1 /\ k a s1 = Ret b s'.
Proof.
  unfold bind. destruct (c s) as [a s1| |]; [eauto | discriminate | discriminate].
Qed.

Lemma try_except_Ret {St A} (body handler : M St A) (s s' : St) (a : A) :
  body s = Ret a s' -> try_except body handler s = Ret a s'.
Proof. intros H. unfold try_except. rewrite H. reflexivity. Qed.

Lemma try_except_Raise {St A} (body handler : M St A) (s s' : St) (e : exn)
    (r : outcome St A) :
  body s = Raise e s' -> handler s' = r -> try_except body handler s = r.
Proof. intros H Hh. unfold try_except. rewrite H. exact Hh. Qed.

Lemma lookup_map {A B} (f : A -> B) (l : list A) (i : nat) :
  map f l !! i = f <$> (l !! i).
Proof.
  revert i. induction l as [|a l IH]; intros [|i]; cbn; try reflexivity. apply IH.
Qed.

Section Keeps.

Context {St : Type} (R : St -> St -> Prop).
Hypothesis R_refl : forall s, R s s.
Hypothesis R_trans : forall s1 s2 s3, R s1 s2 -> R s2 s3 -> R s1 s3.

Lemma keeps_ret {A} (a : A) : keeps R (ret a).
Proof. intros s a' s' [= _ <-]. apply R_refl. Qed.

Lemma keeps_gets {A} (f : St -> A) : keeps R (gets f).
Proof. intros s a' s' [= _ <-]. apply R_refl. Qed.

Lemma keeps_modify (f : St -> St) : (forall s, R s (f s)) -> keeps R (modify f).
Proof. intros Hf s a' s' [= _ <-]. apply Hf. Qed.

Lemma keeps_bind {A B} (c : M St A) (k : A -> M St B) :
  keeps R c -> (forall a, keeps R (k a)) -> keeps R (bind c k).
Proof.
  intros Hc Hk s b s' H. apply bind_inv in H as (a & s1 & H1 & H2).
  eapply R_trans; [eapply Hc, H1 | eapply Hk, H2].
Qed.

Lemma keeps_while {L} (fuel : nat) (cond : L -> M St bool) (body : L -> M St L) :
  (forall l, keeps R (cond l)) -> (forall l, keeps R (body l)) ->
  forall l, keeps R (while fuel cond body l).
Proof.
  intros Hc Hb. induction fuel as [|fuel IH]; intros l; cbn [while].
  - intros s a s' [=].
  - apply keeps_bind; [apply Hc|]. intros [|].
    + apply keeps_bind; [apply Hb | apply IH].
    + apply keeps_ret.
Qed.

End Keeps.

(** * Further properties of the photon-counting card driver *)

Module FastComtecExtra.

Import FastComtec FastComtecMore FastComtecProofs.

(** ** [get_status] *)

Lemma status_code_values (started : Z) (soh : string) :
  status_code started soh = 2%Z \/ status_code started soh = 1%Z
  \/ status_code started soh = 3%Z \/ status_code started soh = (-1)%Z.
Proof.
  unfold status_code.
  destruct (started =? 1)%Z; [tauto|].
  destruct (started =? 0)%Z; [|tauto].
  destruct (String.eqb soh "stopped"); [tauto|].
  destruct (String.eqb soh "halt"); tauto.
Qed.

Lemma after_rounds_frame (k : nat) (s : state) :
  started_at (dll (after_rounds k s)) = started_at (dll s)
  /\ polls (dll (after_rounds k s)) = (polls (dll s) + k)%nat
  /\ regs (dll (after_rounds k s)) = regs (dll s)
  /\ stopped_or_halt (after_rounds k s) = stopped_or_halt s
  /\ gated (after_rounds k s) = gated s
  /\ timetrace_tmp (after_rounds k s) = timetrace_tmp s
  /\ nsleeps100 (after_rounds k s) = (nsleeps100 s + k)%nat
  /\ nsleeps (after_rounds k s) = nsleeps s.
Proof.
  revert s. induction k as [|k IH]; intros s; cbn [after_rounds].
  - repeat split; lia.
  - destruct (IH (set_dll poll (add_event (Sleep 100) s)))
      as (H1 & H2 & H3 & H4 & H5 & H6 & H7 & H8).
    rewrite H1, H2, H3, H4, H5, H6, H7, H8. cbn.
    repeat split; try lia.
    unfold nsleeps100. cbn. lia.
Qed.

(** The inner loop: [f j] is the flag of the [j]-th status seen, the current
    one included. *)
Lemma stopping_loop (k : nat) :
  forall (n : nat) (status : cstruct) (t : state) (f : nat -> Z),
    lookup_field "started" status = Some (CInt (f 0%nat)) ->
    (forall j, started_at (dll t) (polls (dll t) + j)%nat = f (S j)) ->
    (forall j, (j < k)%nat -> f j = 3%Z) ->
    f k <> 3%Z ->
    (k < n)%nat ->
    exists status',
      while n
        (fun status => let* started := getattr_int status "started" in
                       ret (started =? 3)%Z)
        (fun _ => sleep 100 >> GetStatusData) status t
      = Ret status' (after_rounds k t)
      /\ lookup_field "started" status' = Some (CInt (f k)).
Proof.
  induction k as [|k IH]; intros n status t f Hst Hf H3 Hk Hn;
    (destruct n as [|n]; [lia|]); cbn [while].
  - exists status. split; [|exact Hst].
    eapply bind_Ret.
    + eapply bind_Ret; [|reflexivity].
      unfold getattr_int, getattr. rewrite Hst. reflexivity.
    + destruct (Z.eqb_spec (f 0%nat) 3); [contradiction | reflexivity].
  - set (t1 := set_dll poll (add_event (Sleep 100) t)).
    destruct (IH n (status_struct (dll t)) t1 (fun j => f (S j))) as (status' & Hw & Hs').
    + cbn. rewrite <- (Hf 0%nat), Nat.add_0_r. reflexivity.
    + intros j. cbn. rewrite <- Hf. f_equal. lia.
    + intros j Hj. apply H3. lia.
    + exact Hk.
    + lia.
    + exists status'. split; [|exact Hs'].
      eapply bind_Ret.
      * eapply bind_Ret; [|reflexivity].
        unfold getattr_int, getattr. rewrite Hst. reflexivity.
      * rewrite (H3 0%nat) by lia. cbn [Z.eqb Pos.eqb].
        eapply bind_Ret; [reflexivity|]. exact Hw.
Qed.

Lemma prepend_status_events_frame (v : Z) (soh : string) (t : state) :
  let t' := prepend (status_events v soh) t in
  polls (dll t') = polls (dll t) /\ regs (dll t') = regs (dll t)
  /\ nsleeps100 t' = nsleeps100 t /\ gated t' = gated t
  /\ timetrace_tmp t' = timetrace_tmp t /\ stopped_or_halt t' = stopped_or_halt t
  /\ started_at (dll t') = started_at (dll t) /\ nsleeps t' = nsleeps t.
Proof.
  unfold status_events.
  destruct (status_code v soh =? -1)%Z; cbn; repeat split; reflexivity.
Qed.

Lemma get_status_run (k fuel : nat) (s : state) :
  (forall j, (j < k)%nat -> started_at (dll s) (polls (dll s) + j)%nat = 3%Z) ->
  started_at (dll s) (polls (dll s) + k)%nat <> 3%Z ->
  (k < fuel)%nat ->
  let v := started_at (dll s) (polls (dll s) + k)%nat in
  get_status fuel s
  = Ret (status_code v (stopped_or_halt s))
        (prepend (status_events v (stopped_or_halt s)) (after_rounds k (set_dll poll s))).
Proof.
  intros H3 Hv Hfuel v.
  set (s0 := set_dll poll s).
  destruct (stopping_loop k fuel (status_struct (dll s)) s0
              (fun j => started_at (dll s) (polls (dll s) + j)%nat))
    as (status' & Hw & Hs'); try assumption.
  - cbn. rewrite Nat.add_0_r. reflexivity.
  - intros j. cbn. f_equal. lia.
  - destruct (after_rounds_frame k s0) as (_ & _ & _ & F4 & _).
    unfold get_status.
    eapply bind_Ret; [reflexivity|]. fold s0.
    eapply bind_Ret; [exact Hw|].
    eapply bind_Ret; [unfold getattr_int, getattr; rewrite Hs'; reflexivity|].
    fold v. unfold status_events, status_code.
    destruct (v =? 1)%Z; [reflexivity|].
    destruct (v =? 0)%Z; [|reflexivity].
    eapply bind_Ret; [reflexivity|]. rewrite F4.
    change (stopped_or_halt s0) with (stopped_or_halt s).
    destruct (String.eqb (stopped_or_halt s) "stopped"); [reflexivity|].
    destruct (String.eqb (stopped_or_halt s) "halt"); reflexivity.
Qed.

(** X1: [get_status] waits while the card reports "about to stop" (flag 3),
    100 ms per report, and then maps the first other flag: 1 gives 2
    (running), 0 gives 1 or 3 by the driver's stopped-or-halted note, anything
    else -1.  It reads the status once per report, never touches the setting
    registers, and never returns 0 (unconfigured). *)
Theorem get_status_waits_and_maps (k fuel : nat) (s : state) :
  (forall j, (j < k)%nat -> started_at (dll s) (polls (dll s) + j)%nat = 3%Z) ->
  started_at (dll s) (polls (dll s) + k)%nat <> 3%Z ->
  (k < fuel)%nat ->
  let v := started_at (dll s) (polls (dll s) + k)%nat in
  exists s',
    get_status fuel s = Ret (status_code v (stopped_or_halt s)) s'
    /\ status_code v (stopped_or_halt s) <> 0%Z
    /\ (status_code v (stopped_or_halt s) = 2%Z <-> v = 1%Z)
    /\ (v = 0%Z -> stopped_or_halt s = "stopped"%string ->
        status_code v (stopped_or_halt s) = 1%Z)
    /\ (v = 0%Z -> stopped_or_halt s = "halt"%string ->
        status_code v (stopped_or_halt s) = 3%Z)
    /\ (v <> 0%Z -> v <> 1%Z -> status_code v (stopped_or_halt s) = (-1)%Z)
    /\ polls (dll s') = (polls (dll s) + k + 1)%nat
    /\ nsleeps100 s' = (nsleeps100 s + k)%nat
    /\ regs (dll s') = regs (dll s).
Proof.
  intros H3 Hv Hfuel v.
  set (s0 := set_dll poll s).
  destruct (after_rounds_frame k s0) as (F1 & F2 & F3 & F4 & F5 & F6 & F7 & F8).
  destruct (prepend_status_events_frame v (stopped_or_halt s) (after_rounds k s0))
    as (P1 & P2 & P3 & _).
  exists (prepend (status_events v (stopped_or_halt s)) (after_rounds k s0)).
  split; [apply get_status_run; assumption|].
  split; [|split; [|split; [|split; [|split; [|split; [|split]]]]]].
  - destruct (status_code_values v (stopped_or_halt s)) as [E | [E | [E | E]]];
      rewrite E; discriminate.
  - apply status_code_running.
  - intros -> ->. reflexivity.
  - intros -> ->. reflexivity.
  - intros N0 N1. unfold status_code.
    destruct (Z.eqb_spec v 1); [contradiction|].
    destruct (Z.eqb_spec v 0); [contradiction|]. reflexivity.
  - rewrite P1, F2. cbn. lia.
  - rewrite P3, F7. reflexivity.
  - rewrite P2, F3. reflexivity.
Qed.

(** A card that reports "about to stop" twice and then "stopped". *)
Lemma get_status_waits_and_maps_witness :
  exists s',
    get_status 3
      (driver_on {| regs := ∅; started_at := fun n => if (n <? 2)%nat then 3%Z else 0%Z;
                    sweeps_at := fun _ => 0%float; polls := 0;
                    hist := fun _ => 0%Z; dll_status := 0%Z |}) = Ret 1%Z s'
    /\ polls (dll s') = 3%nat /\ nsleeps100 s' = 2%nat.
Proof.
  destruct (get_status_waits_and_maps 2 3
              (driver_on {| regs := ∅;
                            started_at := fun n => if (n <? 2)%nat then 3%Z else 0%Z;
                            sweeps_at := fun _ => 0%float; polls := 0;
                            hist := fun _ => 0%Z; dll_status := 0%Z |}))
    as (s' & Hr & _ & _ & _ & _ & _ & Hp & Hn & _).
  - intros j Hj. cbn. destruct j as [|[|j]]; [reflexivity | reflexivity | lia].
  - cbn. discriminate.
  - lia.
  - exists s'. split; [exact Hr|]. split; [exact Hp | exact Hn].
Defined.

(** ** Lengths and cycles *)

Lemma get_length_eq (s : state) : get_length s = Ret (reported_length s) s.
Proof.
  unfold get_length, reported_length, gate_count, is_gated.
  eapply bind_Ret; [reflexivity|].
  destruct (gated s).
  - eapply bind_Ret.
    + eapply bind_Ret; [apply get_cycles_eq | reflexivity].
    + reflexivity.
  - reflexivity.
Qed.

Lemma after_set_length_frame (r : Z) (s : state) :
  gated (after_set_length r s) = gated s
  /\ reg (dll (after_set_length r s)) "cycles" = reg (dll s) "cycles"
  /\ reg (dll (after_set_length r s)) "range" = r.
Proof.
  split; [reflexivity|]. split; [|apply reg_after_set_length].
  unfold after_set_length, reg. cbn.
  rewrite !lookup_insert_ne by discriminate. reflexivity.
Qed.

(** X2: a length of fewer than 2^32 bins that [set_length] accepts, on a
    card whose cycle count is one its 32-bit field holds, is read back by
    [get_length] as the stored multiple of 64 divided by the gate count:
    unchanged on an ungated card or with one gate, but not with several gates,
    although [set_length] stored the length undivided. *)
Theorem set_length_then_get_length (s : state) (length_bins : Z) :
  fits_c_ulong length_bins ->
  fits_c_long (reg (dll s) "cycles") ->
  (length_bins * cycle_multiplier s < 27200000000)%Z ->
  exists s',
    set_length length_bins s = Ret (round64 length_bins) s'
    /\ get_length s'
       = Ret (Z.quot (round64 length_bins) (if gated s then gate_count s else 1%Z)) s'
    /\ (gated s = false \/ gate_count s = 1%Z ->
        get_length s' = Ret (round64 length_bins) s')
    /\ (gated s = true -> (1 < gate_count s)%Z -> (0 < round64 length_bins)%Z ->
        exists l, get_length s' = Ret l s' /\ (l < round64 length_bins)%Z).
Proof.
  intros _ _ Hok.
  exists (after_set_length (round64 length_bins) s).
  destruct (after_set_length_frame (round64 length_bins) s) as (Hg & Hc & Hr).
  assert (Hl : get_length (after_set_length (round64 length_bins) s)
               = Ret (Z.quot (round64 length_bins)
                        (if gated s then gate_count s else 1%Z))
                     (after_set_length (round64 length_bins) s)).
  { rewrite get_length_eq. unfold reported_length, gate_count.
    rewrite Hg, Hc, Hr. reflexivity. }
  split; [apply set_length_accepts, Hok|].
  split; [exact Hl|]. split.
  - intros [Hu | H1]; rewrite Hl.
    + rewrite Hu, Z.quot_1_r. reflexivity.
    + rewrite H1. destruct (gated s); rewrite Z.quot_1_r; reflexivity.
  - intros Hgt Hc1 Hpos. eexists. split; [exact Hl|]. rewrite Hgt.
    apply Z.quot_lt; lia.
Qed.

Lemma set_length_then_get_length_witness :
  exists s', set_length 130 documented_driver = Ret 128%Z s'
             /\ get_length s' = Ret 128%Z s'.
Proof.
  destruct (set_length_then_get_length documented_driver 130) as (s' & Hs & _ & Hl & _).
  - unfold fits_c_ulong. lia.
  - vm_compute. split; [discriminate | reflexivity].
  - vm_compute. reflexivity.
  - exists s'. split; [exact Hs|]. apply Hl. left. reflexivity.
Defined.

(** X3: on a card whose range and cycle count are values their 32-bit fields
    hold, [set_cycles] turns 0 into 1; a count that the signed 32-bit field
    holds and whose product with the reported length stays below [max_bins] is
    stored, returned and read back by [get_cycles], and on a gated card it
    changes the length [get_length] reports; a count whose product reaches
    [max_bins] is refused with -1 and no register changes. *)
Theorem set_cycles_checks_and_stores (s : state) (cycles : Z) :
  fits_c_ulong (reg (dll s) "range") ->
  fits_c_long (reg (dll s) "cycles") ->
  ((reported_length s * requested_cycles cycles < 27200000000)%Z ->
   fits_c_long (requested_cycles cycles) ->
   exists s',
     set_cycles cycles s = Ret (requested_cycles cycles) s'
     /\ requested_cycles cycles <> 0%Z
     /\ get_cycles s' = Ret (requested_cycles cycles) s'
     /\ reg (dll s') "range" = reg (dll s) "range"
     /\ get_length s'
        = Ret (Z.quot (reg (dll s) "range")
                 (if gated s then requested_cycles cycles else 1%Z)) s')
  /\ ((27200000000 <= reported_length s * requested_cycles cycles)%Z ->
      exists s',
        set_cycles cycles s = Ret (-1)%Z s'
        /\ regs (dll s') = regs (dll s)
        /\ trace s' = Log Error "Dimensions are too large for fast counter!" :: trace s).
Proof.
  intros _ _.
  assert (Hne : requested_cycles cycles <> 0%Z).
  { unfold requested_cycles. destruct (Z.eqb_spec cycles 0); [discriminate | assumption]. }
  split; [intros H _ | intros H].
  - set (c := requested_cycles cycles) in *.
    set (s' := add_event (Sleep 500)
                 (add_event (RunCmdEv (Cmd_cycles c)) (set_dll (dev_run (Cmd_cycles c)) s))).
    assert (Hc : reg (dll s') "cycles" = c).
    { unfold s', reg. cbn. rewrite lookup_insert_eq. reflexivity. }
    assert (Hr : reg (dll s') "range" = reg (dll s) "range").
    { unfold s', reg. cbn. rewrite lookup_insert_ne by discriminate. reflexivity. }
    exists s'. split; [|split; [exact Hne|split; [|split; [exact Hr|]]]].
    + unfold set_cycles. fold (requested_cycles cycles). fold c.
      eapply bind_Ret; [apply get_length_eq|].
      rewrite Z_lt_max_bins. destruct (Z.ltb_spec (reported_length s * c) 27200000000);
        [reflexivity | lia].
    + rewrite get_cycles_eq, Hc. reflexivity.
    + rewrite get_length_eq. unfold reported_length, gate_count. rewrite Hr, Hc.
      change (gated s') with (gated s).
      destruct (Z.eqb_spec c 0); [contradiction | reflexivity].
  - exists (add_event (Log Error "Dimensions are too large for fast counter!") s).
    split; [|split; reflexivity].
    unfold set_cycles. fold (requested_cycles cycles).
    eapply bind_Ret; [apply get_length_eq|].
    rewrite Z_lt_max_bins.
    destruct (Z.ltb_spec (reported_length s * requested_cycles cycles) 27200000000);
      [lia|].
    eapply bind_Ret; [apply get_length_eq|]. reflexivity.
Qed.

Lemma set_cycles_checks_and_stores_witness :
  (exists s', set_cycles 0 gated_driver = Ret 1%Z s'
              /\ get_length s' = Ret 8%Z s')
  /\ (exists s', set_cycles 10000000000 gated_driver = Ret (-1)%Z s'
                 /\ regs (dll s') = regs (dll gated_driver)).
Proof.
  assert (Hrange : fits_c_ulong (reg (dll gated_driver) "range"))
    by (vm_compute; split; [discriminate | reflexivity]).
  assert (Hcycles : fits_c_long (reg (dll gated_driver) "cycles"))
    by (vm_compute; split; [discriminate | reflexivity]).
  split.
  - destruct (set_cycles_checks_and_stores gated_driver 0 Hrange Hcycles) as (Hok & _).
    destruct Hok as (s' & Hs & _ & _ & _ & Hl);
      [vm_compute; reflexivity | vm_compute; split; [discriminate | reflexivity]|].
    exists s'. split; [exact Hs | exact Hl].
  - destruct (set_cycles_checks_and_stores gated_driver 10000000000 Hrange Hcycles)
      as (_ & Hno).
    destruct Hno as (s' & Hs & Hr & _); [vm_compute; discriminate|].
    exists s'. split; [exact Hs | exact Hr].
Defined.

(** ** Stopping after a pause *)

Lemma same_card_refl (s : state) : same_card s s.
Proof. repeat split. Qed.

Lemma same_card_trans (s1 s2 s3 : state) :
  same_card s1 s2 -> same_card s2 s3 -> same_card s1 s3.
Proof.
  intros (A1 & A2 & A3 & A4 & A5 & A6) (B1 & B2 & B3 & B4 & B5 & B6).
  repeat split; congruence.
Qed.

Lemma pyint_keeps (v : cval) : keeps same_card (@pyint state v).
Proof.
  intros s a s' H. destruct v as [z|f]; cbn in H.
  - injection H as _ <-. apply same_card_refl.
  - unfold PyFloat.int in H. destruct (Prim2SF f); cbn in H;
      try discriminate; injection H as _ <-; apply same_card_refl.
Qed.

Lemma getattr_int_keeps (o : cstruct) (name : string) :
  keeps same_card (@getattr_int state o name).
Proof.
  unfold getattr_int.
  apply keeps_bind; [apply same_card_trans| |intros v; apply pyint_keeps].
  intros s a s' H. unfold getattr in H.
  destruct (lookup_field name o); cbn in H; [|discriminate].
  injection H as _ <-. apply same_card_refl.
Qed.

Lemma GetStatusData_keeps : keeps same_card GetStatusData.
Proof. intros s a s' [= _ <-]. repeat split. Qed.

Lemma log_keeps (l : level) (msg : string) : keeps same_card (log l msg).
Proof. apply keeps_modify. intros s. repeat split. Qed.

Lemma sleep_keeps (ms : Z) : keeps same_card (sleep ms).
Proof. apply keeps_modify. intros s. repeat split. Qed.

Lemma get_status_keeps (fuel : nat) : keeps same_card (get_status fuel).
Proof.
  unfold get_status.
  apply keeps_bind; [apply same_card_trans | apply GetStatusData_keeps|].
  intros status.
  apply keeps_bind; [apply same_card_trans| |].
  - apply keeps_while; [apply same_card_refl | apply same_card_trans | |].
    + intros st. apply keeps_bind; [apply same_card_trans | apply getattr_int_keeps|].
      intros z. apply keeps_ret, same_card_refl.
    + intros _. apply keeps_bind; [apply same_card_trans | apply sleep_keeps|].
      intros _. apply GetStatusData_keeps.
  - intros status'.
    apply keeps_bind; [apply same_card_trans | apply getattr_int_keeps|].
    intros started.
    assert (Herr : keeps same_card
                     (log Error "There is an unknown status from FastComtec."
                      >> ret (-1)%Z)).
    { apply keeps_bind; [apply same_card_trans | apply log_keeps|].
      intros _. apply keeps_ret, same_card_refl. }
    destruct (started =? 1)%Z; [apply keeps_ret, same_card_refl|].
    destruct (started =? 0)%Z; [|exact Herr].
    apply keeps_bind; [apply same_card_trans | apply keeps_gets, same_card_refl|].
    intros soh.
    destruct (String.eqb soh "stopped"); [apply keeps_ret, same_card_refl|].
    destruct (String.eqb soh "halt"); [apply keeps_ret, same_card_refl | exact Herr].
Qed.

Lemma capped_loop_keeps (fuel n : nat) (target i : Z) :
  keeps same_card
    (while n
       (fun i_wait => let* st := get_status fuel in
                      ret (negb (st =? target)%Z && (i_wait <? n_wait_max)%Z))
       (fun i_wait => sleep 50 >> ret (i_wait + 1)%Z) i).
Proof.
  apply keeps_while; [apply same_card_refl | apply same_card_trans | |].
  - intros l. apply keeps_bind; [apply same_card_trans | apply get_status_keeps|].
    intros st. apply keeps_ret, same_card_refl.
  - intros l. apply keeps_bind; [apply same_card_trans | apply sleep_keeps|].
    intros _. apply keeps_ret, same_card_refl.
Qed.

Lemma trace_shape_same (s s' : state) :
  gated s' = gated s -> regs (dll s') = regs (dll s) -> trace_shape s' = trace_shape s.
Proof.
  intros Hg Hr. unfold trace_shape, gate_count, reg. rewrite Hg, Hr. reflexivity.
Qed.

(** X4: [stop_measure] notes "stopped", leaves the registers alone and, on a
    gated card, drops the snapshot a pause has kept, so that the next
    [get_data_trace] returns the plain histogram again; on an ungated card the
    kept value stays. *)
Theorem stop_measure_clears_snapshot (fuel : nat) (s : state) :
  (21 <= fuel)%nat ->
  never_stopping s ->
  exists s',
    stop_measure fuel s = Ret (dll_status (dll s)) s'
    /\ stopped_or_halt s' = "stopped"%string
    /\ regs (dll s') = regs (dll s)
    /\ timetrace_tmp s' = (if gated s then EmptyList else timetrace_tmp s)
    /\ (forallb (fun d => (0 <=? d)%Z) (trace_shape s) = true ->
        exists info s'',
          get_data_trace s' = Ret (fresh_read s, info) s''
          /\ timetrace_tmp s'' = timetrace_tmp s').
Proof.
  intros Hfuel Hns.
  destruct (stop_measure_bounded fuel s Hfuel Hns) as (s' & Hr & _).
  exists s'. split; [exact Hr|].
  unfold stop_measure in Hr.
  apply bind_inv in Hr as ([] & s1 & H1 & Hr). injection H1 as <-.
  apply bind_inv in Hr as (st & s2 & H2 & Hr). injection H2 as <- <-.
  apply bind_inv in Hr as (i & s3 & H3 & Hr).
  apply capped_loop_keeps in H3 as (K1 & K2 & K3 & K4 & K5 & K6).
  apply bind_inv in Hr as ([] & s4 & H4 & Hr).
  assert (E4 : same_card s3 s4).
  { destruct (n_wait_max <=? i)%Z.
    - eapply log_keeps, H4.
    - injection H4 as <-. apply same_card_refl. }
  destruct E4 as (L1 & L2 & L3 & L4 & L5 & L6).
  apply bind_inv in Hr as (g & s5 & H5 & Hr). injection H5 as <- <-.
  apply bind_inv in Hr as ([] & s6 & H6 & Hr).
  assert (E6 : s6 = s') by (unfold ret in Hr; congruence). subst s6. clear Hr.
  cbn in K1, K2, K3, K4, K5, K6.
  assert (Hg : gated s4 = gated s) by congruence.
  assert (Hs' : s' = if gated s4 then set_timetrace_tmp EmptyList s4 else s4).
  { destruct (gated s4); injection H6 as <-; reflexivity. }
  clear H6 H4.
  assert (Hregs : regs (dll s') = regs (dll s)).
  { rewrite Hs'. destruct (gated s4); cbn; congruence. }
  assert (Hg' : gated s' = gated s).
  { rewrite Hs'. destruct (gated s4) eqn:E; cbn; congruence. }
  assert (Hh : hist (dll s') = hist (dll s)).
  { rewrite Hs'. destruct (gated s4); cbn; congruence. }
  assert (Htmp : timetrace_tmp s' = (if gated s then EmptyList else timetrace_tmp s)).
  { rewrite Hs', <- Hg. destruct (gated s4); cbn; congruence. }
  split; [|split; [exact Hregs|split; [exact Htmp|]]].
  - rewrite Hs'. destruct (gated s4); cbn; congruence.
  - intros Hsh. exists (sweep_info s'), (set_dll poll s').
    split; [|reflexivity].
    rewrite get_data_trace_no_snapshot.
    + unfold fresh_read. rewrite (trace_shape_same s s' Hg' Hregs), Hh. reflexivity.
    + rewrite Htmp, Hg'. destruct (gated s); [right | left]; reflexivity.
    + rewrite (trace_shape_same s s' Hg' Hregs). exact Hsh.
Qed.

Lemma stop_measure_clears_snapshot_witness :
  exists s' info s'',
    stop_measure 21 paused_driver = Ret 0%Z s'
    /\ timetrace_tmp s' = EmptyList
    /\ get_data_trace s' = Ret (fresh_read paused_driver, info) s''.
Proof.
  destruct (stop_measure_clears_snapshot 21 paused_driver)
    as (s' & Hr & _ & _ & Ht & Hd).
  - lia.
  - intros n. cbn. discriminate.
  - destruct Hd as (info & s'' & Hd & _); [reflexivity|].
    exists s', info, s''. split; [exact Hr|]. split; [exact Ht | exact Hd].
Defined.

(** ** Bin widths *)

Lemma set_binwidth_steps (s : state) (w mb q : float) (b : Z) :
  minimal_binwidth s = mb ->
  PrimFloat.eqb mb 0%float = false ->
  (w / mb)%float = q ->
  @PyFloat.int_log2 state q s = Ret b s ->
  (b < 1024)%Z ->
  (mb * PyFloat.pow2 b)%float = w ->
  set_binwidth w s = Ret w (after_set_bitshift b s).
Proof.
  intros Hm H0 Hq Hl Hb Hw. unfold set_binwidth.
  eapply bind_Ret; [reflexivity|]. rewrite Hm.
  eapply bind_Ret; [unfold PyFloat.truediv; rewrite H0, Hq; reflexivity|].
  eapply bind_Ret; [exact Hl|].
  eapply bind_Ret; [apply set_bitshift_eq|].
  assert (Hr : reg (dll (after_set_bitshift b s)) "bitshift" = b).
  { unfold after_set_bitshift, reg. cbn. rewrite lookup_insert_eq. reflexivity. }
  rewrite get_binwidth_eq by (rewrite Hr; exact Hb).
  rewrite Hr. change (minimal_binwidth (after_set_bitshift b s)) with (minimal_binwidth s).
  rewrite Hm, Hw. reflexivity.
Qed.

(** X5: with the default minimal bin width of 0.25 ns, every entry of the
    [hardware_binwidth_list] of [get_constraints] is a fixed point of
    [set_binwidth]: the call stores a bit shift between 0 and 24 and returns
    the very same width. *)
Theorem set_binwidth_list_round_trip (s : state) (w : float) :
  minimal_binwidth s = 0.25e-9%float ->
  In w (hardware_binwidth_list (minimal_binwidth s)) ->
  exists (b : Z) (s' : state),
    set_binwidth w s = Ret w s'
    /\ (0 <= b <= 24)%Z
    /\ reg (dll s') "bitshift" = b
    /\ get_binwidth s' = Ret w s'
    /\ nth_error (hardware_binwidth_list (minimal_binwidth s)) (Z.to_nat b) = Some w.
Proof.
  intros Hm Hin. rewrite Hm in *.
  unfold hardware_binwidth_list in Hin. cbn [seq map] in Hin.
  assert (Hreg : forall b, reg (dll (after_set_bitshift b s)) "bitshift" = b).
  { intros b. unfold after_set_bitshift, reg. cbn. rewrite lookup_insert_eq. reflexivity. }
  assert (Hstep : forall b : Z,
             (0 <= b <= 24)%Z ->
             w = (0.25e-9 * PyFloat.pow2 b)%float ->
             @PyFloat.int_log2 state (w / 0.25e-9)%float s = Ret b s ->
             nth_error (hardware_binwidth_list 0.25e-9) (Z.to_nat b) = Some w ->
             exists (b : Z) (s' : state),
               set_binwidth w s = Ret w s'
               /\ (0 <= b <= 24)%Z
               /\ reg (dll s') "bitshift" = b
               /\ get_binwidth s' = Ret w s'
               /\ nth_error (hardware_binwidth_list 0.25e-9) (Z.to_nat b) = Some w).
  { intros b Hb Hw Hl Hn.
    exists b, (after_set_bitshift b s).
    split; [|split; [exact Hb|split; [apply Hreg|split; [|exact Hn]]]].
    - apply (set_binwidth_steps s w 0.25e-9 (w / 0.25e-9) b); auto; try lia.
    - rewrite get_binwidth_eq by (rewrite Hreg; lia).
      rewrite Hreg. change (minimal_binwidth (after_set_bitshift b s)) with (minimal_binwidth s).
      rewrite Hm, <- Hw. reflexivity. }
  repeat (destruct Hin as [<- | Hin];
          [match goal with
           | |- context [PyFloat.pow2 (Z.of_nat ?k)] =>
               apply (Hstep (Z.of_nat k));
               [lia | reflexivity
               | unfold PyFloat.int_log2; vm_compute; reflexivity
               | vm_compute; reflexivity]
           end|]).
  destruct Hin.
Qed.

Lemma set_binwidth_list_round_trip_witness :
  exists (b : Z) (s' : state),
    set_binwidth (0.25e-9 * PyFloat.pow2 24)%float documented_driver
    = Ret (0.25e-9 * PyFloat.pow2 24)%float s'
    /\ (0 <= b <= 24)%Z /\ reg (dll s') "bitshift" = b.
Proof.
  destruct (set_binwidth_list_round_trip documented_driver (0.25e-9 * PyFloat.pow2 24)%float)
    as (b & s' & Hs & Hb & Hr & _).
  - reflexivity.
  - vm_compute. do 24 right. left. reflexivity.
  - exists b, s'. split; [exact Hs|]. split; [exact Hb | exact Hr].
Defined.

(** ** Discriminator levels *)

Lemma c_long_low_bits (z : Z) (n : Z) :
  (0 <= n <= 32)%Z -> (c_long_value z mod 2 ^ n = z mod 2 ^ n)%Z.
Proof.
  intros Hn. unfold c_long_value.
  assert (H32 : (2 ^ 32 = 2 ^ n * 2 ^ (32 - n))%Z).
  { rewrite <- Z.pow_add_r by lia. f_equal. lia. }
  pose proof (Z.div_mod (z + 2 ^ 31) (2 ^ 32) ltac:(lia)) as Hdm.
  set (q := ((z + 2 ^ 31) / 2 ^ 32)%Z) in *.
  set (r := ((z + 2 ^ 31) mod 2 ^ 32)%Z) in *.
  assert (Hk : ((- q * 2 ^ (32 - n)) * 2 ^ n = - (2 ^ 32 * q))%Z).
  { rewrite H32. ring. }
  replace (r - 2 ^ 31)%Z with (z + (- q * 2 ^ (32 - n)) * 2 ^ n)%Z by lia.
  apply Z_mod_plus_full.
Qed.

Lemma c_long_range (z : Z) : (- 2 ^ 31 <= c_long_value z < 2 ^ 31)%Z.
Proof.
  unfold c_long_value.
  pose proof (Z.mod_pos_bound (z + 2 ^ 31) (2 ^ 32) ltac:(lia)). lia.
Qed.

Lemma pack_low (d w : Z) :
  (0 <= w < 65536)%Z ->
  Z.land (c_long_value (Z.lor (Z.land d 4294901760) w)) 65535 = w.
Proof.
  intros Hw.
  change 65535%Z with (Z.ones 16).
  rewrite Z.land_ones by lia.
  rewrite c_long_low_bits by lia.
  rewrite <- Z.land_ones by lia.
  rewrite Z.land_lor_distr_l, <- Z.land_assoc.
  change (Z.land 4294901760 (Z.ones 16)) with 0%Z.
  rewrite Z.land_0_r, Z.lor_0_l, Z.land_ones by lia.
  apply Z.mod_small. lia.
Qed.

Lemma pack_high (d w : Z) :
  (0 <= w < 65536)%Z ->
  Z.land (c_long_value (Z.lor (Z.land d 4294901760) w)) 4294901760
  = Z.land d 4294901760.
Proof.
  intros Hw.
  apply Z.bits_inj'. intros i Hi.
  rewrite !Z.land_spec.
  destruct (Z.ltb_spec i 32) as [Hlt | Hge].
  - assert (Hbit : Z.testbit (c_long_value (Z.lor (Z.land d 4294901760) w)) i
                   = Z.testbit (Z.lor (Z.land d 4294901760) w) i).
    { rewrite <- (Z.mod_pow2_bits_low _ 32 i) by lia.
      rewrite c_long_low_bits by lia.
      apply Z.mod_pow2_bits_low. lia. }
    rewrite Hbit, Z.lor_spec, Z.land_spec.
    destruct (Z.ltb_spec i 16) as [Hlo | Hhi].
    + replace (Z.testbit 4294901760 i) with false; [rewrite !andb_false_r; reflexivity|].
      symmetry. change 4294901760%Z with (Z.shiftl 65535 16).
      apply Z.shiftl_spec_low. exact Hlo.
    + replace (Z.testbit w i) with false; [rewrite orb_false_r; destruct (Z.testbit d i), (Z.testbit 4294901760 i); reflexivity|].
      symmetry. destruct (Z.eq_dec w 0%Z) as [-> | Hne]; [apply Z.bits_0|].
      apply Z.bits_above_log2; [lia|].
      apply Z.log2_lt_pow2; [lia|].
      apply Z.lt_le_trans with (2 ^ 16)%Z; [lia|].
      apply Z.pow_le_mono_r; lia.
  - replace (Z.testbit 4294901760 i) with false; [rewrite !andb_false_r; reflexivity|].
    symmetry. apply Z.bits_above_log2; [lia|]. cbn. lia.
Qed.

Lemma read_dac (d : device) (s : state) :
  getattr_int (settings_struct d) "dac0" s = Ret (reg d "dac0") s
  /\ getattr_int (settings_struct d) "dac1" s = Ret (reg d "dac1") s.
Proof. split; reflexivity. Qed.

Lemma WordToFloat_low (z w : Z) : Z.land z 65535 = w -> WordToFloat z = WordToFloat w.
Proof.
  intros H. unfold WordToFloat. rewrite H.
  replace (Z.land w 65535) with w; [reflexivity|].
  rewrite <- H, <- Z.land_assoc. reflexivity.
Qed.

(** X6: for words that fit into 16 bits, [SetLevel] writes each word into
    the low half of its converter field, keeps the upper half of the field
    (within the 32 bits of a [c_long]), and returns, as [GetLevel] then does,
    the voltages the two words stand for. *)
Theorem SetLevel_packs_low_half (start stop : float) (w0 w1 : Z) (s : state) :
  FloatToWord start s = Ret w0 s ->
  FloatToWord stop s = Ret w1 s ->
  (0 <= w0 < 65536)%Z -> (0 <= w1 < 65536)%Z ->
  exists s',
    SetLevel start stop s = Ret (WordToFloat w0, WordToFloat w1) s'
    /\ GetLevel s' = Ret (WordToFloat w0, WordToFloat w1) s'
    /\ Z.land (reg (dll s') "dac0") 65535 = w0
    /\ Z.land (reg (dll s') "dac1") 65535 = w1
    /\ Z.land (reg (dll s') "dac0") 4294901760
       = Z.land (reg (dll s) "dac0") 4294901760
    /\ Z.land (reg (dll s') "dac1") 4294901760
       = Z.land (reg (dll s) "dac1") 4294901760
    /\ (- 2 ^ 31 <= reg (dll s') "dac0" < 2 ^ 31)%Z
    /\ (forall name, name <> "dac0"%string -> name <> "dac1"%string ->
                     reg (dll s') name = reg (dll s) name).
Proof.
  intros H0 H1 Hw0 Hw1.
  set (d0 := c_long_value (Z.lor (Z.land (reg (dll s) "dac0") 4294901760) w0)).
  set (d1 := c_long_value (Z.lor (Z.land (reg (dll s) "dac1") 4294901760) w1)).
  set (s' := add_event (DllCall "NewSetting")
               (add_event (DllCall "StoreSettingData")
                  (set_dll (set_regs (fun r => <["dac1" := d1]> (<["dac0" := d0]> r))) s))).
  assert (R0 : reg (dll s') "dac0" = d0).
  { unfold s', reg. cbn. rewrite lookup_insert_ne by discriminate.
    rewrite lookup_insert_eq. reflexivity. }
  assert (R1 : reg (dll s') "dac1" = d1).
  { unfold s', reg. cbn. rewrite lookup_insert_eq. reflexivity. }
  assert (HG : GetLevel s' = Ret (WordToFloat w0, WordToFloat w1) s').
  { unfold GetLevel.
    eapply bind_Ret; [reflexivity|].
    eapply bind_Ret; [apply read_dac|].
    eapply bind_Ret; [apply read_dac|].
    rewrite R0, R1. unfold ret. f_equal. f_equal.
    - apply WordToFloat_low, pack_low, Hw0.
    - apply WordToFloat_low, pack_low, Hw1. }
  exists s'. split; [|split; [exact HG|]].
  - unfold SetLevel.
    eapply bind_Ret; [reflexivity|].
    eapply bind_Ret; [apply read_dac|].
    eapply bind_Ret; [exact H0|].
    eapply bind_Ret; [apply read_dac|].
    eapply bind_Ret; [exact H1|].
    eapply bind_Ret; [reflexivity|]. exact HG.
  - rewrite R0, R1.
    split; [apply pack_low, Hw0|]. split; [apply pack_low, Hw1|].
    split; [apply pack_high, Hw0|]. split; [apply pack_high, Hw1|].
    split; [apply c_long_range|].
    intros name N0 N1. unfold s', reg. cbn.
    rewrite !lookup_insert_ne by congruence. reflexivity.
Qed.

Lemma SetLevel_packs_low_half_witness :
  exists s',
    SetLevel 0 0 documented_driver = Ret (WordToFloat 32767, WordToFloat 32767) s'
    /\ Z.land (reg (dll s') "dac0") 65535 = 32767%Z.
Proof.
  destruct (SetLevel_packs_low_half 0 0 32767 32767 documented_driver)
    as (s' & Hr & _ & H0 & _).
  - unfold FloatToWord, PyFloat.int. vm_compute. reflexivity.
  - unfold FloatToWord, PyFloat.int. vm_compute. reflexivity.
  - lia.
  - lia.
  - exists s'. split; [exact Hr | exact H0].
Defined.

End FastComtecExtra.

(** * Further properties of the data-acquisition board driver *)

Module NationalInstrumentsExtra.

Import NationalInstrumentsXSeries NationalInstrumentsMore.

Local Open Scope Q_scope.

(** ** Positions and voltages *)

Lemma Qleb_le (a b : Q) : Qleb a b = true <-> a <= b.
Proof. apply Qle_bool_iff. Qed.

(** The voltages [position_to_volt] computes, axis by axis. *)
Lemma position_to_volt_ok (positions : list Q) :
  forall (i : nat) (pr vr : list (Q * Q)) (s : state),
    (forall j, (j < length positions)%nat ->
       exists p v, pr !! (i + j)%nat = Some p /\ vr !! (i + j)%nat = Some v
                   /\ flat p = false) ->
    position_to_volt i positions pr vr s
    = Ret (zip_with (fun x pv => volt (fst pv) (snd pv) x) positions
             (zip (drop i pr) (drop i vr))) s.
Proof.
  induction positions as [|x rest IH]; intros i pr vr s H; [reflexivity|].
  destruct (H 0%nat) as (p & v & Hp & Hv & Hflat); [cbn; lia|].
  rewrite Nat.add_0_r in Hp, Hv.
  rewrite (drop_S _ _ _ Hp), (drop_S _ _ _ Hv).
  cbn [position_to_volt]. rewrite Hv, Hp.
  unfold PyFloat.truediv. unfold flat in Hflat. rewrite Hflat.
  eapply bind_Ret; [reflexivity|].
  eapply bind_Ret.
  - apply IH. intros j Hj. destruct (H (S j)) as (p' & v' & ?); [cbn; lia|].
    exists p', v'. replace (S i + j)%nat with (i + S j)%nat by lia. assumption.
  - reflexivity.
Qed.

Lemma volts_length (positions : list Q) (i : nat) (pr vr : list (Q * Q)) :
  (forall j, (j < length positions)%nat ->
     is_Some (pr !! (i + j)%nat) /\ is_Some (vr !! (i + j)%nat)) ->
  length (zip_with (fun x pv => volt (fst pv) (snd pv) x) positions
            (zip (drop i pr) (drop i vr)))
  = length positions.
Proof.
  intros H. rewrite !length_zip_with, !length_drop.
  destruct positions as [|x rest]; [reflexivity|].
  destruct (H (length rest)) as (Hp & Hv); [cbn; lia|].
  apply lookup_lt_is_Some_1 in Hp, Hv. cbn [length] in *. lia.
Qed.

(** The check [exceeds] makes, axis by axis. *)
Lemma exceeds_run (volts : list float) :
  forall (i : nat) (vr : list (Q * Q)) (s : state),
    (forall j, (j < length volts)%nat -> is_Some (vr !! (i + j)%nat)) ->
    exceeds i volts vr s
    = Ret (existsb (fun yv => beyond (snd yv) (fst yv)) (zip volts (drop i vr))) s.
Proof.
  induction volts as [|y rest IH]; intros i vr s H; [reflexivity|].
  destruct (H 0%nat) as (v & Hv); [cbn; lia|].
  rewrite Nat.add_0_r in Hv. rewrite (drop_S _ _ _ Hv).
  cbn [exceeds zip_with existsb fst snd]. rewrite Hv. unfold beyond at 1.
  destruct (PrimFloat.ltb y (PyFloat.of_Q (fst v))
            || PrimFloat.ltb (PyFloat.of_Q (snd v)) y); [reflexivity|].
  cbn [orb]. apply IH. intros j Hj.
  replace (S i + j)%nat with (i + S j)%nat by lia. apply H. cbn. lia.
Qed.

Lemma volts_of_length (positions : list Q) (d : config) :
  axes_ok d (length positions) ->
  length (volts_of d positions) = length positions.
Proof.
  intros Hok. unfold volts_of.
  rewrite <- (drop_0 (_scanner_position_ranges d)), <- (drop_0 (_scanner_voltage_ranges d)).
  apply volts_length. intros j Hj.
  destruct (Hok j Hj) as (p & v & Hp & Hv & _). cbn [Nat.add]. rewrite Hp, Hv. eauto.
Qed.

Lemma scanner_position_to_volt_run (positions : list Q) (s : state) :
  positions <> [] ->
  axes_ok (cfg s) (length positions) ->
  _scanner_position_to_volt positions s
  = if some_beyond (cfg s) (volts_of (cfg s) positions)
    then Ret None (add_log Error "Voltages exceed the limit." s)
    else Ret (Some (volts_of (cfg s) positions)) s.
Proof.
  intros Hne Hok.
  pose proof (volts_of_length positions (cfg s) Hok) as Hl.
  assert (Hr : position_to_volt 0 positions (_scanner_position_ranges (cfg s))
                 (_scanner_voltage_ranges (cfg s)) s
               = Ret (volts_of (cfg s) positions) s).
  { rewrite position_to_volt_ok; [reflexivity|].
    intros j Hj. destruct (Hok j Hj) as (p & v & Hp & Hv & Hf).
    exists p, v. cbn [Nat.add]. auto. }
  assert (He : exceeds 0 (volts_of (cfg s) positions) (_scanner_voltage_ranges (cfg s)) s
               = Ret (some_beyond (cfg s) (volts_of (cfg s) positions)) s).
  { rewrite exceeds_run; [reflexivity|].
    intros j Hj. rewrite Hl in Hj. destruct (Hok j Hj) as (p & v & _ & Hv & _).
    cbn [Nat.add]. rewrite Hv. eauto. }
  assert (Hlen : (length (volts_of (cfg s) positions) =? 0)%nat = false).
  { rewrite Hl. destruct positions; [contradiction | reflexivity]. }
  unfold _scanner_position_to_volt.
  eapply bind_Ret; [reflexivity|].
  eapply bind_Ret; [exact Hr|].
  eapply bind_Ret; [rewrite Hlen; reflexivity|].
  eapply bind_Ret; [exact He|].
  destruct (some_beyond (cfg s) (volts_of (cfg s) positions)); reflexivity.
Qed.

(** X7: on axes whose position range has a width, [_scanner_position_to_volt]
    neither raises nor calls the board.  It computes one voltage per position,
    in doubles; when none of them compares below its lower or above its upper
    limit it returns them, and otherwise it logs that the voltages exceed the
    limit and returns the nan array. *)
Theorem scanner_position_to_volt_limits (positions : list Q) (s : state) :
  positions <> [] ->
  axes_ok (cfg s) (length positions) ->
  length (volts_of (cfg s) positions) = length positions
  /\ (some_beyond (cfg s) (volts_of (cfg s) positions) = false ->
      _scanner_position_to_volt positions s = Ret (Some (volts_of (cfg s) positions)) s)
  /\ (some_beyond (cfg s) (volts_of (cfg s) positions) = true ->
      exists s',
        _scanner_position_to_volt positions s = Ret None s'
        /\ log s' = (Error, "Voltages exceed the limit."%string) :: log s
        /\ calls s' = calls s).
Proof.
  intros Hne Hok.
  split; [apply volts_of_length, Hok|].
  pose proof (scanner_position_to_volt_run positions s Hne Hok) as Hrun.
  split; intros Hb; rewrite Hb in Hrun.
  - exact Hrun.
  - exists (add_log Error "Voltages exceed the limit." s).
    split; [exact Hrun|]. split; reflexivity.
Qed.

Lemma example_axes_ok : axes_ok example_config 4.
Proof.
  intros i Hi. exists (0, 100), (-10, 10).
  destruct i as [|[|[|[|i]]]]; [| | | |lia]; repeat split.
Qed.

Lemma narrow_axes_ok : axes_ok (cfg narrow_driver) 4.
Proof.
  intros i Hi.
  destruct i as [|[|[|[|i]]]]; [| | | |lia];
    [exists (0, 277 # 1000000), (-10, 10) | exists (0, 100), (-10, 10) ..];
    repeat split.
Qed.

(** The position 50 of a range from 0 to 100 is the middle of the limits; the
    upper end 277e-6 of its range is computed as 10.000000000000004 volts and
    so exceeds the limit of 10 volts. *)
Lemma scanner_position_to_volt_limits_witness :
  _scanner_position_to_volt [50; 0; 0; 0] fresh_driver
  = Ret (Some [0; -10; -10; -10]%float) fresh_driver
  /\ volt (0, 277 # 1000000) (-10, 10) (277 # 1000000) = 10.000000000000004%float
  /\ (exists s',
         _scanner_position_to_volt [277 # 1000000; 0; 0; 0] narrow_driver = Ret None s'
         /\ log s' = [(Error, "Voltages exceed the limit."%string)]).
Proof.
  split; [|split].
  - destruct (scanner_position_to_volt_limits [50; 0; 0; 0] fresh_driver)
      as (_ & Hin & _).
    + discriminate.
    + exact example_axes_ok.
    + apply Hin. vm_compute. reflexivity.
  - vm_compute. reflexivity.
  - destruct (scanner_position_to_volt_limits [277 # 1000000; 0; 0; 0] narrow_driver)
      as (_ & _ & Hout).
    + discriminate.
    + exact narrow_axes_ok.
    + destruct Hout as (s' & Hr & Hlog & _); [vm_compute; reflexivity|].
      exists s'. split; [exact Hr | exact Hlog].
Defined.

(** ** [scanner_set_position] *)

Lemma set_axis_ok (i : nat) (axis : string) (v : option Q) (s : state) :
  (i < length (_scanner_position_ranges (cfg s)))%nat ->
  (i < length (_current_position s))%nat ->
  axis_bad s i v = false ->
  set_axis i axis v s = Ret None (move_axis i v s).
Proof.
  intros Hr Hp Hb. destruct v as [x|]; [|reflexivity].
  unfold set_axis. eapply bind_Ret; [reflexivity|].
  destruct (lookup_lt_is_Some_2 _ _ Hr) as (r & Hrr).
  unfold axis_bad in Hb. rewrite Hrr in Hb. rewrite Hrr. unfold in_range in Hb.
  rewrite Hb.
  eapply bind_Ret; [|reflexivity].
  unfold store_position. eapply bind_Ret; [reflexivity|].
  apply Nat.ltb_lt in Hp. rewrite Hp. reflexivity.
Qed.

Lemma move_axis_frame (i : nat) (v : option Q) (s : state) :
  cfg (move_axis i v s) = cfg s /\ hw (move_axis i v s) = hw s
  /\ calls (move_axis i v s) = calls s /\ log (move_axis i v s) = log s
  /\ _scanner_ao_task (move_axis i v s) = _scanner_ao_task s
  /\ length (_current_position (move_axis i v s)) = length (_current_position s).
Proof.
  destruct v as [x|]; cbn; repeat split. apply length_insert.
Qed.

Lemma axis_bad_cfg (s s' : state) (i : nat) (v : option Q) :
  cfg s' = cfg s -> axis_bad s' i v = axis_bad s i v.
Proof. intros H. unfold axis_bad. rewrite H. reflexivity. Qed.

Lemma moved_frame (x y z a : option Q) (s : state) :
  cfg (moved x y z a s) = cfg s /\ hw (moved x y z a s) = hw s
  /\ calls (moved x y z a s) = calls s /\ log (moved x y z a s) = log s
  /\ _scanner_ao_task (moved x y z a s) = _scanner_ao_task s
  /\ length (_current_position (moved x y z a s)) = length (_current_position s).
Proof.
  unfold moved.
  destruct (move_axis_frame 0 x s) as (A1 & A2 & A3 & A4 & A5 & A6).
  destruct (move_axis_frame 1 y (move_axis 0 x s)) as (B1 & B2 & B3 & B4 & B5 & B6).
  destruct (move_axis_frame 2 z (move_axis 1 y (move_axis 0 x s)))
    as (C1 & C2 & C3 & C4 & C5 & C6).
  destruct (move_axis_frame 3 a (move_axis 2 z (move_axis 1 y (move_axis 0 x s))))
    as (D1 & D2 & D3 & D4 & D5 & D6).
  repeat split; congruence.
Qed.

(** The four range checks pass and the tracked position is moved. *)
Lemma scanner_set_position_run (x y z a : option Q) (s : state) :
  unlocked s ->
  length (_current_position s) = 4%nat ->
  axes_ok (cfg s) 4 ->
  axis_bad s 0 x || axis_bad s 1 y || axis_bad s 2 z || axis_bad s 3 a = false ->
  scanner_set_position x y z a s
  = try_except
      (let* voltages := _scanner_position_to_volt (_current_position (moved x y z a s)) in
       _write_scanner_ao voltages 1 true >> ret 0%Z)
      (ret (-1)%Z) (moved x y z a s).
Proof.
  intros Hu Hlen Hok Hbad.
  apply orb_false_iff in Hbad as (Hbad & Ha).
  apply orb_false_iff in Hbad as (Hbad & Hz).
  apply orb_false_iff in Hbad as (Hx & Hy).
  assert (Hr : forall i, (i < 4)%nat -> (i < length (_scanner_position_ranges (cfg s)))%nat).
  { intros i Hi. destruct (Hok i Hi) as (p & v & Hp & _).
    apply lookup_lt_is_Some_1. eauto. }
  set (s1 := move_axis 0 x s).
  set (s2 := move_axis 1 y s1).
  set (s3 := move_axis 2 z s2).
  destruct (move_axis_frame 0 x s) as (A1 & _ & _ & _ & _ & A6).
  destruct (move_axis_frame 1 y s1) as (B1 & _ & _ & _ & _ & B6).
  destruct (move_axis_frame 2 z s2) as (C1 & _ & _ & _ & _ & C6).
  destruct (move_axis_frame 3 a s3) as (D1 & _ & _ & _ & _ & D6).
  fold s1 in A1, A6. fold s2 in B1, B6. fold s3 in C1, C6.
  unfold scanner_set_position.
  eapply bind_Ret; [reflexivity|]. rewrite Hu.
  eapply bind_Ret.
  { apply set_axis_ok; [apply Hr; lia | lia | exact Hx]. }
  fold s1. eapply bind_Ret.
  { apply set_axis_ok; [rewrite A1; apply Hr; lia | lia |].
    rewrite (axis_bad_cfg s s1) by exact A1. exact Hy. }
  fold s2. eapply bind_Ret.
  { apply set_axis_ok; [rewrite B1, A1; apply Hr; lia | lia |].
    rewrite (axis_bad_cfg s s2) by congruence. exact Hz. }
  fold s3. eapply bind_Ret.
  { apply set_axis_ok; [rewrite C1, B1, A1; apply Hr; lia | lia |].
    rewrite (axis_bad_cfg s s3) by congruence. exact Ha. }
  change (move_axis 3 a s3) with (moved x y z a s).
  eapply bind_Ret; [reflexivity|].
  eapply bind_Ret.
  { replace (length (_current_position (moved x y z a s)) =? 0)%nat with false;
      [reflexivity|].
    symmetry. apply Nat.eqb_neq. unfold moved. fold s1 s2 s3. lia. }
  reflexivity.
Qed.

(** X8: with every requested axis inside its range and no voltage computed
    for the resulting tracked position beyond its limits, [scanner_set_position]
    stores the requested axes, hands the board one write of the four voltages
    and returns 0. *)
Theorem scanner_set_position_moves (x y z a : option Q) (s : state) :
  unlocked s ->
  length (_current_position s) = 4%nat ->
  axes_ok (cfg s) 4 ->
  axis_bad s 0 x || axis_bad s 1 y || axis_bad s 2 z || axis_bad s 3 a = false ->
  some_beyond (cfg s) (volts_of (cfg s) (_current_position (moved x y z a s))) = false ->
  (forall v, daq_raises (hw s) (DAQmxWriteAnalogF64 (_scanner_ao_task s) 1 true v) = false) ->
  exists s',
    scanner_set_position x y z a s = Ret 0%Z s'
    /\ get_scanner_position s' = Ret (_current_position (moved x y z a s)) s'
    /\ calls s'
       = DAQmxWriteAnalogF64 (_scanner_ao_task s) 1 true
           (Some (volts_of (cfg s) (_current_position (moved x y z a s))))
         :: calls s
    /\ length (volts_of (cfg s) (_current_position (moved x y z a s))) = 4%nat
    /\ log s' = log s.
Proof.
  intros Hu Hlen Hok Hbad Hin Hw.
  destruct (moved_frame x y z a s) as (F1 & F2 & F3 & F4 & F5 & F6).
  set (volts := volts_of (cfg s) (_current_position (moved x y z a s))) in *.
  assert (Hok' : axes_ok (cfg (moved x y z a s))
                   (length (_current_position (moved x y z a s))))
    by (rewrite F1, F6, Hlen; exact Hok).
  assert (Hr : _scanner_position_to_volt (_current_position (moved x y z a s))
                 (moved x y z a s)
               = Ret (Some volts) (moved x y z a s)).
  { rewrite scanner_position_to_volt_run; [|intros E; rewrite E in F6; cbn in F6; lia|exact Hok'].
    rewrite F1. fold volts. rewrite Hin. reflexivity. }
  exists (add_call (DAQmxWriteAnalogF64 (_scanner_ao_task s) 1 true (Some volts))
            (moved x y z a s)).
  split; [|split; [reflexivity|split; [cbn; rewrite F3; reflexivity|
    split; [|cbn; exact F4]]]].
  - rewrite scanner_set_position_run by assumption.
    assert (Hbody :
              (let* voltages :=
                 _scanner_position_to_volt (_current_position (moved x y z a s)) in
               _write_scanner_ao voltages 1 true >> ret 0%Z) (moved x y z a s)
              = Ret 0%Z
                  (add_call (DAQmxWriteAnalogF64 (_scanner_ao_task s) 1 true (Some volts))
                     (moved x y z a s))).
    { eapply bind_Ret; [exact Hr|].
      apply (bind_Ret _ _ _
               (add_call (DAQmxWriteAnalogF64 (_scanner_ao_task s) 1 true (Some volts))
                  (moved x y z a s)) tt); [|reflexivity].
      unfold _write_scanner_ao. eapply bind_Ret; [reflexivity|].
      unfold daq. rewrite F2, F5, Hw. reflexivity. }
    unfold try_except. rewrite Hbody. reflexivity.
  - unfold volts. rewrite <- F1 at 1. rewrite volts_of_length by exact Hok'.
    rewrite F6. exact Hlen.
Qed.

Lemma scanner_set_position_moves_witness :
  exists s',
    scanner_set_position (Some 50) None None None fresh_driver = Ret 0%Z s'
    /\ get_scanner_position s' = Ret [50; 0; 0; 0] s'
    /\ calls s'
       = [DAQmxWriteAnalogF64 (Some 7%nat) 1 true (Some [0; -10; -10; -10]%float)].
Proof.
  destruct (scanner_set_position_moves (Some 50) None None None fresh_driver)
    as (s' & Hr & Hp & Hc & _).
  - reflexivity.
  - reflexivity.
  - exact example_axes_ok.
  - reflexivity.
  - vm_compute. reflexivity.
  - intros v. reflexivity.
  - exists s'. split; [exact Hr|]. split; [exact Hp|].
    rewrite Hc. vm_compute. reflexivity.
Defined.

(** X9: when a voltage computed for the tracked position, after the requested
    axes passed their range checks and are stored, is beyond its limits,
    [scanner_set_position] logs that the voltages exceed the limit, still hands
    the nan array to the board and returns 0, with the requested axes
    stored. *)
Theorem scanner_set_position_writes_nan (x y z a : option Q) (s : state) :
  unlocked s ->
  length (_current_position s) = 4%nat ->
  axes_ok (cfg s) 4 ->
  axis_bad s 0 x || axis_bad s 1 y || axis_bad s 2 z || axis_bad s 3 a = false ->
  some_beyond (cfg s) (volts_of (cfg s) (_current_position (moved x y z a s))) = true ->
  (forall v, daq_raises (hw s) (DAQmxWriteAnalogF64 (_scanner_ao_task s) 1 true v) = false) ->
  exists s',
    scanner_set_position x y z a s = Ret 0%Z s'
    /\ get_scanner_position s' = Ret (_current_position (moved x y z a s)) s'
    /\ calls s' = DAQmxWriteAnalogF64 (_scanner_ao_task s) 1 true None :: calls s
    /\ log s' = (Error, "Voltages exceed the limit."%string) :: log s.
Proof.
  intros Hu Hlen Hok Hbad Hout Hw.
  destruct (moved_frame x y z a s) as (F1 & F2 & F3 & F4 & F5 & F6).
  assert (Hv : _scanner_position_to_volt (_current_position (moved x y z a s))
                 (moved x y z a s)
               = Ret None (add_log Error "Voltages exceed the limit." (moved x y z a s))).
  { rewrite scanner_position_to_volt_run.
    - rewrite F1, Hout. reflexivity.
    - intros E. rewrite E in F6. cbn in F6. lia.
    - rewrite F1, F6, Hlen. exact Hok. }
  exists (add_call (DAQmxWriteAnalogF64 (_scanner_ao_task s) 1 true None)
            (add_log Error "Voltages exceed the limit." (moved x y z a s))).
  split; [|split; [reflexivity|
    split; [cbn; rewrite F3; reflexivity | cbn; rewrite F4; reflexivity]]].
  rewrite scanner_set_position_run by assumption.
  assert (Hbody :
            (let* voltages :=
               _scanner_position_to_volt (_current_position (moved x y z a s)) in
             _write_scanner_ao voltages 1 true >> ret 0%Z) (moved x y z a s)
            = Ret 0%Z
                (add_call (DAQmxWriteAnalogF64 (_scanner_ao_task s) 1 true None)
                   (add_log Error "Voltages exceed the limit." (moved x y z a s)))).
  { eapply bind_Ret; [exact Hv|].
    apply (bind_Ret _ _ _
             (add_call (DAQmxWriteAnalogF64 (_scanner_ao_task s) 1 true None)
                (add_log Error "Voltages exceed the limit." (moved x y z a s))) tt); [|reflexivity].
    unfold _write_scanner_ao. eapply bind_Ret; [reflexivity|].
    unfold daq. cbn. rewrite F2, F5, Hw. reflexivity. }
  unfold try_except. rewrite Hbody. reflexivity.
Qed.

(** The call of above on a tracked [y] of 200, outside its range, which the
    call does not check; and a request for the upper end of the [x] range,
    which passes the range check and is stored. *)
Lemma scanner_set_position_writes_nan_witness :
  (exists s',
      scanner_set_position (Some 50) None None None stray_driver = Ret 0%Z s'
      /\ calls s' = [DAQmxWriteAnalogF64 (Some 7%nat) 1 true None])
  /\ (exists s',
         scanner_set_position (Some (277 # 1000000)) None None None narrow_driver
         = Ret 0%Z s'
         /\ get_scanner_position s' = Ret [277 # 1000000; 0; 0; 0] s'
         /\ calls s' = [DAQmxWriteAnalogF64 (Some 7%nat) 1 true None]).
Proof.
  split.
  - destruct (scanner_set_position_writes_nan (Some 50) None None None stray_driver)
      as (s' & Hr & _ & Hc & _).
    + reflexivity.
    + reflexivity.
    + exact example_axes_ok.
    + reflexivity.
    + vm_compute. reflexivity.
    + intros v. reflexivity.
    + exists s'. split; [exact Hr | exact Hc].
  - destruct (scanner_set_position_writes_nan (Some (277 # 1000000)) None None None
                narrow_driver) as (s' & Hr & Hp & Hc & _).
    + reflexivity.
    + reflexivity.
    + exact narrow_axes_ok.
    + reflexivity.
    + vm_compute. reflexivity.
    + intros v. reflexivity.
    + exists s'. split; [exact Hr|]. split; [exact Hp | exact Hc].
Defined.

(** ** The slow counter *)

Lemma pair_sums_seq (g : nat -> Z) (n : nat) :
  forall a : nat,
    pair_sums (map g (seq a (2 * n)))
    = map (fun j => ((g (a + 2 * j)%nat + g (a + 2 * j + 1)%nat) mod 2 ^ 32)%Z) (seq 0 n).
Proof.
  induction n as [|n IH]; intros a; [reflexivity|].
  replace (2 * S n)%nat with (S (S (2 * n))) by lia.
  cbn [seq map pair_sums]. rewrite IH. f_equal.
  - replace (a + 2 * 0)%nat with a by lia. replace (a + 1)%nat with (S a) by lia.
    reflexivity.
  - rewrite <- seq_shift, map_map. apply map_ext. intros j.
    replace (S (S a) + 2 * j)%nat with (a + 2 * S j)%nat by lia. reflexivity.
Qed.

Lemma read_counters_ok (tasks : list TaskHandle) (n : Z) :
  forall s : state,
    (forall t, In t tasks -> daq_raises (hw s) (DAQmxReadCounterU32 t n) = false) ->
    exists s',
      read_counters tasks n s
      = Ret (map (fun t => map (counter_samples (hw s) t) (seq 0 (Z.to_nat n))) tasks) s'
      /\ hw s' = hw s /\ clk s' = clk s /\ cfg s' = cfg s.
Proof.
  induction tasks as [|t tasks IH]; intros s H.
  - exists s. repeat split.
  - destruct (IH (add_call (DAQmxReadCounterU32 t n) s)) as (s' & Hr & H1 & H2 & H3).
    { intros t' Ht'. apply H. right. exact Ht'. }
    exists s'. split; [|split; [exact H1|split; [exact H2 | exact H3]]].
    cbn [read_counters map].
    eapply bind_Ret; [unfold daq; rewrite (H t) by (left; reflexivity); reflexivity|].
    eapply bind_Ret; [reflexivity|].
    eapply bind_Ret; [exact Hr|]. reflexivity.
Qed.

Lemma counts_per_second_integer (z c : Z) :
  (0 <= z < 2 ^ 32)%Z ->
  counts_per_second (integer z) c = PyFloat.of_Z ((c * z) mod 2 ^ 32).
Proof.
  intros Hz. unfold counts_per_second.
  destruct (Z.leb_spec 0 z); [|lia]. destruct (Z.ltb_spec z (2 ^ 32)); [|lia].
  reflexivity.
Qed.

(** X10: with counter tasks running, no analog channels and a board that
    delivers every read, [get_counter] with [samples] given returns an array
    of shape [channels, samples].  The row of each task holds, per sample, the
    sum modulo 2^32 of two adjacent raw counts, scaled by the clock rate: with
    a float rate the double product of the two, with an integer rate that fits
    32 bits the product modulo 2^32. *)
Theorem get_counter_counts (n : Z) (s : state) :
  _counter_daq_tasks s <> [] ->
  _counter_ai_channels (cfg s) = [] ->
  (0 <= n)%Z ->
  (length (_counter_daq_tasks s) <= channel_count s)%nat ->
  (forall t, In t (_counter_daq_tasks s) ->
             daq_raises (hw s) (DAQmxReadCounterU32 t (2 * n)) = false) ->
  exists a s',
    get_counter (Some n) s = Ret a s'
    /\ shape a = (Z.of_nat (channel_count s), n)
    /\ length (cells a) = channel_count s
    /\ (forall i t,
          _counter_daq_tasks s !! i = Some t ->
          cells a !! i
          = Some (map (fun j => counts_per_second (_clock_frequency (clk s))
                                  (pair_count s t j))
                    (seq 0 (Z.to_nat n))))
    /\ (forall q j t,
          _clock_frequency (clk s) = floating q ->
          counts_per_second (_clock_frequency (clk s)) (pair_count s t j)
          = (PyFloat.of_Z (pair_count s t j) * PyFloat.of_Q q)%float)
    /\ (forall z j t,
          _clock_frequency (clk s) = integer z -> (0 <= z < 2 ^ 32)%Z ->
          counts_per_second (_clock_frequency (clk s)) (pair_count s t j)
          = PyFloat.of_Z ((pair_count s t j * z) mod 2 ^ 32)).
Proof.
  intros Hne Hai Hn Hlen Hread.
  destruct (read_counters_ok (_counter_daq_tasks s) (2 * n) s Hread)
    as (s1 & Hr & H1 & H2 & H3).
  set (rows := map (fun t => map (counter_samples (hw s) t) (seq 0 (Z.to_nat (2 * n))))
                 (_counter_daq_tasks s)) in *.
  set (all := cells (full (Z.of_nat (channel_count s)) n 222%float)).
  assert (Hall : length all = channel_count s).
  { unfold all, full. cbn. rewrite repeat_length, Nat2Z.id. reflexivity. }
  assert (Hrows : length (map pair_sums rows) = length (_counter_daq_tasks s)).
  { unfold rows. rewrite !length_map. reflexivity. }
  exists {| shape := (Z.of_nat (channel_count s), n);
            cells := map (map (counts_per_second (_clock_frequency (clk s))))
                       (map pair_sums rows)
                     ++ drop (length (map pair_sums rows)) all |}.
  exists s1. split; [|split; [reflexivity|split; [|split; [|split]]]].
  - unfold get_counter.
    eapply bind_Ret; [reflexivity|].
    eapply bind_Ret; [reflexivity|].
    destruct (_counter_daq_tasks s) as [|t ts] eqn:Et; [contradiction|].
    change (length (t :: ts) <? 1)%nat with false. cbv iota.
    eapply bind_Ret; [reflexivity|].
    eapply bind_Ret; [reflexivity|].
    assert (Hcc : length (_counter_channels (cfg s) ++ []) = channel_count s).
    { unfold channel_count. rewrite Hai. reflexivity. }
    rewrite Hai, Hcc. change (0 <? length (@nil string))%nat with false.
    cbn [andb]. cbv iota.
    eapply bind_Ret; [reflexivity|].
    eapply bind_Ret.
    { apply try_except_Ret.
      eapply bind_Ret; [destruct (Z.ltb_spec (2 * n) 0); [lia | reflexivity]|].
      eapply bind_Ret; [exact Hr|].
      eapply bind_Ret; [reflexivity|]. reflexivity. }
    cbv beta iota.
    eapply bind_Ret; [reflexivity|].
    fold all.
    rewrite Hrows, Hall.
    destruct (Nat.ltb_spec (channel_count s) (length (t :: ts))); [lia|].
    rewrite H2. reflexivity.
  - cbn [cells]. rewrite length_app, length_drop, !length_map, Hall.
    unfold rows. rewrite length_map. lia.
  - intros i t Ht. cbn [cells].
    assert (Hi : (i < length (_counter_daq_tasks s))%nat).
    { apply lookup_lt_is_Some_1. eauto. }
    rewrite lookup_app_l by (rewrite !length_map; unfold rows; rewrite length_map; exact Hi).
    rewrite !lookup_map. unfold rows. rewrite lookup_map, Ht. cbn.
    f_equal.
    replace (Z.to_nat (2 * n)) with (2 * Z.to_nat n)%nat by lia.
    rewrite pair_sums_seq, map_map. apply map_ext. intros j.
    unfold pair_count. cbn [Nat.add]. reflexivity.
  - intros q j t ->. reflexivity.
  - intros z j t -> Hz. apply counts_per_second_integer, Hz.
Qed.

(** The raw counts 0, 3e7, 6e7, 9e7 give the sums 3e7 and 1.5e8; at the
    integer rate 100 the first becomes 3e9 and the second wraps to
    2115098112. *)
Lemma get_counter_counts_witness :
  exists a s',
    get_counter (Some 2%Z) counting_driver = Ret a s'
    /\ shape a = (1%Z, 2%Z)
    /\ cells a !! 0%nat = Some [3000000000; 2115098112]%float.
Proof.
  destruct (get_counter_counts 2%Z counting_driver)
    as (a & s' & Hr & Hs & _ & Hc & _).
  - discriminate.
  - reflexivity.
  - lia.
  - cbn. lia.
  - intros t _. reflexivity.
  - exists a, s'. split; [exact Hr|]. split; [exact Hs|].
    rewrite (Hc 0%nat 3%nat eq_refl). vm_compute. reflexivity.
Defined.

(** ** [set_position_range] *)

Lemma check_limits_ok (myrange : list (list Q)) (s : state) :
  forallb limit_ok myrange = true ->
  check_limits myrange s = Ret (map as_pair myrange) s.
Proof.
  induction myrange as [|pos rest IH]; intros H; [reflexivity|].
  cbn in H. apply andb_true_iff in H as (Hp & Hrest).
  cbn [check_limits map].
  destruct pos as [|lo [|hi [|? ?]]]; try discriminate.
  cbn in Hp. unfold Qleb in Hp.
  eapply bind_Ret; [unfold check_limit, Qltb; rewrite Hp; reflexivity|].
  eapply bind_Ret; [apply IH, Hrest|]. reflexivity.
Qed.

Lemma check_limits_bad (myrange : list (list Q)) (s : state) :
  forallb limit_ok myrange = false ->
  check_limits myrange s = Raise TypeError s.
Proof.
  induction myrange as [|pos rest IH]; intros H; [discriminate|].
  cbn in H. cbn [check_limits].
  destruct (limit_ok pos) eqn:Hp.
  - destruct pos as [|lo [|hi [|? ?]]]; try discriminate.
    cbn in Hp. unfold Qleb in Hp.
    eapply bind_Ret; [unfold check_limit, Qltb; rewrite Hp; reflexivity|].
    apply bind_Raise. apply IH. exact H.
  - apply bind_Raise.
    destruct pos as [|lo [|hi [|? ?]]]; try reflexivity.
    cbn in Hp. unfold check_limit, Qltb. unfold Qleb in Hp. rewrite Hp. reflexivity.
Qed.

(** X11: [set_position_range] stores the given ranges only when there are
    four of them, each a pair with lower limit not above the upper; it then
    returns 0 and [get_position_range] reads them back.  A wrong number of
    ranges gives -1 with the ranges unchanged; a malformed or wrongly ordered
    entry does not give -1 but raises [TypeError], again with the ranges
    unchanged.  The tracked position is never adjusted. *)
Theorem set_position_range_all_or_nothing (myrange : list (list Q)) (s : state) :
  (length myrange <> 4%nat ->
   exists s', set_position_range (Some myrange) s = Ret (-1)%Z s'
              /\ cfg s' = cfg s /\ _current_position s' = _current_position s)
  /\ (length myrange = 4%nat -> forallb limit_ok myrange = true ->
      exists s', set_position_range (Some myrange) s = Ret 0%Z s'
                 /\ get_position_range s' = Ret (map as_pair myrange) s'
                 /\ Forall (fun p => fst p <= snd p) (_scanner_position_ranges (cfg s'))
                 /\ _current_position s' = _current_position s)
  /\ (length myrange = 4%nat -> forallb limit_ok myrange = false ->
      set_position_range (Some myrange) s = Raise TypeError s).
Proof.
  split; [|split].
  - intros Hl.
    exists (add_log Error "Given range should have dimension 4." s).
    split; [|split; reflexivity].
    unfold set_position_range.
    destruct (Nat.eqb_spec (length myrange) 4); [contradiction | reflexivity].
  - intros Hl Hok.
    exists (set_cfg (set_scanner_position_ranges (map as_pair myrange)) s).
    split; [|split; [reflexivity|split; [|reflexivity]]].
    + unfold set_position_range. rewrite Hl. cbn [Nat.eqb negb].
      eapply bind_Ret; [apply check_limits_ok, Hok|]. reflexivity.
    + cbn. clear Hl. induction myrange as [|pos rest IH]; [constructor|].
      cbn in Hok. apply andb_true_iff in Hok as (Hp & Hrest).
      cbn [map]. constructor; [|apply IH, Hrest].
      destruct pos as [|lo [|hi [|? ?]]]; try discriminate.
      cbn in Hp. cbn. apply Qleb_le. exact Hp.
  - intros Hl Hbad.
    unfold set_position_range. rewrite Hl. cbn [Nat.eqb negb].
    apply bind_Raise. apply check_limits_bad. exact Hbad.
Qed.

Lemma set_position_range_all_or_nothing_witness :
  (exists s', set_position_range (Some [[0; 1]; [0; 1]; [0; 1]; [0; 1]]) fresh_driver
              = Ret 0%Z s'
              /\ get_position_range s' = Ret [(0, 1); (0, 1); (0, 1); (0, 1)] s')
  /\ set_position_range (Some [[0; 1]; [0; 1]; [1; 0]; [0; 1]]) fresh_driver
     = Raise TypeError fresh_driver
  /\ (exists s', set_position_range (Some [[0; 1]]) fresh_driver = Ret (-1)%Z s'
                 /\ cfg s' = cfg fresh_driver).
Proof.
  split; [|split].
  - destruct (set_position_range_all_or_nothing [[0; 1]; [0; 1]; [0; 1]; [0; 1]]
                fresh_driver) as (_ & Hok & _).
    destruct Hok as (s' & Hr & Hg & _); [reflexivity | reflexivity|].
    exists s'. split; [exact Hr | exact Hg].
  - destruct (set_position_range_all_or_nothing [[0; 1]; [0; 1]; [1; 0]; [0; 1]]
                fresh_driver) as (_ & _ & Hbad).
    apply Hbad; reflexivity.
  - destruct (set_position_range_all_or_nothing [[0; 1]] fresh_driver) as (Hlen & _).
    destruct Hlen as (s' & Hr & Hc & _); [cbn; lia|].
    exists s'. split; [exact Hr | exact Hc].
Defined.

(** ** The clock registry *)

Lemma in_values_false (c : option string) (m : gmap string (option string)) :
  in_values c m = false <-> forall n, m !! n <> Some c.
Proof.
  unfold in_values. rewrite bool_decide_eq_false. split.
  - intros H n Hn. apply H. apply list_elem_of_fmap. exists (n, c).
    split; [reflexivity|]. apply elem_of_map_to_list. exact Hn.
  - intros H Hin. apply list_elem_of_fmap in Hin as ([n c'] & -> & Hin).
    apply elem_of_map_to_list in Hin. exact (H n Hin).
Qed.

Lemma in_values_true (c : option string) (m : gmap string (option string)) (n : string) :
  m !! n = Some c -> in_values c m = true.
Proof.
  intros Hn. destruct (in_values c m) eqn:E; [reflexivity|].
  exfalso. exact (proj1 (in_values_false c m) E n Hn).
Qed.

Local Ltac case_if :=
  match goal with
  | |- context [if ?b then _ else _] =>
      lazymatch b with
      | context [if _ then _ else _] => fail
      | _ => destruct b eqn:?
      end
  end.



Lemma is_Some_false {A} (o : option A) : o = None -> bool_decide (is_Some o) = false.
Proof. intros ->. apply bool_decide_eq_false. intros [x [=]]. Qed.

Lemma is_Some_true {A} (o : option A) (x : A) : o = Some x -> bool_decide (is_Some o) = true.
Proof. intros ->. apply bool_decide_eq_true. eauto. Qed.

(** A channel some name holds cannot be requested again. *)
Lemma set_up_clock_new_channel_taken (name : string) (clock_frequency : option Q)
    (ch : string) (idle start : bool) (s : state) (n : string) :
  _clock_channel_new (reg s) !! n = Some (Some ch) ->
  exists s',
    set_up_clock_new name clock_frequency (Some ch) idle start s = Ret (-1)%Z s'
    /\ calls s' = calls s
    /\ _clock_daq_task_new (reg s') = _clock_daq_task_new (reg s)
    /\ _clock_channel_new (reg s') = _clock_channel_new (reg s).
Proof.
  intros Hn.
  unfold set_up_clock_new, try_except, bind, gets, modify, logm, daq, new_task, ret.
  destruct (bool_decide (is_Some (_clock_daq_task_new (reg s) !! name))).
  { eexists. split; [reflexivity|]. repeat split. }
  destruct clock_frequency as [f|]; [destruct (Qleb f 0)|];
    cbn; rewrite lookup_insert_eq; cbn; rewrite (in_values_true _ _ n Hn);
    (eexists; split; [reflexivity|]); repeat split.
Qed.

(** X13: when the board refuses to create the task, [set_up_clock_new]
    returns -1 and registers no task, but the requested channel stays booked
    under the name: every later request for that channel, also under the same
    name, is refused without a call to the board. *)
Theorem set_up_clock_new_failure_keeps_channel (name : string)
    (clock_frequency : option Q) (ch : string) (idle start : bool) (s : state) :
  _clock_daq_task_new (reg s) !! name = None ->
  channel_free ch (reg s) ->
  daq_raises (hw s) (DAQmxCreateTask name (length (calls s))) = true ->
  exists s',
    set_up_clock_new name clock_frequency (Some ch) idle start s = Ret (-1)%Z s'
    /\ _clock_daq_task_new (reg s') !! name = None
    /\ _clock_channel_new (reg s') !! name = Some (Some ch)
    /\ calls s' = [DAQmxCreateTask name (length (calls s))] ++ calls s
    /\ (forall name2 f2 idle2 start2,
          exists s'',
            set_up_clock_new name2 f2 (Some ch) idle2 start2 s' = Ret (-1)%Z s''
            /\ calls s'' = calls s'
            /\ _clock_daq_task_new (reg s'') = _clock_daq_task_new (reg s')).
Proof.
  intros Hnone Hfree Hraise.
  assert (Hrun : exists s',
             set_up_clock_new name clock_frequency (Some ch) idle start s = Ret (-1)%Z s'
             /\ _clock_daq_task_new (reg s') !! name = None
             /\ _clock_channel_new (reg s') !! name = Some (Some ch)
             /\ calls s' = [DAQmxCreateTask name (length (calls s))] ++ calls s).
  { unfold set_up_clock_new, try_except, bind, gets, modify, logm, daq, new_task, ret.
    rewrite (is_Some_false _ Hnone).
    destruct clock_frequency as [f|]; [destruct (Qleb f 0)|];
      cbn; rewrite lookup_insert_eq; cbn;
      rewrite (proj2 (in_values_false _ _) Hfree); cbn; rewrite Hraise; cbn;
      (eexists; split; [reflexivity|]); cbn;
      (split; [exact Hnone|]); (split; [apply lookup_insert_eq | reflexivity]). }
  destruct Hrun as (s' & Hr & Ht & Hc & Hcalls).
  exists s'. split; [exact Hr|]. split; [exact Ht|]. split; [exact Hc|].
  split; [exact Hcalls|].
  intros name2 f2 idle2 start2.
  destruct (set_up_clock_new_channel_taken name2 f2 ch idle2 start2 s' name Hc)
    as (s'' & Hr2 & H1 & H2 & _).
  exists s''. split; [exact Hr2|]. split; [exact H1 | exact H2].
Qed.

Lemma set_up_clock_new_failure_keeps_channel_witness :
  exists s' s'',
    set_up_clock_new "cavity" (Some 100) (Some "/Dev1/Ctr3") false true refusing_driver
    = Ret (-1)%Z s'
    /\ set_up_clock_new "cavity" (Some 100) (Some "/Dev1/Ctr3") false true s'
       = Ret (-1)%Z s''
    /\ calls s'' = calls s'.
Proof.
  destruct (set_up_clock_new_failure_keeps_channel "cavity" (Some 100) "/Dev1/Ctr3"
              false true refusing_driver) as (s' & Hr & _ & _ & _ & Hretry).
  - reflexivity.
  - intros n. cbn. rewrite lookup_empty. discriminate.
  - reflexivity.
  - destruct (Hretry "cavity"%string (Some 100) false true) as (s'' & Hr2 & Hc & _).
    exists s', s''. split; [exact Hr|]. split; [exact Hr2 | exact Hc].
Defined.

(** ** Aliases *)

Lemma registry_only_refl (s : state) : registry_only s s.
Proof. destruct s; reflexivity. Qed.

Lemma registry_only_trans (s1 s2 s3 : state) :
  registry_only s1 s2 -> registry_only s2 s3 -> registry_only s1 s3.
Proof.
  unfold registry_only. intros H1 H2.
  etransitivity; [exact H2|]. rewrite H1. reflexivity.
Qed.

Lemma registry_only_frame (s s' : state) :
  registry_only s s' ->
  calls s' = calls s /\ log s' = log s /\ hw s' = hw s /\ clk s' = clk s
  /\ cfg s' = cfg s.
Proof. intros H. rewrite H. repeat split. Qed.

Lemma same_entries_refl (n : string) (r : registry) : same_entries n r r.
Proof. repeat split. Qed.

Lemma same_entries_trans (n : string) (r1 r2 r3 : registry) :
  same_entries n r1 r2 -> same_entries n r2 r3 -> same_entries n r1 r3.
Proof. intros (A1 & A2 & A3) (B1 & B2 & B3). repeat split; congruence. Qed.

(** The registry after one name is entered. *)
Lemma enter_registered (a : string) (t : TaskHandle) (c : option string) (f : Q)
    (s : state) :
  let s1 := set_reg (set_frequency_new a f)
              (set_reg (set_channel_new a c) (set_reg (set_task_new a t) s)) in
  registered a t c f (reg s1)
  /\ (forall n, n <> a -> same_entries n (reg s) (reg s1))
  /\ registry_only s s1.
Proof.
  cbn. split; [|split].
  - repeat split; cbn; apply lookup_insert_eq.
  - intros n Hn. repeat split; cbn; apply lookup_insert_ne; congruence.
  - reflexivity.
Qed.

Lemma add_channels_ok (names : list string) (t : TaskHandle) (c : option string)
    (f : Q) :
  forall s : state,
    NoDup names ->
    (forall n, n ∈ names -> _clock_daq_task_new (reg s) !! n = None) ->
    exists s',
      add_channels names t c f s = Ret 0%Z s'
      /\ registry_only s s'
      /\ (forall n, n ∈ names -> registered n t c f (reg s'))
      /\ (forall n, n ∉ names -> same_entries n (reg s) (reg s')).
Proof.
  induction names as [|a rest IH]; intros s Hnd Hfresh.
  - exists s. split; [reflexivity|]. split; [apply registry_only_refl|].
    split; [intros n Hn; inversion Hn | intros; apply same_entries_refl].
  - apply NoDup_cons in Hnd as (Ha & Hnd).
    set (s1 := set_reg (set_frequency_new a f)
                 (set_reg (set_channel_new a c) (set_reg (set_task_new a t) s))).
    destruct (enter_registered a t c f s) as (E1 & E2 & E3). fold s1 in E1, E2, E3.
    destruct (IH s1 Hnd) as (s' & Hr & Ho & Hin & Hout).
    { intros n Hn. destruct (E2 n) as (-> & _); [intros ->; contradiction|].
      apply Hfresh. right. exact Hn. }
    exists s'. split; [|split; [|split]].
    + cbn [add_channels]. eapply bind_Ret; [reflexivity|].
      rewrite (is_Some_false _ (Hfresh a (list_elem_of_here _ _))).
      eapply bind_Ret; [reflexivity|].
      eapply bind_Ret; [reflexivity|].
      eapply bind_Ret; [reflexivity|]. exact Hr.
    + eapply registry_only_trans; [exact E3 | exact Ho].
    + intros n Hn. apply elem_of_cons in Hn as [-> | Hn]; [|apply Hin, Hn].
      destruct (Hout a Ha) as (O1 & O2 & O3). destruct E1 as (R1 & R2 & R3).
      repeat split; congruence.
    + intros n Hn. apply not_elem_of_cons in Hn as (Hna & Hn).
      eapply same_entries_trans; [apply E2, Hna | apply Hout, Hn].
Qed.

Lemma add_channels_conflict (pre : list string) (c0 : string) (post : list string)
    (t : TaskHandle) (c : option string) (f : Q) :
  forall s : state,
    NoDup pre ->
    (forall n, n ∈ pre -> _clock_daq_task_new (reg s) !! n = None) ->
    c0 ∈ pre \/ is_Some (_clock_daq_task_new (reg s) !! c0) ->
    exists s',
      add_channels (pre ++ c0 :: post) t c f s = Ret (-1)%Z s'
      /\ (forall n, n ∈ pre -> registered n t c f (reg s'))
      /\ (forall n, n ∉ pre -> same_entries n (reg s) (reg s')).
Proof.
  induction pre as [|a rest IH]; intros s Hnd Hfresh Hc0.
  - destruct Hc0 as [Hc0 | Hc0]; [inversion Hc0|].
    eexists. split; [|split].
    + cbn [app add_channels]. eapply bind_Ret; [reflexivity|].
      destruct Hc0 as (x & Hx). rewrite (is_Some_true _ x Hx). reflexivity.
    + intros n Hn. inversion Hn.
    + intros n _. apply same_entries_refl.
  - apply NoDup_cons in Hnd as (Ha & Hnd).
    set (s1 := set_reg (set_frequency_new a f)
                 (set_reg (set_channel_new a c) (set_reg (set_task_new a t) s))).
    destruct (enter_registered a t c f s) as (E1 & E2 & E3). fold s1 in E1, E2, E3.
    destruct (IH s1 Hnd) as (s' & Hr & Hin & Hout).
    { intros n Hn. destruct (E2 n) as (-> & _); [intros ->; contradiction|].
      apply Hfresh. right. exact Hn. }
    { destruct Hc0 as [Hc0 | Hc0].
      - apply elem_of_cons in Hc0 as [-> | Hc0]; [|left; exact Hc0].
        right. destruct E1 as (-> & _). eauto.
      - destruct (decide (c0 = a)) as [-> | Hne].
        + right. destruct E1 as (-> & _). eauto.
        + right. destruct (E2 c0 Hne) as (-> & _). exact Hc0. }
    exists s'. split; [|split].
    + cbn [app add_channels]. eapply bind_Ret; [reflexivity|].
      rewrite (is_Some_false _ (Hfresh a (list_elem_of_here _ _))).
      eapply bind_Ret; [reflexivity|].
      eapply bind_Ret; [reflexivity|].
      eapply bind_Ret; [reflexivity|]. exact Hr.
    + intros n Hn. apply elem_of_cons in Hn as [-> | Hn]; [|apply Hin, Hn].
      destruct (Hout a Ha) as (O1 & O2 & O3). destruct E1 as (R1 & R2 & R3).
      repeat split; congruence.
    + intros n Hn. apply not_elem_of_cons in Hn as (Hna & Hn).
      eapply same_entries_trans; [apply E2, Hna | apply Hout, Hn].
Qed.

(** X14: [add_clock_task_to_channel] gives every new name the task, the
    channel and the frequency of the original.  When a name of the list already
    has a task, or occurs a second time, the call returns -1, but the names
    before it stay registered. *)
Theorem add_clock_task_to_channel_aliases (channel_name_orig : string)
    (channel_names : list string) (t : TaskHandle) (c : option string) (f : Q)
    (s : state) :
  registered channel_name_orig t c f (reg s) ->
  (NoDup channel_names ->
   (forall n, n ∈ channel_names -> _clock_daq_task_new (reg s) !! n = None) ->
   exists s',
     add_clock_task_to_channel channel_name_orig channel_names s = Ret 0%Z s'
     /\ (forall n, n ∈ channel_names -> registered n t c f (reg s'))
     /\ registered channel_name_orig t c f (reg s')
     /\ calls s' = calls s)
  /\ (forall pre c0 post,
        channel_names = pre ++ c0 :: post ->
        NoDup pre ->
        (forall n, n ∈ pre -> _clock_daq_task_new (reg s) !! n = None) ->
        c0 ∈ pre \/ is_Some (_clock_daq_task_new (reg s) !! c0) ->
        exists s',
          add_clock_task_to_channel channel_name_orig channel_names s = Ret (-1)%Z s'
          /\ (forall n, n ∈ pre -> registered n t c f (reg s'))).
Proof.
  intros (Ht & Hc & Hf).
  assert (Hstart : forall r : outcome state Z,
             add_channels channel_names t c f s = r ->
             add_clock_task_to_channel channel_name_orig channel_names s = r).
  { intros r Hr. unfold add_clock_task_to_channel. cbn [negb].
    eapply bind_Ret; [reflexivity|].
    rewrite (is_Some_true _ t Ht). cbn [negb].
    eapply bind_Ret; [unfold getitem; rewrite Ht; reflexivity|].
    eapply bind_Ret; [unfold getitem; rewrite Hc; reflexivity|].
    eapply bind_Ret; [unfold getitem; rewrite Hf; reflexivity|].
    exact Hr. }
  split.
  - intros Hnd Hfresh.
    destruct (add_channels_ok channel_names t c f s Hnd Hfresh)
      as (s' & Hr & Ho & Hin & Hout).
    exists s'. split; [apply Hstart, Hr|]. split; [exact Hin|].
    split; [|apply (registry_only_frame s s' Ho)].
    destruct (Hout channel_name_orig) as (O1 & O2 & O3).
    { intros Hin'. apply Hfresh in Hin'. congruence. }
    repeat split; congruence.
  - intros pre c0 post -> Hnd Hfresh Hc0.
    destruct (add_channels_conflict pre c0 post t c f s Hnd Hfresh Hc0)
      as (s' & Hr & Hin & _).
    exists s'. split; [apply Hstart, Hr | exact Hin].
Qed.

Lemma add_clock_task_to_channel_aliases_witness :
  (exists s',
      add_clock_task_to_channel "cavity" ["scanner"; "counter"]%string clocked_driver
      = Ret 0%Z s'
      /\ registered "counter" 0%nat (Some "/Dev1/Ctr2"%string) 100 (reg s'))
  /\ (exists s',
         add_clock_task_to_channel "cavity" ["scanner"; "scanner"]%string clocked_driver
         = Ret (-1)%Z s'
         /\ registered "scanner" 0%nat (Some "/Dev1/Ctr2"%string) 100 (reg s')).
Proof.
  split.
  - destruct (add_clock_task_to_channel_aliases "cavity" ["scanner"; "counter"]%string
                0%nat (Some "/Dev1/Ctr2"%string) 100 clocked_driver) as (Hok & _).
    + repeat split.
    + destruct Hok as (s' & Hr & Hin & _).
      * apply NoDup_cons. split; [|apply NoDup_singleton].
        intros H. apply list_elem_of_singleton in H. discriminate.
      * intros n Hn. apply elem_of_cons in Hn as [-> | Hn]; [reflexivity|].
        apply list_elem_of_singleton in Hn as ->. reflexivity.
      * exists s'. split; [exact Hr|]. apply Hin. right. left.
  - destruct (add_clock_task_to_channel_aliases "cavity" ["scanner"; "scanner"]%string
                0%nat (Some "/Dev1/Ctr2"%string) 100 clocked_driver) as (_ & Hbad).
    + repeat split.
    + destruct (Hbad ["scanner"%string] "scanner"%string []) as (s' & Hr & Hin).
      * reflexivity.
      * apply NoDup_singleton.
      * intros n Hn. apply list_elem_of_singleton in Hn as ->. reflexivity.
      * left. left.
      * exists s'. split; [exact Hr|]. apply Hin. left.
Defined.

(** ** Closing a clock *)

Lemma lift_Ret {A} (c : M state A) (s : closing) (a : A) (d : state) :
  c (driver s) = Ret a d -> lift c s = Ret a (with_driver d s).
Proof. intros H. unfold lift. rewrite H. reflexivity. Qed.

Lemma lift_Raise {A} (c : M state A) (s : closing) (e : exn) (d : state) :
  c (driver s) = Raise e d -> lift c s = Raise e (with_driver d s).
Proof. intros H. unfold lift. rewrite H. reflexivity. Qed.

Lemma keys_of_task_spec (t : TaskHandle) (m : gmap string TaskHandle) (k : string) :
  k ∈ keys_of_task t m <-> m !! k = Some t.
Proof.
  unfold keys_of_task. rewrite list_elem_of_fmap. split.
  - intros ([k' v] & -> & Hin). apply list_elem_of_filter in Hin as (Hv & Hin).
    cbn in Hv. subst v. apply elem_of_map_to_list in Hin. exact Hin.
  - intros Hk. exists (k, t). split; [reflexivity|].
    apply list_elem_of_filter. split; [reflexivity|].
    apply elem_of_map_to_list. exact Hk.
Qed.

Lemma keys_of_task_NoDup (t : TaskHandle) (m : gmap string TaskHandle) :
  NoDup (keys_of_task t m).
Proof.
  unfold keys_of_task.
  eapply sublist_NoDup; [apply (NoDup_fst_map_to_list m)|].
  apply fmap_sublist, sublist_filter.
Qed.

Lemma pop_task_ok (name : string) (t : TaskHandle) (s : state) :
  _clock_daq_task_new (reg s) !! name = Some t ->
  pop_task name s = Ret t (set_reg (del_task_new name) s).
Proof.
  intros H. unfold pop_task. eapply bind_Ret; [reflexivity|].
  eapply bind_Ret; [unfold getitem; rewrite H; reflexivity|]. reflexivity.
Qed.

Lemma pop_channel_ok (name : string) (c : option string) (s : state) :
  _clock_channel_new (reg s) !! name = Some c ->
  pop_channel name s = Ret c (set_reg (del_channel_new name) s).
Proof.
  intros H. unfold pop_channel. eapply bind_Ret; [reflexivity|].
  eapply bind_Ret; [unfold getitem; rewrite H; reflexivity|]. reflexivity.
Qed.

Lemma pop_channel_missing (name : string) (s : state) :
  _clock_channel_new (reg s) !! name = None ->
  pop_channel name s = Raise KeyError s.
Proof.
  intros H. unfold pop_channel. eapply bind_Ret; [reflexivity|].
  apply bind_Raise. unfold getitem. rewrite H. reflexivity.
Qed.

Lemma pop_frequency_ok (name : string) (f : Q) (s : state) :
  _clock_frequency_new (reg s) !! name = Some f ->
  pop_frequency name s = Ret f (set_reg (del_frequency_new name) s).
Proof.
  intros H. unfold pop_frequency. eapply bind_Ret; [reflexivity|].
  eapply bind_Ret; [unfold getitem; rewrite H; reflexivity|]. reflexivity.
Qed.

(** The registry after one name is removed. *)
Lemma leave_registry (a : string) (s : state) :
  let s1 := set_reg (del_frequency_new a)
              (set_reg (del_channel_new a) (set_reg (del_task_new a) s)) in
  no_entries a (reg s1)
  /\ (forall n, n <> a -> same_entries n (reg s) (reg s1))
  /\ registry_only s s1.
Proof.
  cbn. split; [|split].
  - repeat split; cbn; apply lookup_delete_eq.
  - intros n Hn. repeat split; cbn; apply lookup_delete_ne; congruence.
  - reflexivity.
Qed.

Lemma pop_keys_ok (key_list : list string) :
  forall s : state,
    NoDup key_list ->
    (forall k, k ∈ key_list ->
       is_Some (_clock_daq_task_new (reg s) !! k)
       /\ is_Some (_clock_channel_new (reg s) !! k)
       /\ is_Some (_clock_frequency_new (reg s) !! k)) ->
    exists s',
      pop_keys key_list s = Ret tt s'
      /\ registry_only s s'
      /\ (forall k, k ∈ key_list -> no_entries k (reg s'))
      /\ (forall k, k ∉ key_list -> same_entries k (reg s) (reg s')).
Proof.
  induction key_list as [|a rest IH]; intros s Hnd Hall.
  - exists s. split; [reflexivity|]. split; [apply registry_only_refl|].
    split; [intros k Hk; inversion Hk | intros; apply same_entries_refl].
  - apply NoDup_cons in Hnd as (Ha & Hnd).
    destruct (Hall a (list_elem_of_here _ _)) as ((t & Ht) & (c & Hc) & (f & Hf)).
    set (s1 := set_reg (del_frequency_new a)
                 (set_reg (del_channel_new a) (set_reg (del_task_new a) s))).
    destruct (leave_registry a s) as (E1 & E2 & E3). fold s1 in E1, E2, E3.
    destruct (IH s1 Hnd) as (s' & Hr & Ho & Hin & Hout).
    { intros k Hk. destruct (E2 k) as (-> & -> & ->); [intros ->; contradiction|].
      apply Hall. right. exact Hk. }
    exists s'. split; [|split; [|split]].
    + cbn [pop_keys].
      eapply bind_Ret; [apply pop_task_ok, Ht|].
      eapply bind_Ret; [apply pop_channel_ok; exact Hc|].
      eapply bind_Ret; [apply pop_frequency_ok; exact Hf|]. exact Hr.
    + eapply registry_only_trans; [exact E3 | exact Ho].
    + intros k Hk. apply elem_of_cons in Hk as [-> | Hk]; [|apply Hin, Hk].
      destruct (Hout a Ha) as (O1 & O2 & O3). destruct E1 as (R1 & R2 & R3).
      repeat split; congruence.
    + intros k Hk. apply not_elem_of_cons in Hk as (Hka & Hk).
      eapply same_entries_trans; [apply E2, Hka | apply Hout, Hk].
Qed.

Lemma restore_keys_ok (key_list : list string) (t : TaskHandle) (c : option string)
    (f : Q) :
  forall s : state,
    exists s',
      restore_keys key_list t c f s = Ret tt s'
      /\ registry_only s s'
      /\ (forall k, k ∈ key_list -> registered k t c f (reg s'))
      /\ (forall k, k ∉ key_list -> same_entries k (reg s) (reg s')).
Proof.
  induction key_list as [|a rest IH]; intros s.
  - exists s. split; [reflexivity|]. split; [apply registry_only_refl|].
    split; [intros k Hk; inversion Hk | intros; apply same_entries_refl].
  - set (s1 := set_reg (set_frequency_new a f)
                 (set_reg (set_channel_new a c) (set_reg (set_task_new a t) s))).
    destruct (enter_registered a t c f s) as (E1 & E2 & E3). fold s1 in E1, E2, E3.
    destruct (IH s1) as (s' & Hr & Ho & Hin & Hout).
    exists s'. split; [|split; [|split]].
    + cbn [restore_keys].
      eapply bind_Ret; [reflexivity|].
      eapply bind_Ret; [reflexivity|].
      eapply bind_Ret; [reflexivity|]. exact Hr.
    + eapply registry_only_trans; [exact E3 | exact Ho].
    + intros k Hk. destruct (decide (k ∈ rest)) as [Hkr | Hkr]; [apply Hin, Hkr|].
      apply elem_of_cons in Hk as [-> | Hk]; [|contradiction].
      destruct (Hout a Hkr) as (O1 & O2 & O3). destruct E1 as (R1 & R2 & R3).
      repeat split; congruence.
    + intros k Hk. apply not_elem_of_cons in Hk as (Hka & Hk).
      eapply same_entries_trans; [apply E2, Hka | apply Hout, Hk].
Qed.

(** [close_clock_new] up to the calls that release the task: the name and
    every other name of the task have left the registry. *)
Lemma close_clock_new_pops (name : string) (t : TaskHandle) (ch : option string)
    (fq : Q) (c : closing) :
  registered name t ch fq (reg (driver c)) ->
  complete_for t (reg (driver c)) ->
  exists (d : state) (key_list : list string),
    close_clock_new name c
    = try_except
        (release (DAQmxStopTask (Some t)) >>
         release (DAQmxClearTask (Some t)) >>
         ret 0%Z)
        (lift (logm Exception "Could not close clock.") >>
         lift (modify (set_reg (set_task_new name t))) >>
         lift (restore_keys key_list t ch fq) >>
         ret (-1)%Z)
        (with_driver d c)
    /\ registry_only (driver c) d
    /\ (name ∉ key_list)
    /\ (forall k, (k ∈ key_list)
                  <-> (k <> name /\ _clock_daq_task_new (reg (driver c)) !! k = Some t))
    /\ (forall k, _clock_daq_task_new (reg (driver c)) !! k = Some t -> no_entries k (reg d))
    /\ (forall k, _clock_daq_task_new (reg (driver c)) !! k <> Some t ->
                  same_entries k (reg (driver c)) (reg d)).
Proof.
  intros (Ht & Hc & Hf) Hcomplete.
  set (d0 := driver c) in *.
  set (d3 := set_reg (del_frequency_new name)
               (set_reg (del_channel_new name) (set_reg (del_task_new name) d0))).
  destruct (leave_registry name d0) as (E1 & E2 & E3). fold d3 in E1, E2, E3.
  set (key_list := keys_of_task t (_clock_daq_task_new (reg d3))).
  assert (Hkeys : forall k, (k ∈ key_list)
                            <-> (k <> name /\ _clock_daq_task_new (reg d0) !! k = Some t)).
  { intros k. unfold key_list. rewrite keys_of_task_spec. split.
    - intros Hk. destruct (decide (k = name)) as [-> | Hne].
      + destruct E1 as (E1 & _). congruence.
      + split; [exact Hne|]. destruct (E2 k Hne) as (<- & _). exact Hk.
    - intros (Hne & Hk). destruct (E2 k Hne) as (-> & _). exact Hk. }
  destruct (pop_keys_ok key_list d3) as (d4 & Hr & Ho & Hin & Hout).
  { apply keys_of_task_NoDup. }
  { intros k Hk. apply Hkeys in Hk as (Hne & Hk).
    destruct (E2 k Hne) as (-> & -> & ->).
    split; [eauto|]. apply Hcomplete. exact Hk. }
  assert (Hname : name ∉ key_list).
  { intros Hk. apply Hkeys in Hk as (Hne & _). contradiction. }
  exists d4, key_list.
  split; [|split; [|split; [exact Hname|split; [exact Hkeys|split]]]].
  - unfold close_clock_new.
    eapply bind_Ret; [reflexivity|].
    fold d0. rewrite (is_Some_true _ t Ht).
    eapply bind_Ret; [apply lift_Ret, pop_task_ok; exact Ht|].
    eapply bind_Ret; [apply lift_Ret, pop_channel_ok; exact Hc|].
    eapply bind_Ret; [apply lift_Ret, pop_frequency_ok; exact Hf|].
    eapply bind_Ret; [reflexivity|].
    eapply bind_Ret; [apply lift_Ret; exact Hr|]. reflexivity.
  - eapply registry_only_trans; [exact E3 | exact Ho].
  - intros k Hk. destruct (decide (k = name)) as [-> | Hne].
    + destruct (Hout name Hname) as (O1 & O2 & O3). destruct E1 as (R1 & R2 & R3).
      repeat split; congruence.
    + apply Hin, Hkeys. split; assumption.
  - intros k Hk.
    assert (Hne : k <> name) by (intros ->; contradiction).
    eapply same_entries_trans; [apply E2, Hne|]. apply Hout.
    intros Hin'. apply Hkeys in Hin' as (_ & Hin'). contradiction.
Qed.

(** X15: on a board that stops and clears the task, [close_clock_new]
    returns 0, releases the task with exactly these two calls, and removes the
    name together with every other name of the same task from the registry;
    the entries of other tasks stay. *)
Theorem close_clock_new_releases (name : string) (t : TaskHandle) (ch : option string)
    (fq : Q) (c : closing) :
  registered name t ch fq (reg (driver c)) ->
  complete_for t (reg (driver c)) ->
  release_raises c (DAQmxStopTask (Some t)) = false ->
  release_raises c (DAQmxClearTask (Some t)) = false ->
  exists c',
    close_clock_new name c = Ret 0%Z c'
    /\ released c' = DAQmxClearTask (Some t) :: DAQmxStopTask (Some t) :: released c
    /\ (forall k, _clock_daq_task_new (reg (driver c)) !! k = Some t ->
                  no_entries k (reg (driver c')))
    /\ (forall k, _clock_daq_task_new (reg (driver c)) !! k <> Some t ->
                  same_entries k (reg (driver c)) (reg (driver c')))
    /\ calls (driver c') = calls (driver c).
Proof.
  intros Hreg Hcomplete Hstop Hclear.
  destruct (close_clock_new_pops name t ch fq c Hreg Hcomplete)
    as (d & key_list & Hrun & Ho & _ & _ & Hgone & Hkept).
  exists {| driver := d; release_raises := release_raises c;
            released := DAQmxClearTask (Some t) :: DAQmxStopTask (Some t) :: released c |}.
  split; [|split; [reflexivity|split; [exact Hgone|split; [exact Hkept|]]]].
  - rewrite Hrun. apply try_except_Ret.
    eapply bind_Ret; [unfold release; cbn; rewrite Hstop; reflexivity|].
    eapply bind_Ret; [unfold release; cbn; rewrite Hclear; reflexivity|].
    reflexivity.
  - apply (registry_only_frame _ _ Ho).
Qed.

Lemma close_clock_new_releases_witness :
  exists c',
    close_clock_new "cavity" (closing_on clocked_driver) = Ret 0%Z c'
    /\ released c' = [DAQmxClearTask (Some 0%nat); DAQmxStopTask (Some 0%nat)]
    /\ no_entries "cavity" (reg (driver c')).
Proof.
  destruct (close_clock_new_releases "cavity" 0%nat (Some "/Dev1/Ctr2"%string) 100
              (closing_on clocked_driver)) as (c' & Hr & Hrel & Hgone & _).
  - repeat split.
  - intros k Hk. cbn in Hk. apply lookup_singleton_Some in Hk as (<- & _).
    split; cbn; rewrite lookup_singleton_eq; eauto.
  - reflexivity.
  - reflexivity.
  - exists c'. split; [exact Hr|]. split; [exact Hrel|]. apply Hgone. reflexivity.
Defined.

(** X16: when the board refuses to stop the task, [close_clock_new] returns
    -1 and puts the task back under the name, but not the name's channel and
    frequency; the other names of the task come back with the channel and
    frequency of the closed name.  A second [close_clock_new] of the name then
    raises [KeyError] on the missing channel, after the task entry has been
    removed and without any call to the board. *)
Theorem close_clock_new_failure (name : string) (t : TaskHandle) (ch : option string)
    (fq : Q) (c : closing) :
  registered name t ch fq (reg (driver c)) ->
  complete_for t (reg (driver c)) ->
  release_raises c (DAQmxStopTask (Some t)) = true ->
  exists c',
    close_clock_new name c = Ret (-1)%Z c'
    /\ released c' = DAQmxStopTask (Some t) :: released c
    /\ _clock_daq_task_new (reg (driver c')) !! name = Some t
    /\ _clock_channel_new (reg (driver c')) !! name = None
    /\ _clock_frequency_new (reg (driver c')) !! name = None
    /\ (forall k, k <> name -> _clock_daq_task_new (reg (driver c)) !! k = Some t ->
                  registered k t ch fq (reg (driver c')))
    /\ exists c'',
         close_clock_new name c' = Raise KeyError c''
         /\ _clock_daq_task_new (reg (driver c'')) !! name = None
         /\ released c'' = released c'.
Proof.
  intros Hreg Hcomplete Hstop.
  destruct (close_clock_new_pops name t ch fq c Hreg Hcomplete)
    as (d & key_list & Hrun & Ho & Hname & Hkeys & Hgone & Hkept).
  set (d5 := add_log Exception "Could not close clock." d).
  set (d6 := set_reg (set_task_new name t) d5).
  destruct (restore_keys_ok key_list t ch fq d6) as (d7 & Hr & Ho7 & Hin & Hout).
  destruct (Hgone name (proj1 Hreg)) as (G1 & G2 & G3).
  destruct (Hout name Hname) as (O1 & O2 & O3).
  assert (T7 : _clock_daq_task_new (reg d7) !! name = Some t).
  { rewrite O1. cbn. apply lookup_insert_eq. }
  assert (C7 : _clock_channel_new (reg d7) !! name = None).
  { rewrite O2. cbn. exact G2. }
  assert (F7 : _clock_frequency_new (reg d7) !! name = None).
  { rewrite O3. cbn. exact G3. }
  exists {| driver := d7; release_raises := release_raises c;
            released := DAQmxStopTask (Some t) :: released c |}.
  split; [|split; [reflexivity|split; [exact T7|split; [exact C7|split; [exact F7|split]]]]].
  - rewrite Hrun. eapply try_except_Raise.
    + apply bind_Raise. unfold release. cbn. rewrite Hstop. reflexivity.
    + eapply bind_Ret; [apply lift_Ret; reflexivity|].
      eapply bind_Ret; [apply lift_Ret; reflexivity|].
      eapply bind_Ret; [apply lift_Ret; exact Hr|]. reflexivity.
  - intros k Hne Hk. apply Hin, Hkeys. split; assumption.
  - eexists. split; [|split].
    + unfold close_clock_new.
      eapply bind_Ret; [reflexivity|].
      cbn [driver]. rewrite (is_Some_true _ t T7).
      eapply bind_Ret; [apply lift_Ret, pop_task_ok; exact T7|].
      apply bind_Raise. apply lift_Raise, pop_channel_missing. exact C7.
    + cbn. apply lookup_delete_eq.
    + reflexivity.
Qed.

Lemma close_clock_new_failure_witness :
  exists c' c'',
    close_clock_new "cavity" stuck_board = Ret (-1)%Z c'
    /\ close_clock_new "cavity" c' = Raise KeyError c''.
Proof.
  destruct (close_clock_new_failure "cavity" 0%nat (Some "/Dev1/Ctr2"%string) 100
              stuck_board) as (c' & Hr & _ & _ & _ & _ & _ & c'' & Hr2 & _).
  - repeat split.
  - intros k Hk. cbn in Hk. apply lookup_singleton_Some in Hk as (<- & _).
    split; cbn; rewrite lookup_singleton_eq; eauto.
  - reflexivity.
  - exists c', c''. split; [exact Hr | exact Hr2].
Defined.

(** ** The fixed-role clocks *)

Lemma no_clock_running (b : bool) :
  b && negb (bool_decide (@None TaskHandle = None) && bool_decide (@None TaskHandle = None))
  = false.
Proof. destruct b; reflexivity. Qed.

Lemma set_up_clock_fresh (clock_frequency : option Q) (clock_channel : option string)
    (scanner idle : bool) (s : state) :
  _clock_daq_task (clk s) = None ->
  _scanner_clock_daq_task (clk s) = None ->
  (forall call, daq_raises (hw s) call = false) ->
  exists s',
    set_up_clock clock_frequency clock_channel scanner idle s = Ret 0%Z s'
    /\ role_task scanner s' = Some (length (calls s))
    /\ role_task (negb scanner) s' = None
    /\ role_channel scanner s' = requested_channel clock_channel scanner s
    /\ _clock_channel_new (reg s') !! role_name scanner = Some (role_channel scanner s').
Proof.
  intros Hc Hs Hq.
  unfold set_up_clock, try_except, bind, gets, modify, logm, daq, new_task, ret,
    role_task, role_channel, role_name, requested_channel.
  rewrite Hc, Hs.
  destruct scanner, clock_frequency, clock_channel;
    repeat (cbn; rewrite ?Hc, ?Hs, ?no_clock_running, ?Hq; try case_if).
  all: eexists; (split; [reflexivity|]); cbn.
  all: rewrite ?lookup_insert_eq, ?Hc, ?Hs; repeat split.
Qed.

Lemma close_clock_ok (scanner : bool) (c : closing) (h : TaskHandle)
    (ch : option string) :
  role_task scanner (driver c) = Some h ->
  _clock_channel_new (reg (driver c)) !! role_name scanner = Some ch ->
  release_raises c (DAQmxStopTask (Some h)) = false ->
  release_raises c (DAQmxClearTask (Some h)) = false ->
  exists c',
    close_clock scanner c = Ret 0%Z c'
    /\ role_task scanner (driver c') = None
    /\ role_task (negb scanner) (driver c') = role_task (negb scanner) (driver c)
    /\ _clock_channel_new (reg (driver c')) !! role_name scanner = None
    /\ released c' = DAQmxClearTask (Some h) :: DAQmxStopTask (Some h) :: released c.
Proof.
  intros Hrole Hbook Hstop Hclear.
  unfold close_clock, lift, pop_channel, getitem, try_except, bind, gets, modify, logm,
    release, ret.
  unfold role_task in Hrole. unfold role_name in Hbook.
  destruct scanner; cbn in Hrole, Hbook |- *;
    rewrite Hrole, Hstop; cbn; rewrite Hclear; cbn; rewrite Hbook; cbn;
    (eexists; split; [reflexivity|]); cbn;
    rewrite lookup_delete_eq; repeat split.
Qed.

(** X17: with no clock running and a board that accepts every call,
    [set_up_clock] returns 0, keeps the new task under its role and books the
    role's channel under "Scanner" or "Counter"; [close_clock] then stops and
    clears that task, frees the role and removes the booking, returning 0. *)
Theorem set_up_clock_then_close (clock_frequency : option Q)
    (clock_channel : option string) (scanner idle : bool) (c : closing) :
  _clock_daq_task (clk (driver c)) = None ->
  _scanner_clock_daq_task (clk (driver c)) = None ->
  (forall call, daq_raises (hw (driver c)) call = false) ->
  (forall call, release_raises c call = false) ->
  let h := length (calls (driver c)) in
  exists c1 c2,
    lift (set_up_clock clock_frequency clock_channel scanner idle) c = Ret 0%Z c1
    /\ role_task scanner (driver c1) = Some h
    /\ role_channel scanner (driver c1)
       = requested_channel clock_channel scanner (driver c)
    /\ _clock_channel_new (reg (driver c1)) !! role_name scanner
       = Some (role_channel scanner (driver c1))
    /\ close_clock scanner c1 = Ret 0%Z c2
    /\ role_task scanner (driver c2) = None
    /\ role_task (negb scanner) (driver c2) = None
    /\ _clock_channel_new (reg (driver c2)) !! role_name scanner = None
    /\ released c2 = DAQmxClearTask (Some h) :: DAQmxStopTask (Some h) :: released c.
Proof.
  intros Hc Hs Hq Hrel h.
  destruct (set_up_clock_fresh clock_frequency clock_channel scanner idle (driver c)
              Hc Hs Hq) as (d1 & Hr & Ht & Ho & Hch & Hbook).
  destruct (close_clock_ok scanner (with_driver d1 c) h (role_channel scanner d1))
    as (c2 & Hr2 & Ht2 & Ho2 & Hb2 & Hrel2); try assumption; try apply Hrel.
  exists (with_driver d1 c), c2.
  split; [apply lift_Ret, Hr|]. split; [exact Ht|]. split; [exact Hch|].
  split; [exact Hbook|]. split; [exact Hr2|]. split; [exact Ht2|].
  split; [rewrite Ho2; exact Ho|]. split; [exact Hb2 | exact Hrel2].
Qed.

Lemma set_up_clock_then_close_witness :
  exists c1 c2,
    lift (set_up_clock (Some 100) None true false) (closing_on fresh_driver) = Ret 0%Z c1
    /\ role_task true (driver c1) = Some 0%nat
    /\ close_clock true c1 = Ret 0%Z c2
    /\ role_task true (driver c2) = None.
Proof.
  destruct (set_up_clock_then_close (Some 100) None true false (closing_on fresh_driver))
    as (c1 & c2 & Hr & Ht & _ & _ & Hr2 & Ht2 & _).
  - reflexivity.
  - reflexivity.
  - intros call. reflexivity.
  - intros call. reflexivity.
  - exists c1, c2. split; [exact Hr|]. split; [exact Ht|]. split; [exact Hr2 | exact Ht2].
Defined.

(** X18: when the board releases the task but the registry holds no booking
    under "Scanner" or "Counter", [close_clock] still stops and clears the
    task and frees the role, yet reports -1; with the booking in place it
    reports 0.  When the board refuses to stop the task, nothing changes but
    the log. *)
Theorem close_clock_outcomes (scanner : bool) (c : closing) (h : TaskHandle) :
  role_task scanner (driver c) = Some h ->
  (release_raises c (DAQmxStopTask (Some h)) = false ->
   release_raises c (DAQmxClearTask (Some h)) = false ->
   exists c',
     close_clock scanner c
     = Ret (match _clock_channel_new (reg (driver c)) !! role_name scanner with
            | Some _ => 0
            | None => -1
            end)%Z c'
     /\ role_task scanner (driver c') = None
     /\ _clock_channel_new (reg (driver c')) !! role_name scanner = None
     /\ released c' = DAQmxClearTask (Some h) :: DAQmxStopTask (Some h) :: released c)
  /\ (release_raises c (DAQmxStopTask (Some h)) = true ->
      exists c',
        close_clock scanner c = Ret (-1)%Z c'
        /\ role_task scanner (driver c') = Some h
        /\ reg (driver c') = reg (driver c)
        /\ released c' = DAQmxStopTask (Some h) :: released c).
Proof.
  intros Hrole. split.
  - intros Hstop Hclear.
    destruct (_clock_channel_new (reg (driver c)) !! role_name scanner) as [ch|] eqn:Hbook.
    + destruct (close_clock_ok scanner c h ch Hrole Hbook Hstop Hclear)
        as (c' & Hr & Ht & _ & Hb & Hrel).
      exists c'. split; [exact Hr|]. split; [exact Ht|]. split; [exact Hb | exact Hrel].
    + unfold close_clock, lift, pop_channel, getitem, try_except, bind, gets, modify,
        logm, release, ret.
      unfold role_task in Hrole. unfold role_name in Hbook.
      destruct scanner; cbn in Hrole, Hbook |- *;
        rewrite Hrole, Hstop; cbn; rewrite Hclear; cbn; rewrite Hbook; cbn;
        (eexists; split; [reflexivity|]); cbn; rewrite Hbook; repeat split.
  - intros Hstop.
    unfold close_clock, lift, try_except, bind, gets, modify, logm, release, ret.
    unfold role_task in Hrole.
    destruct scanner; cbn in Hrole |- *; rewrite Hrole, Hstop; cbn;
      (eexists; split; [reflexivity|]); cbn; rewrite Hrole; repeat split.
Qed.

Lemma close_clock_outcomes_witness :
  exists c',
    close_clock false (closing_on shared_driver) = Ret (-1)%Z c'
    /\ role_task false (driver c') = None
    /\ released c' = [DAQmxClearTask (Some 5%nat); DAQmxStopTask (Some 5%nat)].
Proof.
  destruct (close_clock_outcomes false (closing_on shared_driver) 5%nat) as (Hok & _).
  - reflexivity.
  - destruct Hok as (c' & Hr & Ht & _ & Hrel); [reflexivity | reflexivity|].
    exists c'. split; [exact Hr|]. split; [exact Ht | exact Hrel].
Defined.



End NationalInstrumentsExtra.

(** * Further properties of the pentacene pulse generators *)

Module PentaceneExtra.

Import PentaceneMethods PentaceneMore PentaceneProofs.

Local Open Scope Q_scope.


Section Generators.

Variable count_length : PulseBlockEnsemble -> list PulseBlock -> Q.
Variable self : generator.
Variable microwave_channel : string.

Lemma finish_parts (name : string) (block : PulseBlock) (repetitions : Z)
    (alt : bool) (var : list Q) (u l : string * string) (lasers : Z) :
  let g := finish count_length self name block repetitions alt var u l lasers in
  exists mi,
    block_of g = Some block /\ info_of g = Some mi
    /\ repetitions_of g = Some repetitions
    /\ in_rotating_frame g = Some false
    /\ alternating mi = alt /\ controlled_variable mi = var
    /\ number_of_lasers mi = lasers /\ laser_ignore_list mi = [].
Proof.
  unfold finish, _add_trigger.
  destruct (String.eqb (sync_channel self) ""); cbn; eexists; repeat split.
Qed.



(** X21: [generate_rabi_NV_red_read] puts two gated laser elements into
    its block, the read laser and the initialisation laser, so that twice as
    many gated lasers are played as the [num_of_points] it reports.  A read
    channel, when given, is switched on in the read laser element and the
    ordinary laser channel off (unless it is the read or the extra gate
    channel); an extra gate channel is switched on as well. *)
Theorem rabi_NV_red_read_lasers (name : string) (tau_start tau_step : Q)
    (num_of_points : Z) (t_laser_init t_wait_between : Q)
    (laser_read_ch add_gate_ch : string) :
  let g :=
    generate_rabi_NV_red_read count_length self name tau_start tau_step num_of_points
      t_laser_init t_wait_between laser_read_ch add_gate_ch in
  exists blk mi e,
    block_of g = Some blk /\ info_of g = Some mi
    /\ repetitions_of g = Some (num_of_points - 1)%Z
    /\ alternating mi = false
    /\ number_of_lasers mi = num_of_points
    /\ lasers_played blk (num_of_points - 1) = (2 * num_of_points)%Z
    /\ element_list blk !! 1%nat = Some e
    /\ kind e = LaserGate (laser_length self) 0
    /\ (laser_read_ch <> ""%string ->
        (add_gate_ch = ""%string \/ add_gate_ch <> laser_read_ch ->
         digital_high e !! laser_read_ch = Some true)
        /\ (laser_channel self <> laser_read_ch ->
            laser_channel self <> add_gate_ch ->
            digital_high e !! laser_channel self = Some false))
    /\ (add_gate_ch <> ""%string -> digital_high e !! add_gate_ch = Some true)
    /\ (laser_read_ch = ""%string -> add_gate_ch = ""%string -> digital_high e = ∅).
Proof.
  intros g. subst g. unfold generate_rabi_NV_red_read.
  match goal with
  | |- context [finish _ _ ?n ?b ?r ?a ?v ?u ?l ?k] =>
      destruct (finish_parts n b r a v u l k)
        as (mi & Hb & Hi & Hr & _ & Ha & Hv & Hn & _)
  end.
  eexists. exists mi. eexists.
  split; [exact Hb|]. split; [exact Hi|]. split; [exact Hr|]. split; [exact Ha|].
  split; [exact Hn|].
  split; [|split; [reflexivity|split]].
  - unfold lasers_played. rewrite !count_block_append.
    destruct (negb (laser_read_ch =? "")%string), (negb (add_gate_ch =? "")%string);
      cbn; lia.
  - destruct (negb (laser_read_ch =? "")%string), (negb (add_gate_ch =? "")%string);
      reflexivity.
  - split; [|split].
    + intros Hread. apply String.eqb_neq in Hread. rewrite Hread. cbn [negb].
      split.
      * intros Hgate. destruct (String.eqb_spec add_gate_ch ""); cbn [negb].
        -- cbn. apply lookup_insert_eq.
        -- cbn. destruct (decide (add_gate_ch = laser_read_ch)) as [-> | Hne].
           ++ apply lookup_insert_eq.
           ++ rewrite lookup_insert_ne by exact Hne. apply lookup_insert_eq.
      * intros H1 H2. destruct (String.eqb_spec add_gate_ch ""); cbn [negb]; cbn.
        -- rewrite lookup_insert_ne by congruence. apply lookup_insert_eq.
        -- rewrite !lookup_insert_ne by congruence. apply lookup_insert_eq.
    + intros Hgate. apply String.eqb_neq in Hgate. rewrite Hgate. cbn [negb].
      destruct (negb (laser_read_ch =? "")%string); cbn; apply lookup_insert_eq.
    + intros -> ->. reflexivity.
Qed.


End Generators.


Lemma rabi_NV_red_read_lasers_witness :
  exists blk mi e,
    block_of (generate_rabi_NV_red_read (fun _ _ => 0) default_generator "rabi_red"
                (1 # 100000000) (1 # 100000000) 50 (1 # 100000) (1 # 100000000)
                "d_ch3" "d_ch5") = Some blk
    /\ number_of_lasers mi = 50%Z
    /\ lasers_played blk 49 = 100%Z
    /\ element_list blk !! 1%nat = Some e
    /\ digital_high e !! "d_ch3"%string = Some true
    /\ digital_high e !! "d_ch1"%string = Some false
    /\ digital_high e !! "d_ch5"%string = Some true.
Proof.
  destruct (rabi_NV_red_read_lasers (fun _ _ => 0) default_generator "rabi_red"
              (1 # 100000000) (1 # 100000000) 50 (1 # 100000) (1 # 100000000)
              "d_ch3" "d_ch5")
    as (blk & mi & e & Hb & _ & _ & _ & Hn & Hp & He & _ & Hread & Hgate & _).
  destruct Hread as (Hr1 & Hr2); [discriminate|].
  exists blk, mi, e. split; [exact Hb|]. split; [exact Hn|]. split; [exact Hp|].
  split; [exact He|].
  split; [apply Hr1; right; discriminate|].
  split; [apply Hr2; discriminate | apply Hgate; discriminate].
Defined.


End PentaceneExtra.

(** * Further properties of the cavity-stabilisation console *)

Module CavityStabilisationExtra.

Import CavityStabilisationGui CavityStabilisationProofs.

Local Open Scope Q_scope.

Section Console.

Variable calculate_resolution : Z -> Q * Q -> Q.

Lemma handler_result (depth : nat) (s : state) :
  let m := maximal_resolution calculate_resolution s in
  scan_resolution_changed calculate_resolution depth s
  = if Qltb (scan_resolution_spinBox s) m
    then set_spinBox m
           (set_scan_resolution m
              (warn "Maximum scan resolution of scanning device exceeded! Set scan resolution to maximum value." s))
    else set_scan_resolution (scan_resolution_spinBox s) s.
Proof.
  intros m.
  destruct depth as [|depth]; cbn [scan_resolution_changed];
    fold (maximal_resolution calculate_resolution s); fold m;
    (destruct (Qltb (scan_resolution_spinBox s) m) eqn:Hlt; [|reflexivity]);
    unfold setValue; cbn [scan_resolution_spinBox set_scan_resolution warn];
    (destruct (Qeq_bool (scan_resolution_spinBox s) m) eqn:E;
     [exfalso; apply Qeq_bool_eq in E; apply Qltb_lt in Hlt;
      rewrite E in Hlt; exact (Qlt_irrefl _ Hlt)|]).
  - reflexivity.
  - destruct depth as [|depth]; cbn [scan_resolution_changed];
      cbn [_start_voltage _end_voltage scan_resolution_spinBox set_spinBox
             set_scan_resolution warn];
      fold (maximal_resolution calculate_resolution s); fold m;
      rewrite Qltb_irrefl; reflexivity.
Qed.

(** X23: whatever the nesting of signal deliveries, after
    [scan_resolution_changed] the logic's resolution and the spin box hold the
    same value, which is not below the computed maximum; the voltages are
    untouched, at most one warning is logged, and running the handler again
    changes nothing. *)
Theorem scan_resolution_changed_settles (depth depth' : nat) (s : state) :
  let m := maximal_resolution calculate_resolution s in
  let s' := scan_resolution_changed calculate_resolution depth s in
  _scan_resolution s' = scan_resolution_spinBox s'
  /\ m <= _scan_resolution s'
  /\ maximal_resolution calculate_resolution s' = m
  /\ _start_voltage s' = _start_voltage s /\ _end_voltage s' = _end_voltage s
  /\ (length (log s') <= S (length (log s)))%nat
  /\ scan_resolution_changed calculate_resolution depth' s' = s'.
Proof.
  intros m s'. subst s'. rewrite handler_result. fold m.
  destruct (Qltb (scan_resolution_spinBox s) m) eqn:Hlt.
  - split; [reflexivity|]. split; [apply Qle_refl|]. split; [reflexivity|].
    split; [reflexivity|]. split; [reflexivity|]. split; [cbn; lia|].
    rewrite handler_result.
    cbn [maximal_resolution _start_voltage _end_voltage scan_resolution_spinBox
           set_spinBox set_scan_resolution warn].
    fold (maximal_resolution calculate_resolution s). fold m.
    rewrite Qltb_irrefl. reflexivity.
  - assert (Hle : m <= scan_resolution_spinBox s).
    { apply Qnot_lt_le. intros H. apply Qltb_lt in H. congruence. }
    split; [reflexivity|]. split; [exact Hle|]. split; [reflexivity|].
    split; [reflexivity|]. split; [reflexivity|]. split; [cbn; lia|].
    rewrite handler_result.
    change (maximal_resolution calculate_resolution
              (set_scan_resolution (scan_resolution_spinBox s) s)) with m.
    cbn [scan_resolution_spinBox set_scan_resolution].
    rewrite Hlt. reflexivity.
Qed.

End Console.

End CavityStabilisationExtra.
